(** * The ephemeral file-exchange servers of mcp-docs, embedded in Rocq

    The development follows the Python sources:
    - [Py]: the fragments of the Python library the servers call
      (str and bytes methods, the UTF-8 codec, [base64], [os.path],
      [urllib.parse.quote]);
    - [FilesServer]: [files_server.py];
    - [UnifiedServer]: [unified_server.py];
    - [FileServer]: [file_server.py];
    - [FileShareServer]: [file_share_server.py].

    A Python [str] is the list of its code points, a [bytes] object the
    list of its byte values, both as [list N].  A dictionary read from
    a registry document is a [gmap] keyed by the identifier.  Time is an
    integer: [datetime] values are counted in microseconds, and
    [int(time.time())] is a count of whole seconds. *)

From Stdlib Require Import ZArith NArith List Ascii String Lia Bool DecimalString.
From stdpp Require Import base option list gmap.

Ltac Zify.zify_post_hook ::= Z.to_euclidean_division_equations.

(** ** Exceptions and results *)

Inductive exn : Type :=
| UnicodeEncodeError
| UnicodeDecodeError
| BinasciiError
| ValueError
| IndexError
| JSONDecodeError
| FileNotFoundError
| IsADirectoryError
| NotADirectoryError
| FileExistsError.

Inductive result (A : Type) : Type :=
| Ok (a : A)
| Raise (e : exn).
Arguments Ok {A} a.
Arguments Raise {A} e.

Definition rbind {A B : Type} (r : result A) (k : A -> result B) : result B :=
  match r with
  | Ok a => k a
  | Raise e => Raise e
  end.

Notation "'try!' x <- r ; k" := (rbind r (fun x => k))
  (at level 10, x name, r at level 100, k at level 200).

Module Py.

Local Open Scope N_scope.

(** The code points of an ASCII literal. *)
Definition py (s : string) : list N :=
  List.map N_of_ascii (list_ascii_of_string s).

(** *** Sequence methods shared by [str] and [bytes] *)

(** [l.startswith(p)] *)
Fixpoint startswith (p l : list N) : bool :=
  match p, l with
  | [], _ => true
  | _ :: _, [] => false
  | a :: p', b :: l' => (a =? b) && startswith p' l'
  end.

(** [l.find(sub)], counted from [i]: the first index at which [sub]
    occurs, or [-1]. *)
Fixpoint find_from (sub l : list N) (i : Z) {struct l} : Z :=
  if startswith sub l then i
  else match l with
       | [] => (-1)%Z
       | _ :: l' => find_from sub l' (i + 1)%Z
       end.

Definition find (sub l : list N) : Z := find_from sub l 0%Z.

(** [l.find(sub, start)] for [start >= 0]. *)
Definition find_at (sub l : list N) (start : Z) : Z :=
  let k := Z.to_nat (Z.min start (Z.of_nat (length l))) in
  if (Z.of_nat (length l) <? start)%Z then (-1)%Z
  else find_from sub (drop k l) (Z.of_nat k).

(** [sub in l] *)
Definition contains (sub l : list N) : bool :=
  negb (find sub l =? -1)%Z.

(** [l.rfind(c)] for a one-character [c]. *)
Fixpoint rfind_from (c : N) (l : list N) (i last : Z) : Z :=
  match l with
  | [] => last
  | x :: l' => rfind_from c l' (i + 1)%Z (if x =? c then i else last)
  end.

Definition rfind (c : N) (l : list N) : Z := rfind_from c l 0%Z (-1)%Z.

(** A slice bound as Python clamps it: negative bounds count from the
    end, and everything is cut to [0 .. len]. *)
Definition clamp (len k : Z) : Z :=
  if (k <? 0)%Z then Z.max (k + len) 0 else Z.min k len.

(** [l[i:j]] *)
Definition slice (l : list N) (i j : Z) : list N :=
  let len := Z.of_nat (length l) in
  let i' := clamp len i in
  let j' := clamp len j in
  take (Z.to_nat (j' - i')) (drop (Z.to_nat i') l).

(** [l[i:]] *)
Definition slice_from (l : list N) (i : Z) : list N :=
  drop (Z.to_nat (clamp (Z.of_nat (length l)) i)) l.

(** [l[:j]] *)
Definition slice_to (l : list N) (j : Z) : list N :=
  take (Z.to_nat (clamp (Z.of_nat (length l)) j)) l.

(** [l.split(sep)] for a non-empty [sep]: [skip] counts the characters
    of a separator just matched that are still to be passed over. *)
Fixpoint split_aux (sep l : list N) (skip : nat) (cur : list N)
  : list (list N) :=
  match l with
  | [] => [rev cur]
  | c :: l' =>
      match skip with
      | S k => split_aux sep l' k cur
      | O =>
          if startswith sep l
          then rev cur :: split_aux sep l' (length sep - 1) []
          else split_aux sep l' 0 (c :: cur)
      end
  end.

Definition split (sep l : list N) : list (list N) := split_aux sep l 0 [].

(** [l.split(c, 1)] for a one-character [c]: at most one cut, at the
    first occurrence. *)
Fixpoint split1_aux (c : N) (l cur : list N) : list (list N) :=
  match l with
  | [] => [rev cur]
  | x :: l' => if x =? c then [rev cur; l'] else split1_aux c l' (x :: cur)
  end.

Definition split1 (c : N) (l : list N) : list (list N) := split1_aux c l [].

(** Dropping the longest prefix whose elements satisfy [p]. *)
Fixpoint drop_while (p : N -> bool) (l : list N) : list N :=
  match l with
  | [] => []
  | x :: l' => if p x then drop_while p l' else l
  end.

(** [l.rstrip(chars)] *)
Definition rstrip (chars l : list N) : list N :=
  rev (drop_while (fun x => existsb (N.eqb x) chars) (rev l)).

(** [c * n] for a one-character [c] and an int [n]. *)
Definition repeat_char (c : N) (n : Z) : list N := replicate (Z.to_nat n) c.

(** [str(z)] for an int. *)
Definition str_of_int (z : Z) : list N :=
  py (NilZero.string_of_int (Z.to_int z)).

(** *** The UTF-8 codec *)

Definition is_surrogate (c : N) : bool := (0xD800 <=? c) && (c <=? 0xDFFF).

(** The bytes of one code point; [None] where the codec raises
    (a lone surrogate, or a value that is no code point). *)
Definition utf8_encode_char (c : N) : option (list N) :=
  if c <? 0x80 then Some [c]
  else if c <? 0x800 then Some [0xC0 + c / 64; 0x80 + c mod 64]
  else if is_surrogate c then None
  else if c <? 0x10000 then
    Some [0xE0 + c / 4096; 0x80 + (c / 64) mod 64; 0x80 + c mod 64]
  else if c <? 0x110000 then
    Some [0xF0 + c / 262144; 0x80 + (c / 4096) mod 64;
          0x80 + (c / 64) mod 64; 0x80 + c mod 64]
  else None.

(** The code points [encode('utf-8')] accepts. *)
Definition encodable (c : N) : bool :=
  (c <? 0x110000) && negb (is_surrogate c).

(** [s.encode('utf-8')] *)
Fixpoint utf8_encode (s : list N) : result (list N) :=
  match s with
  | [] => Ok []
  | c :: s' =>
      match utf8_encode_char c with
      | None => Raise UnicodeEncodeError
      | Some bs => try! rest <- utf8_encode s'; Ok (bs ++ rest)
      end
  end.

(** [s.encode('ascii')] *)
Fixpoint ascii_encode (s : list N) : result (list N) :=
  match s with
  | [] => Ok []
  | c :: s' =>
      if c <? 0x80 then try! rest <- ascii_encode s'; Ok (c :: rest)
      else Raise UnicodeEncodeError
  end.

(** [b.decode('ascii')] *)
Fixpoint ascii_decode (b : list N) : result (list N) :=
  match b with
  | [] => Ok []
  | c :: b' =>
      if c <? 0x80 then try! rest <- ascii_decode b'; Ok (c :: rest)
      else Raise UnicodeDecodeError
  end.

Inductive errors_mode : Type := Strict | Replace.

Definition in_range (lo hi b : N) : bool := (lo <=? b) && (b <=? hi).

(** What the decoder makes of an ill-formed sequence. *)
Definition ill_formed (mode : errors_mode) (rest : result (list N))
  : result (list N) :=
  match mode with
  | Strict => Raise UnicodeDecodeError
  | Replace => try! r <- rest; Ok (0xFFFD :: r)
  end.

(** [b.decode('utf-8', errors=mode)]: well-formed sequences only
    (no overlong forms, no surrogates, nothing above U+10FFFF); an
    ill-formed sequence ends where the first byte that cannot continue
    it stands, and decoding resumes at that byte. *)
Fixpoint utf8_decode (mode : errors_mode) (b : list N) : result (list N) :=
  match b with
  | [] => Ok []
  | b1 :: t1 =>
      if b1 <? 0x80 then
        try! r <- utf8_decode mode t1; Ok (b1 :: r)
      else if in_range 0xC2 0xDF b1 then
        match t1 with
        | b2 :: t2 =>
            if in_range 0x80 0xBF b2 then
              try! r <- utf8_decode mode t2;
              Ok ((b1 - 0xC0) * 64 + (b2 - 0x80) :: r)
            else ill_formed mode (utf8_decode mode t1)
        | [] => ill_formed mode (Ok [])
        end
      else if in_range 0xE0 0xEF b1 then
        let lo := if b1 =? 0xE0 then 0xA0 else 0x80 in
        let hi := if b1 =? 0xED then 0x9F else 0xBF in
        match t1 with
        | b2 :: t2 =>
            if in_range lo hi b2 then
              match t2 with
              | b3 :: t3 =>
                  if in_range 0x80 0xBF b3 then
                    try! r <- utf8_decode mode t3;
                    Ok ((b1 - 0xE0) * 4096 + (b2 - 0x80) * 64
                        + (b3 - 0x80) :: r)
                  else ill_formed mode (utf8_decode mode t2)
              | [] => ill_formed mode (Ok [])
              end
            else ill_formed mode (utf8_decode mode t1)
        | [] => ill_formed mode (Ok [])
        end
      else if in_range 0xF0 0xF4 b1 then
        let lo := if b1 =? 0xF0 then 0x90 else 0x80 in
        let hi := if b1 =? 0xF4 then 0x8F else 0xBF in
        match t1 with
        | b2 :: t2 =>
            if in_range lo hi b2 then
              match t2 with
              | b3 :: t3 =>
                  if in_range 0x80 0xBF b3 then
                    match t3 with
                    | b4 :: t4 =>
                        if in_range 0x80 0xBF b4 then
                          try! r <- utf8_decode mode t4;
                          Ok ((b1 - 0xF0) * 262144 + (b2 - 0x80) * 4096
                              + (b3 - 0x80) * 64 + (b4 - 0x80) :: r)
                        else ill_formed mode (utf8_decode mode t3)
                    | [] => ill_formed mode (Ok [])
                    end
                  else ill_formed mode (utf8_decode mode t2)
              | [] => ill_formed mode (Ok [])
              end
            else ill_formed mode (utf8_decode mode t1)
        | [] => ill_formed mode (Ok [])
        end
      else ill_formed mode (utf8_decode mode t1)
  end.

(** *** base64 *)

(** The character of a six-bit value in the standard alphabet. *)
Definition b64_char (v : N) : N :=
  if v <? 26 then 65 + v
  else if v <? 52 then 97 + (v - 26)
  else if v <? 62 then 48 + (v - 52)
  else if v =? 62 then 43
  else 47.

(** The six-bit value of a character of the standard alphabet. *)
Definition b64_value (c : N) : option N :=
  if in_range 65 90 c then Some (c - 65)
  else if in_range 97 122 c then Some (c - 97 + 26)
  else if in_range 48 57 c then Some (c - 48 + 52)
  else if c =? 43 then Some 62
  else if c =? 47 then Some 63
  else None.

(** [base64.b64encode(b)]: three bytes give four characters; a last
    group of one or two bytes is padded with ['=']. *)
Fixpoint b64encode (b : list N) : list N :=
  match b with
  | [] => []
  | [b1] =>
      [b64_char (b1 / 4); b64_char ((b1 mod 4) * 16); 61; 61]
  | [b1; b2] =>
      [b64_char (b1 / 4); b64_char ((b1 mod 4) * 16 + b2 / 16);
       b64_char ((b2 mod 16) * 4); 61]
  | b1 :: b2 :: b3 :: rest =>
      b64_char (b1 / 4) :: b64_char ((b1 mod 4) * 16 + b2 / 16)
      :: b64_char ((b2 mod 16) * 4 + b3 / 64) :: b64_char (b3 mod 64)
      :: b64encode rest
  end.

(** The two translations between the standard and the URL-safe
    alphabet: ['+'] and ['-'], ['/'] and ['_']. *)
Definition urlsafe_encode_translation (c : N) : N :=
  if c =? 43 then 45 else if c =? 47 then 95 else c.

Definition urlsafe_decode_translation (c : N) : N :=
  if c =? 45 then 43 else if c =? 95 then 47 else c.

(** The character of a six-bit value in the URL-safe alphabet. *)
Definition key_char (v : N) : N := urlsafe_encode_translation (b64_char v).

(** [base64.urlsafe_b64encode(b)] *)
Definition urlsafe_b64encode (b : list N) : list N :=
  List.map urlsafe_encode_translation (b64encode b).

(** [binascii.a2b_base64(data)] with [strict_mode] off: characters
    outside the alphabet are passed over; [quad_pos] is the position in
    the current group of four, [leftchar] the bits not yet written,
    [pads] the padding seen since the last character; [out] holds the
    bytes written so far, last first.  Padding that completes a group
    ends the decoding. *)
Fixpoint a2b_loop (data : list N) (quad_pos leftchar pads : N)
  (out : list N) : result (list N) :=
  match data with
  | [] =>
      if quad_pos =? 0 then Ok (rev out) else Raise BinasciiError
  | this_ch :: data' =>
      if this_ch =? 61 then
        if (2 <=? quad_pos) && (4 <=? quad_pos + (pads + 1))
        then Ok (rev out)
        else a2b_loop data' quad_pos leftchar
               (if 2 <=? quad_pos then pads + 1 else pads) out
      else
        match b64_value this_ch with
        | None => a2b_loop data' quad_pos leftchar pads out
        | Some v =>
            if quad_pos =? 0 then a2b_loop data' 1 v 0 out
            else if quad_pos =? 1 then
              a2b_loop data' 2 (v mod 16) 0 (leftchar * 4 + v / 16 :: out)
            else if quad_pos =? 2 then
              a2b_loop data' 3 (v mod 4) 0 (leftchar * 16 + v / 4 :: out)
            else
              a2b_loop data' 0 0 0 (leftchar * 64 + v :: out)
        end
  end.

Definition a2b_base64 (data : list N) : result (list N) :=
  a2b_loop data 0 0 0 [].

(** [base64.urlsafe_b64decode(b)] *)
Definition urlsafe_b64decode (b : list N) : result (list N) :=
  a2b_base64 (List.map urlsafe_decode_translation b).

(** *** os.path (POSIX) *)

(** [os.path.basename(p)]: what follows the last ['/']. *)
Definition basename (p : list N) : list N := slice_from p (rfind 47 p + 1).

(** [os.path.splitext(p)]: the extension starts at the last ['.'],
    provided a character other than ['.'] stands between the last ['/']
    and that dot. *)
Definition splitext (p : list N) : list N * list N :=
  let sepIndex := rfind 47 p in
  let dotIndex := rfind 46 p in
  if (sepIndex <? dotIndex)%Z
     && existsb (fun x => negb (x =? 46)) (slice p (sepIndex + 1) dotIndex)
  then (slice_to p dotIndex, slice_from p dotIndex)
  else (p, []).

(** [os.path.join(a, b)] *)
Definition join (a b : list N) : list N :=
  if startswith [47] b then b
  else match last a with
       | None => b
       | Some c => if c =? 47 then a ++ b else a ++ 47 :: b
       end.

(** [l.partition(sep)] for a non-empty [sep] *)
Definition partition (sep l : list N) : list N * list N * list N :=
  let i := find sep l in
  if (i =? -1)%Z then (l, [], [])
  else (slice_to l i, sep, slice_from l (i + Z.of_nat (length sep))).

(** [l.lstrip(chars)] and [l.strip(chars)] *)
Definition lstrip (chars l : list N) : list N :=
  drop_while (fun x => existsb (N.eqb x) chars) l.

Definition strip (chars l : list N) : list N := rstrip chars (lstrip chars l).

(** *** urllib.parse.quote *)

Definition hex_digit (v : N) : N := if v <? 10 then 48 + v else 55 + v.

(** The characters [quote] never escapes: letters, digits and [_.-~]. *)
Definition always_safe (b : N) : bool :=
  in_range 65 90 b || in_range 97 122 b || in_range 48 57 b
  || existsb (N.eqb b) [95; 46; 45; 126].

Definition quote_byte (safe : list N) (b : N) : list N :=
  if always_safe b || existsb (N.eqb b) safe then [b]
  else [37; hex_digit (b / 16); hex_digit (b mod 16)].

(** [quote(s, safe=safe)] *)
Definition quote (s safe : list N) : result (list N) :=
  try! bs <- utf8_encode s; Ok (concat (List.map (quote_byte safe) bs)).

(** [quote(name)], with the default [safe='/'], for each of the names
    a page links to, in turn. *)
Fixpoint quote_names (names : list (list N)) : result (list (list N)) :=
  match names with
  | [] => Ok []
  | name :: names' =>
      try! link <- quote name [47];
      try! links <- quote_names names';
      Ok (link :: links)
  end.

(** The characters [s.strip()] takes off: those [str.isspace] holds
    for. *)
Definition whitespace : list N :=
  [9; 10; 11; 12; 13; 28; 29; 30; 31; 32; 133; 160; 5760; 8192; 8193; 8194;
   8195; 8196; 8197; 8198; 8199; 8200; 8201; 8202; 8232; 8233; 8239; 8287;
   12288].

End Py.

(** ** The environment: files and registry documents *)

(** What the file system holds at a path.  Paths are compared as the
    strings the program builds; directories on the way to a path are
    taken to exist. *)
Inductive node : Type :=
| Dir
| File (content : list N).

(** A registry document on disk: not there, there but rejected by
    [json.load], or the rendering of a dictionary. *)
Inductive json_file (A : Type) : Type :=
| Missing
| Corrupt
| Document (d : A).
Arguments Missing {A}.
Arguments Corrupt {A}.
Arguments Document {A} d.

Module FS.

(** [os.path.exists(p)] *)
Definition exists_ (fs : gmap (list N) node) (p : list N) : bool :=
  match fs !! p with
  | Some _ => true
  | None => false
  end.

(** [os.path.isfile(p)] *)
Definition isfile (fs : gmap (list N) node) (p : list N) : bool :=
  match fs !! p with
  | Some (File _) => true
  | _ => false
  end.

(** [q] lies below the directory [p]. *)
Definition below (p q : list N) : bool := Py.startswith (p ++ [47%N]) q.

(** [shutil.rmtree(p)] *)
Definition rmtree (fs : gmap (list N) node) (p : list N)
  : result (gmap (list N) node) :=
  match fs !! p with
  | Some Dir =>
      Ok (filter (fun kv => kv.1 ≠ p ∧ below p kv.1 = false) fs)
  | Some (File _) => Raise NotADirectoryError
  | None => Raise FileNotFoundError
  end.

(** [open(p, 'wb')] followed by [write(content)] *)
Definition write (fs : gmap (list N) node) (p content : list N)
  : result (gmap (list N) node) :=
  match fs !! p with
  | Some Dir => Raise IsADirectoryError
  | _ => Ok (<[p := File content]> fs)
  end.

(** [open(p, 'rb')] followed by [read()] *)
Definition read (fs : gmap (list N) node) (p : list N) : result (list N) :=
  match fs !! p with
  | Some (File content) => Ok content
  | Some Dir => Raise IsADirectoryError
  | None => Raise FileNotFoundError
  end.

(** [os.makedirs(p, exist_ok=True)] *)
Definition makedirs (fs : gmap (list N) node) (p : list N)
  : result (gmap (list N) node) :=
  match fs !! p with
  | Some (File _) => Raise FileExistsError
  | _ => Ok (<[p := Dir]> fs)
  end.

(** [shutil.copy2(src, dst)] *)
Definition copy2 (fs : gmap (list N) node) (src dst : list N)
  : result (gmap (list N) node) :=
  try! content <- read fs src; write fs dst content.

End FS.

(** ** HTTP requests and responses *)

(** A header that the handler passes to [int]: missing, a text [int]
    converts, or a text [int] rejects with [ValueError]. *)
Inductive header_int : Type :=
| IntAbsent
| IntValue (z : Z)
| IntInvalid.

Record request : Type := {
  Content_Length : header_int;
  Content_Type : option (list N);
  rfile : list N   (* the bytes the client sent after the headers *)
}.

(** [self.rfile.read(n)] *)
Definition rfile_read (r : request) (n : Z) : list N :=
  if (n <? 0)%Z then rfile r else take (Z.to_nat n) (rfile r).

Inductive json : Type :=
| JNull
| JBool (b : bool)
| JInt (z : Z)
| JStr (s : list N)
| JTime (t : Z)       (* a datetime in isoformat *)
| JExn (e : exn).     (* [str(e)] *)

(** [obj[key]] for the object a handler sends. *)
Fixpoint json_get (key : list N) (obj : list (list N * json)) : option json :=
  match obj with
  | [] => None
  | (k, v) :: obj' => if bool_decide (k = key) then Some v else json_get key obj'
  end.

(** What a handler sends.  Pages are kept as the data their HTML is
    built from. *)
Inductive response : Type :=
| send_json (obj : list (list N * json)) (code : Z)
| send_error_page (code : Z) (message : list N)
| send_error_page_exn (code : Z) (e : exn)
| send_error (code : Z) (message : list N)
| send_session_page (sid : list N) (expires : Z) (files : list (list N))
| send_file (filename content : list N).

(** [json.load] on the document at a path, after [open]. *)
Definition open_json_load {A : Type} (doc : json_file A) : result A :=
  match doc with
  | Missing => Raise FileNotFoundError
  | Corrupt => Raise JSONDecodeError
  | Document d => Ok d
  end.

(** [int(self.headers.get(name, 0))] *)
Definition int_header (h : header_int) : result Z :=
  match h with
  | IntAbsent => Ok 0%Z
  | IntValue z => Ok z
  | IntInvalid => Raise ValueError
  end.

(** [timedelta(minutes=n)] and [timedelta(hours=n)] in microseconds. *)
Definition minutes (n : Z) : Z := (n * 60000000)%Z.
Definition hours (n : Z) : Z := (n * 3600000000)%Z.

(** The request line of a GET, taken apart by [urlparse], [unquote] and
    [parse_qs]: the path, and the first value of each query parameter
    the handlers ask for. *)
Record get_request : Type := {
  get_path : list N;
  query_u : option (list N);
  query_d : option (list N);
  query_s : option (list N);
  query_f : option (list N)
}.

(** The body of a POST as [json.loads] gives it: an object with text
    fields, each present or not; a body that is no JSON is read as the
    empty object. *)
Record json_data : Type := {
  data_description : option (list N);
  data_filename : option (list N);
  data_source_session_id : option (list N)
}.

Record post_request : Type := {
  post_path : list N;
  post_query_u : option (list N);
  post_headers : request;
  post_data : json_data
}.

(** [if x:] for a value that is a text or [None]. *)
Definition truthy (x : option (list N)) : option (list N) :=
  match x with
  | Some (c :: l) => Some (c :: l)
  | _ => None
  end.

(** An entry of [sessions.json]; every server writes the same keys. *)
Record Session : Type := {
  session_created : Z;
  session_expires : Z;
  session_description : list N;
  session_files : list (list N)
}.

(** What the routes send beyond the answers above, again as the data
    the page is built from. *)
Inductive reply : Type :=
| plain (r : response)
| send_upload_page (token : list N) (expires_ts : Z)
| send_bridge_page (direct_url filename : list N)
| send_files_page (files : list (list N * Z))
| send_redirect (code : Z) (location : list N)
| send_invalid_link_page                       (* [ERROR_HTML], sent with 200 *)
| send_upload_form (expires_ts : Z)
| send_sessions_page (sessions : gmap (list N) Session)
| send_ok.                                     (* the text [OK] *)

(** [sessions[sid]['files'].append(filename)] *)
Definition append_file (filename : list N) (data : Session) : Session :=
  {| session_created := session_created data;
     session_expires := session_expires data;
     session_description := session_description data;
     session_files := session_files data ++ [filename] |}.

(** [not l] for a string or a list. *)
Definition is_empty {A : Type} (l : list A) : bool :=
  match l with
  | [] => true
  | _ => false
  end.

(** [x in l] for a list of strings. *)
Definition str_in (x : list N) (l : list (list N)) : bool :=
  bool_decide (x ∈ l).

(** ** files_server.py *)

Module FilesServer.
Import Py.
Local Open Scope N_scope.

Definition DOMAIN : list N := py "https://files.netwize.work".
Definition BASE_DIR : list N := py "/files".
Definition SESSIONS_DIR : list N := join BASE_DIR (py "sessions").
Definition SHARED_DIR : list N := join BASE_DIR (py "shared").
Definition UPLOADS_DIR : list N := join BASE_DIR (py "uploads").
Definition SESSION_TTL_HOURS : Z := 24.
Definition TOKEN_TTL_MINUTES : Z := 30.
Definition MAX_FILE_SIZE : Z := 50 * 1024 * 1024.

(** An entry of [tokens.json]; the keys an upload adds are optional. *)
Record Token : Type := {
  token_created : Z;
  token_expires : Z;
  token_description : option (list N);
  token_used : bool;
  token_filename : option (list N);
  token_uploaded_at : option Z;
  token_size : option Z
}.

(** What the handlers read and write: the tree below [BASE_DIR] and
    the two documents [SESSIONS_FILE] and [TOKENS_FILE], whose entries
    are those the server writes. *)
Record state : Type := {
  fs : gmap (list N) node;
  sessions_json : json_file (gmap (list N) Session);
  tokens_json : json_file (gmap (list N) Token)
}.

Definition load_json {A : Type} (doc : json_file (gmap (list N) A))
  : gmap (list N) A :=
  match open_json_load doc with
  | Ok d => d
  | Raise _ => ∅
  end.

Definition save_sessions_json (data : gmap (list N) Session) (st : state)
  : state :=
  {| fs := fs st; sessions_json := Document data;
     tokens_json := tokens_json st |}.

Definition save_tokens_json (data : gmap (list N) Token) (st : state)
  : state :=
  {| fs := fs st; sessions_json := sessions_json st;
     tokens_json := Document data |}.

Definition set_fs (fs' : gmap (list N) node) (st : state) : state :=
  {| fs := fs'; sessions_json := sessions_json st;
     tokens_json := tokens_json st |}.

Definition make_link (url text : list N) : list N :=
  [91] ++ text ++ py "](" ++ url ++ [41].

Definition encode_download_key (session_id filename : list N)
  : result (list N) :=
  try! raw <- utf8_encode (session_id ++ [47] ++ filename);
  try! key <- ascii_decode (urlsafe_b64encode raw);
  Ok (rstrip [61] key).

(** The [try] block of [decode_download_key]. *)
Definition decode_download_key_try (key : list N)
  : result (option (list N * list N)) :=
  let padded := key ++ repeat_char 61 ((- Z.of_nat (length key)) mod 4) in
  try! encoded <- ascii_encode padded;
  try! decoded <- urlsafe_b64decode encoded;
  try! raw <- utf8_decode Strict decoded;
  match split1 47 raw with
  | [sid; filename] =>
      let sid := basename sid in
      let filename := basename filename in
      if is_empty sid || is_empty filename then Ok None
      else Ok (Some (sid, filename))
  | _ => Raise ValueError
  end.

(** [None] stands for the pair [(None, None)]. *)
Definition decode_download_key (key : list N) : option (list N * list N) :=
  match decode_download_key_try key with
  | Ok r => r
  | Raise _ => None
  end.

(** One turn of the loop of [cleanup_sessions]: an exception leaves the
    entry in place. *)
Definition cleanup_sessions_step (now : Z)
  (acc : gmap (list N) node * gmap (list N) Session)
  (entry : list N * Session)
  : gmap (list N) node * gmap (list N) Session :=
  let '(files, sessions) := acc in
  let '(sid, data) := entry in
  if (session_expires data <? now)%Z then
    let path := join SHARED_DIR sid in
    match (if FS.exists_ files path then FS.rmtree files path
           else Ok files) with
    | Ok files' => (files', delete sid sessions)
    | Raise _ => acc
    end
  else acc.

(** The dictionary is walked in the order of [map_to_list]; which
    entries go does not depend on the order, unless the directory of
    one session lies below that of another. *)
Definition cleanup_sessions (now : Z) (st : state) : state :=
  let sessions := load_json (sessions_json st) in
  let '(files, sessions') :=
    foldl (cleanup_sessions_step now) (fs st, sessions)
      (map_to_list sessions) in
  save_sessions_json sessions' (set_fs files st).

Definition cleanup_tokens_step (now : Z) (tokens : gmap (list N) Token)
  (entry : list N * Token) : gmap (list N) Token :=
  let '(token, data) := entry in
  if (token_expires data <? now)%Z then delete token tokens else tokens.

Definition cleanup_tokens (now : Z) (st : state) : state :=
  let tokens := load_json (tokens_json st) in
  save_tokens_json
    (foldl (cleanup_tokens_step now) tokens (map_to_list tokens)) st.

Definition show_session (sid : list N) (st : state) : response :=
  let sessions := load_json (sessions_json st) in
  match sessions !! sid with
  | None => send_error_page 404 (py "Session not found")
  | Some data =>
      send_session_page sid (session_expires data) (session_files data)
  end.

Definition download_file (sid filename : list N) (st : state)
  : result response :=
  let filepath := join (join SESSIONS_DIR sid) filename in
  if negb (FS.exists_ (fs st) filepath)
  then Ok (send_error_page 404 (py "File not found"))
  else try! content <- FS.read (fs st) filepath;
       Ok (send_file filename content).

(** The last branch of [do_GET], for a request that none of the routes
    before it takes: [/<session_id>] and [/<session_id>/<filename>]. *)
Definition do_GET_session_try (path : list N) (st : state)
  : result response :=
  match split1 47 (strip [47] path) with
  | sid :: rest =>
      if is_empty sid then Ok (send_error_page 404 (py "Not found"))
      else
        let session_path := join SESSIONS_DIR sid in
        if negb (FS.exists_ (fs st) session_path)
        then Ok (send_error_page 404 (py "Session not found"))
        else match rest with
             | [] => Ok (show_session sid st)
             | filename :: _ => download_file sid filename st
             end
  | [] => Ok (send_error_page 404 (py "Not found"))
  end.

Definition do_GET_session (path : list N) (st : state) : response :=
  match do_GET_session_try path st with
  | Ok r => r
  | Raise e => send_error_page_exn 500 e
  end.

(** [content_type.split('boundary=')[1].encode()] *)
Definition boundary_of (content_type : list N) : result (list N) :=
  match split (py "boundary=") content_type with
  | _ :: b :: _ => utf8_encode b
  | _ => Raise IndexError
  end.

(** The text [filename=] followed by a double quote. *)
Definition filename_attr : list N := py "filename=" ++ [34].

(** The loop of [handle_upload] over the parts of the body: the
    [filename] and [file_content] it leaves. *)
Fixpoint find_file (parts : list (list N))
  : option (list N) * option (list N) :=
  match parts with
  | [] => (None, None)
  | part :: parts' =>
      if contains filename_attr part then
        let header_end := find [13; 10; 13; 10] part in
        if (header_end =? -1)%Z then find_file parts'
        else
          match utf8_decode Replace (slice_to part header_end) with
          | Ok headers =>
              let content := slice_from part (header_end + 4) in
              let fn_start := (find filename_attr headers + 10)%Z in
              let fn_end := find_at [34] headers fn_start in
              (Some (slice headers fn_start fn_end),
               Some (rstrip [13; 10; 45] content))
          | Raise _ => (None, None)
          end
      else find_file parts'
  end.

Definition error_json (message : list N) (code : Z) : response :=
  send_json [(py "error", JStr message)] code.

(** [handle_upload]: the clock is read as [now] on entry, and twice more
    as [int(time.time())], first for the name of a nameless upload and
    then for the suffix. *)
Definition handle_upload (token : list N) (req : request)
  (now t_fallback t_suffix : Z) (st : state) : result response * state :=
  let tokens := load_json (tokens_json st) in
  match tokens !! token with
  | None => (Ok (error_json (py "Invalid token") 400), st)
  | Some data =>
  if (token_expires data <? now)%Z || token_used data
  then (Ok (error_json (py "Token expired or used") 400), st)
  else
  match int_header (Content_Length req) with
  | Raise e => (Raise e, st)
  | Ok content_length =>
  if (MAX_FILE_SIZE <? content_length)%Z
  then (Ok (error_json (py "File too large (max 50MB)") 400), st)
  else
  let content_type := default [] (Content_Type req) in
  if negb (contains (py "multipart/form-data") content_type)
  then (Ok (error_json (py "Expected multipart/form-data") 400), st)
  else
  match boundary_of content_type with
  | Raise _ => (Ok (error_json (py "Invalid boundary") 400), st)
  | Ok boundary =>
  let body := rfile_read req content_length in
  let parts := split (py "--" ++ boundary) body in
  match find_file parts with
  | (Some filename, Some file_content) =>
      if is_empty filename
      then (Ok (error_json (py "No file in request") 400), st)
      else
        let safe_name := basename filename in
        let safe_name :=
          if is_empty safe_name then py "upload_" ++ str_of_int t_fallback
          else safe_name in
        let '(name, ext) := splitext safe_name in
        let safe_name := name ++ [95] ++ str_of_int t_suffix ++ ext in
        let filepath := join UPLOADS_DIR safe_name in
        match FS.write (fs st) filepath file_content with
        | Raise e => (Raise e, st)
        | Ok files =>
            let data' :=
              {| token_created := token_created data;
                 token_expires := token_expires data;
                 token_description := token_description data;
                 token_used := true;
                 token_filename := Some safe_name;
                 token_uploaded_at := Some now;
                 token_size := Some (Z.of_nat (length file_content)) |} in
            (Ok (send_json [(py "success", JBool true);
                            (py "filename", JStr safe_name)] 200),
             save_tokens_json (<[token := data']> tokens) (set_fs files st))
        end
  | _ => (Ok (error_json (py "No file in request") 400), st)
  end
  end
  end
  end.

(** [do_POST] around [handle_upload]: an exception becomes a 500. *)
Definition do_POST_upload (token : list N) (req : request)
  (now t_fallback t_suffix : Z) (st : state) : response * state :=
  match handle_upload token req now t_fallback t_suffix st with
  | (Ok r, st') => (r, st')
  | (Raise e, st') => (send_json [(py "error", JExn e)] 500, st')
  end.

(** [create_token], with the [description] read from the request body
    and the fresh [uuid.uuid4()].  The clock is read by the sweep and
    then for the new token. *)
Definition create_token (description uuid : list N) (now_sweep now : Z)
  (st : state) : response * state :=
  let st := cleanup_tokens now_sweep st in
  let token := uuid in
  let expires := (now + minutes TOKEN_TTL_MINUTES)%Z in
  let tokens := load_json (tokens_json st) in
  let data :=
    {| token_created := now; token_expires := expires;
       token_description := Some description; token_used := false;
       token_filename := None; token_uploaded_at := None;
       token_size := None |} in
  let url := DOMAIN ++ py "/upload/" ++ token in
  let short_url := DOMAIN ++ py "?u=" ++ token in
  (send_json
     [(py "token", JStr token); (py "url", JStr url);
      (py "short_url", JStr short_url);
      (py "html_link",
       JStr (make_link short_url
               [8211; 243; 8211; 8734; 8211; 8805; 8212; 196; 8212; 201;
                8211; 8721; 8211; 8719; 8212; 199; 8212; 229]));
      (py "expires", JTime expires)] 200,
   save_tokens_json (<[token := data]> tokens) st).

Definition check_token (token : list N) (now : Z) (st : state) : response :=
  let tokens := load_json (tokens_json st) in
  match tokens !! token with
  | None =>
      send_json [(py "exists", JBool false);
                 (py "error", JStr (py "Invalid token"))] 200
  | Some data =>
      let expired := (token_expires data <? now)%Z in
      send_json
        [(py "exists", JBool true);
         (py "used", JBool (token_used data));
         (py "filename",
          match token_filename data with
          | Some f => JStr f
          | None => JNull
          end);
         (py "expires", JTime (token_expires data));
         (py "expired", JBool expired)] 200
  end.

Definition show_upload_page (token : list N) (now : Z) (st : state) : reply :=
  let tokens := load_json (tokens_json st) in
  match tokens !! token with
  | None => plain (send_error_page 400 (py "Invalid or expired link"))
  | Some data =>
      if (token_expires data <? now)%Z
      then plain (send_error_page 400 (py "Link expired"))
      else if token_used data
      then plain (send_error_page 400 (py "Link already used"))
      else send_upload_page token (Z.quot (token_expires data) 1000000)
  end.

Definition show_download_bridge (key : list N) : result reply :=
  match decode_download_key key with
  | None => Ok (plain (send_error_page 400 (py "Invalid download link")))
  | Some (sid, filename) =>
      try! safe_sid <- quote sid [];
      try! safe_name <- quote filename [];
      Ok (send_bridge_page ([47] ++ safe_sid ++ [47] ++ safe_name) filename)
  end.

(** [show_files]: [listing] is what [os.listdir(SHARED_DIR)] returns.
    The page shows the name and the size of each file; a name that
    [quote] cannot encode makes it raise. *)
Definition show_files (listing : list (list N)) (st : state) : result reply :=
  let files :=
    omap (fun f =>
            match fs st !! join SHARED_DIR f with
            | Some (File content) => Some (f, Z.of_nat (length content))
            | _ => None
            end) listing in
  try! _ <- quote_names (List.map fst files);
  Ok (send_files_page files).

(** [create_upload_link_and_redirect], with the fresh [uuid.uuid4()]. *)
Definition create_upload_link_and_redirect (uuid : list N) (now : Z)
  (st : state) : reply * state :=
  let token := uuid in
  let expires := (now + minutes 30)%Z in
  let tokens := load_json (tokens_json st) in
  let data :=
    {| token_created := now; token_expires := expires;
       token_description := None; token_used := false;
       token_filename := None; token_uploaded_at := None;
       token_size := None |} in
  (send_redirect 302 (py "/upload/" ++ token),
   save_tokens_json (<[token := data]> tokens) st).

(** The path of the route that makes an upload link, as the source file
    spells it. *)
Definition UPLOAD_LINK_PATH : list N :=
  [47; 8211; 243; 8211; 8734; 8211; 8805; 8212; 196; 8212; 201; 8211; 8721;
   8211; 8719].

(** The body of [do_GET]; [listdir] stands for [os.listdir]. *)
Definition do_GET_try (req : get_request) (now : Z) (uuid : list N)
  (listdir : list N -> result (list (list N))) (st : state)
  : result reply * state :=
  let path := get_path req in
  if startswith (py "/d/") path then
    let key := strip whitespace (hd [] (split1 47 (slice_from path 3))) in
    if is_empty key
    then (Ok (plain (send_error_page 400 (py "Invalid download link"))), st)
    else (show_download_bridge key, st)
  else
  match truthy (query_u req) with
  | Some short_upload => (Ok (show_upload_page short_upload now st), st)
  | None =>
  match truthy (query_d req) with
  | Some short_download => (show_download_bridge short_download, st)
  | None =>
  match truthy (query_s req), truthy (query_f req) with
  | Some short_session, Some short_file =>
      (try! r <- download_file short_session short_file st; Ok (plain r), st)
  | _, _ =>
  if bool_decide (path = py "/health") then
    (Ok (plain (send_json [(py "status", JStr (py "ok"));
                           (py "time", JTime now)] 200)), st)
  else if bool_decide (path = py "/") || bool_decide (path = py "/files") then
    (try! listing <- listdir SHARED_DIR; show_files listing st, st)
  else if bool_decide (path = UPLOAD_LINK_PATH) then
    let '(r, st') := create_upload_link_and_redirect uuid now st in (Ok r, st')
  else if startswith (py "/upload/") path then
    (Ok (show_upload_page
           (rstrip [47] (hd [] (split1 63 (slice_from path 8)))) now st), st)
  else if startswith (py "/api/check/") path then
    (Ok (plain (check_token (slice_from path 11) now st)), st)
  else
    (try! r <- do_GET_session_try path st; Ok (plain r), st)
  end
  end
  end.

Definition do_GET (req : get_request) (now : Z) (uuid : list N)
  (listdir : list N -> result (list (list N))) (st : state) : reply * state :=
  match do_GET_try req now uuid listdir st with
  | (Ok r, st') => (r, st')
  | (Raise e, st') => (plain (send_error_page_exn 500 e), st')
  end.

(** The loop of [create_share_link] over [os.listdir(SESSIONS_DIR)]. *)
Fixpoint find_in_sessions (files : gmap (list N) node)
  (listing : list (list N)) (filename : list N) : option (list N) :=
  match listing with
  | [] => None
  | existing_sid :: listing' =>
      let candidate := join (join SESSIONS_DIR existing_sid) filename in
      if FS.isfile files candidate then Some candidate
      else find_in_sessions files listing' filename
  end.

(** [create_share_link].  The clock is read by the sweep and then for
    the new session; [uuid] is the fresh [uuid.uuid4()]. *)
Definition create_share_link (data : json_data) (uuid : list N)
  (now_sweep now : Z) (listdir : list N -> result (list (list N)))
  (st : state) : result response * state :=
  let filename := basename (default [] (data_filename data)) in
  if is_empty filename
  then (Ok (error_json (py "filename required") 400), st)
  else
  let lookup : result (option (list N)) + response :=
    match truthy (data_source_session_id data) with
    | Some source_session_id =>
        let candidate := join (join SESSIONS_DIR source_session_id) filename in
        if FS.isfile (fs st) candidate then inl (Ok (Some candidate))
        else inr (error_json
                    (py "source file not found in source_session_id") 404)
    | None =>
        let upload_candidate := join UPLOADS_DIR filename in
        if FS.isfile (fs st) upload_candidate
        then inl (Ok (Some upload_candidate))
        else inl (try! listing <- listdir SESSIONS_DIR;
                  Ok (find_in_sessions (fs st) listing filename))
    end in
  match lookup with
  | inr r => (Ok r, st)
  | inl (Raise e) => (Raise e, st)
  | inl (Ok None) => (Ok (error_json (py "source file not found") 404), st)
  | inl (Ok (Some source_path)) =>
      let st := cleanup_sessions now_sweep st in
      let sid := uuid in
      let expires := (now + hours SESSION_TTL_HOURS)%Z in
      let sessions := load_json (sessions_json st) in
      let entry :=
        {| session_created := now; session_expires := expires;
           session_description := default [] (data_description data);
           session_files := [filename] |} in
      let st := save_sessions_json (<[sid := entry]> sessions) st in
      let session_dir := join SESSIONS_DIR sid in
      match FS.makedirs (fs st) session_dir with
      | Raise e => (Raise e, st)
      | Ok files =>
          let st := set_fs files st in
          match FS.copy2 (fs st) source_path (join session_dir filename) with
          | Raise e => (Raise e, st)
          | Ok files =>
              let st := set_fs files st in
              match quote filename [] with
              | Raise e => (Raise e, st)
              | Ok quoted =>
                  let url := DOMAIN ++ [47] ++ sid ++ [47] ++ quoted in
                  match encode_download_key sid filename with
                  | Raise e => (Raise e, st)
                  | Ok download_key =>
                      let short_url := DOMAIN ++ py "/d/" ++ download_key in
                      (Ok (send_json
                             [(py "session_id", JStr sid);
                              (py "url", JStr url);
                              (py "short_url", JStr short_url);
                              (py "html_link",
                               JStr (make_link short_url
                                       [8211; 176; 8211; 8747; 8211; 8734;
                                        8212; 225; 8211; 8734; 8212; 199;
                                        8212; 229]));
                              (py "expires", JTime expires)] 200), st)
                  end
              end
          end
      end
  end.

(** The body of [do_POST]; the [int(...)] of the declared length, with
    which [create_token] and [create_share_link] begin, is made here. *)
Definition do_POST_try (req : post_request) (uuid : list N)
  (now now_sweep t_fallback t_suffix : Z)
  (listdir : list N -> result (list (list N))) (st : state)
  : result response * state :=
  let path := post_path req in
  match truthy (post_query_u req) with
  | Some short_upload =>
      handle_upload short_upload (post_headers req) now t_fallback t_suffix st
  | None =>
  if startswith (py "/upload/") path then
    handle_upload (rstrip [47] (slice_from path 8)) (post_headers req)
      now t_fallback t_suffix st
  else if bool_decide (path = py "/api/token")
          || bool_decide (path = py "/api/create_token") then
    match int_header (Content_Length (post_headers req)) with
    | Raise e => (Raise e, st)
    | Ok _ =>
        let '(r, st') :=
          create_token (default [] (data_description (post_data req)))
            uuid now_sweep now st in
        (Ok r, st')
    end
  else if startswith (py "/api/check/") path then
    (Ok (check_token (slice_from path 11) now st), st)
  else if bool_decide (path = py "/api/share") then
    match int_header (Content_Length (post_headers req)) with
    | Raise e => (Raise e, st)
    | Ok _ => create_share_link (post_data req) uuid now_sweep now listdir st
    end
  else (Ok (send_error_page 404 (py "Not found")), st)
  end.

Definition do_POST (req : post_request) (uuid : list N)
  (now now_sweep t_fallback t_suffix : Z)
  (listdir : list N -> result (list (list N))) (st : state)
  : response * state :=
  match do_POST_try req uuid now now_sweep t_fallback t_suffix listdir st with
  | (Ok r, st') => (r, st')
  | (Raise e, st') => (send_json [(py "error", JExn e)] 500, st')
  end.

End FilesServer.

(** ** unified_server.py *)

Module UnifiedServer.
Import Py.
Local Open Scope N_scope.

Definition DOMAIN : list N := py "https://files.netwize.work".
Definition BASE_DIR : list N := py "/files".
Definition SESSIONS_DIR : list N := join BASE_DIR (py "sessions").
Definition UPLOADS_DIR : list N := join BASE_DIR (py "uploads").
Definition SESSION_TTL_HOURS : Z := 24.
Definition TOKEN_TTL_MINUTES : Z := 30.
Definition MAX_FILE_SIZE : Z := 50 * 1024 * 1024.

(** An entry of [tokens.json]. *)
Record Token : Type := {
  token_created : Z;
  token_expires : Z;
  token_expires_ts : Z;
  token_description : list N;
  token_used : bool;
  token_filename : option (list N);
  token_uploaded_at : option Z;
  token_size : option Z
}.

Record state : Type := {
  fs : gmap (list N) node;
  sessions_json : json_file (gmap (list N) Session);
  tokens_json : json_file (gmap (list N) Token)
}.

(** [os.path.exists] on a registry document. *)
Definition document_exists {A : Type} (doc : json_file A) : bool :=
  match doc with
  | Missing => false
  | _ => true
  end.

Definition load_sessions (st : state) : result (gmap (list N) Session) :=
  if document_exists (sessions_json st)
  then open_json_load (sessions_json st)
  else Ok ∅.

Definition save_sessions (sessions : gmap (list N) Session) (st : state)
  : state :=
  {| fs := fs st; sessions_json := Document sessions;
     tokens_json := tokens_json st |}.

Definition load_tokens (st : state) : result (gmap (list N) Token) :=
  if document_exists (tokens_json st)
  then open_json_load (tokens_json st)
  else Ok ∅.

Definition save_tokens (tokens : gmap (list N) Token) (st : state) : state :=
  {| fs := fs st; sessions_json := sessions_json st;
     tokens_json := Document tokens |}.

Definition set_fs (fs' : gmap (list N) node) (st : state) : state :=
  {| fs := fs'; sessions_json := sessions_json st;
     tokens_json := tokens_json st |}.

(** The first loop of [cleanup_expired_sessions]: the trees removed so
    far and the identifiers collected in [expired]; an exception of
    [rmtree] ends it. *)
Fixpoint remove_expired (now : Z) (entries : list (list N * Session))
  (files : gmap (list N) node) (expired : list (list N))
  : result (list (list N)) * gmap (list N) node :=
  match entries with
  | [] => (Ok expired, files)
  | (sid, data) :: entries' =>
      if (session_expires data <? now)%Z then
        let session_path := join SESSIONS_DIR sid in
        match (if FS.exists_ files session_path
               then FS.rmtree files session_path else Ok files) with
        | Ok files' => remove_expired now entries' files' (expired ++ [sid])
        | Raise e => (Raise e, files)
        end
      else remove_expired now entries' files expired
  end.

Definition cleanup_expired_sessions (now : Z) (st : state)
  : result unit * state :=
  match load_sessions st with
  | Raise e => (Raise e, st)
  | Ok sessions =>
      match remove_expired now (map_to_list sessions) (fs st) [] with
      | (Raise e, files) => (Raise e, set_fs files st)
      | (Ok expired, files) =>
          let sessions' := foldl (fun m sid => delete sid m) sessions expired in
          (Ok tt,
           if is_empty expired then set_fs files st
           else save_sessions sessions' (set_fs files st))
      end
  end.

Definition cleanup_expired_tokens (now : Z) (st : state)
  : result unit * state :=
  match load_tokens st with
  | Raise e => (Raise e, st)
  | Ok tokens =>
      let expired :=
        List.map fst
          (List.filter (fun kv => (token_expires kv.2 <? now)%Z)
             (map_to_list tokens)) in
      let tokens' := foldl (fun m token => delete token m) tokens expired in
      (Ok tt, if is_empty expired then st else save_tokens tokens' st)
  end.

Definition list_session_files (sid : list N) (st : state) : result response :=
  try! sessions <- load_sessions st;
  match sessions !! sid with
  | None => Ok (send_error 404 (py "Session not found"))
  | Some data =>
      Ok (send_session_page sid (session_expires data) (session_files data))
  end.

Definition serve_file (filepath filename : list N) (st : state)
  : result response :=
  try! content <- FS.read (fs st) filepath; Ok (send_file filename content).

(** The download branch of [do_GET]: [/<session_id>] and
    [/<session_id>/<filename>].  An exception leaves the handler: no
    response is sent. *)
Definition do_GET_session (path : list N) (st : state) : result response :=
  match split1 47 (strip [47] path) with
  | sid :: rest =>
      if is_empty sid then Ok (send_error 404 (py "Not found"))
      else
        let session_path := join SESSIONS_DIR sid in
        if negb (FS.exists_ (fs st) session_path)
        then Ok (send_error 404 (py "Session not found"))
        else match rest with
             | [] => list_session_files sid st
             | filename :: _ =>
                 let file_path := join session_path filename in
                 if FS.exists_ (fs st) file_path && FS.isfile (fs st) file_path
                 then serve_file file_path filename st
                 else Ok (send_error 404 (py "File not found"))
             end
  | [] => Ok (send_error 404 (py "Not found"))
  end.

Definition error_json (message : list N) (code : Z) : response :=
  send_json [(py "error", JStr message)] code.

(** [headers.split(b'filename=...')[1].split(b'...')[0]], the text
    between the quotes of the file name attribute. *)
Definition fn_match (headers : list N) : result (list N) :=
  match split FilesServer.filename_attr headers with
  | _ :: after :: _ =>
      match split [34] after with
      | first :: _ => Ok first
      | [] => Raise IndexError
      end
  | _ => Raise IndexError
  end.

(** The loop over the parts of the body. *)
Fixpoint find_file (parts : list (list N))
  : result (option (list N) * option (list N)) :=
  match parts with
  | [] => Ok (None, None)
  | part :: parts' =>
      if contains (py "filename=") part then
        let '(headers, _, content) := partition [13; 10; 13; 10] part in
        try! name <- fn_match headers;
        try! filename <- utf8_decode Replace name;
        Ok (Some filename, Some (rstrip [13; 10] content))
      else find_file parts'
  end.

Section Upload.

(** [werkzeug.utils.secure_filename], a function of another package. *)
Variable secure_filename : list N -> list N.

(** The upload branch of [do_POST].  The clock is read as [now] for the
    expiry test, as [int(time.time())] for the name of a nameless
    upload and for the suffix, and once more for [uploaded_at]. *)
Definition do_POST_upload (token : list N) (req : request)
  (now t_fallback t_suffix uploaded_at : Z) (st : state)
  : result response * state :=
  match load_tokens st with
  | Raise e => (Raise e, st)
  | Ok tokens =>
  match tokens !! token with
  | None => (Ok (error_json (py "Invalid token") 400), st)
  | Some data =>
  if (token_expires data <? now)%Z || token_used data
  then (Ok (error_json (py "Token expired or used") 400), st)
  else
  match int_header (Content_Length req) with
  | Raise e => (Raise e, st)
  | Ok content_length =>
  if (MAX_FILE_SIZE <? content_length)%Z
  then (Ok (error_json (py "File too large") 400), st)
  else
  let content_type := default [] (Content_Type req) in
  if negb (contains (py "multipart/form-data") content_type)
  then (Ok (error_json (py "No multipart form data") 400), st)
  else
  match FilesServer.boundary_of content_type with
  | Raise e => (Raise e, st)
  | Ok boundary =>
  let body := rfile_read req content_length in
  let parts := split (py "--" ++ boundary) body in
  match find_file parts with
  | Raise e => (Raise e, st)
  | Ok (Some filename, Some file_content) =>
      if is_empty filename
      then (Ok (error_json (py "No file in request") 400), st)
      else
        let filename :=
          if is_empty (secure_filename filename)
          then py "upload_" ++ str_of_int t_fallback
          else secure_filename filename in
        let '(name, ext) := splitext filename in
        let filename := name ++ [95] ++ str_of_int t_suffix ++ ext in
        let filepath := join UPLOADS_DIR filename in
        match FS.write (fs st) filepath file_content with
        | Raise e => (Raise e, st)
        | Ok files =>
            let data' :=
              {| token_created := token_created data;
                 token_expires := token_expires data;
                 token_expires_ts := token_expires_ts data;
                 token_description := token_description data;
                 token_used := true;
                 token_filename := Some filename;
                 token_uploaded_at := Some uploaded_at;
                 token_size := Some (Z.of_nat (length file_content)) |} in
            (Ok (send_json [(py "success", JBool true);
                            (py "filename", JStr filename)] 200),
             save_tokens (<[token := data']> tokens) (set_fs files st))
        end
  | Ok _ => (Ok (error_json (py "No file in request") 400), st)
  end
  end
  end
  end
  end.

End Upload.

(** The branch [/api/check/<token>] of [do_POST]. *)
Definition do_POST_check (token : list N) (now : Z) (st : state)
  : result response :=
  try! tokens <- load_tokens st;
  match tokens !! token with
  | None =>
      Ok (send_json [(py "exists", JBool false);
                     (py "error", JStr (py "Invalid token"))] 200)
  | Some data =>
      Ok (send_json
            [(py "exists", JBool true);
             (py "used", JBool (token_used data));
             (py "filename",
              match token_filename data with
              | Some f => JStr f
              | None => JNull
              end);
             (py "expires", JTime (token_expires data));
             (py "expired", JBool (token_expires data <? now)%Z)] 200)
  end.

(** [list_sessions]: the page shows the sessions of the registry after
    the sweep, each with links to its files. *)
Definition list_sessions (now : Z) (st : state) : result reply * state :=
  match cleanup_expired_sessions now st with
  | (Raise e, st) => (Raise e, st)
  | (Ok _, st) =>
      (try! sessions <- load_sessions st;
       try! _ <- quote_names
                   (concat (List.map (fun kv => session_files kv.2)
                              (map_to_list sessions)));
       Ok (send_sessions_page sessions), st)
  end.

(** The page of [GET /upload/<token>]. *)
Definition upload_page (token : list N) (now : Z) (st : state)
  : result reply :=
  try! tokens <- load_tokens st;
  match tokens !! token with
  | None => Ok send_invalid_link_page
  | Some data =>
      if (token_expires data <? now)%Z then Ok send_invalid_link_page
      else if token_used data then Ok send_invalid_link_page
      else Ok (send_upload_form (token_expires_ts data))
  end.

(** [do_GET]: an exception leaves the handler, and no answer is sent. *)
Definition do_GET (path : list N) (now : Z) (st : state)
  : result reply * state :=
  if bool_decide (path = py "/health") then
    (Ok (plain (send_json [(py "status", JStr (py "ok"))] 200)), st)
  else if startswith (py "/upload/") path then
    (upload_page (rstrip [47] (hd [] (split1 63 (slice_from path 8)))) now st,
     st)
  else if bool_decide (path = py "/") || bool_decide (path = []) then
    list_sessions now st
  else (try! r <- do_GET_session path st; Ok (plain r), st).

(** The branch [/api/create_token] of [do_POST], with the
    [description] of the request body and the fresh [uuid.uuid4()]. *)
Definition do_POST_create_token (req : request) (description uuid : list N)
  (now_sweep now : Z) (st : state) : result response * state :=
  match int_header (Content_Length req) with
  | Raise e => (Raise e, st)
  | Ok _ =>
      match cleanup_expired_tokens now_sweep st with
      | (Raise e, st) => (Raise e, st)
      | (Ok _, st) =>
          let token := uuid in
          let expires := (now + minutes TOKEN_TTL_MINUTES)%Z in
          match load_tokens st with
          | Raise e => (Raise e, st)
          | Ok tokens =>
              let data :=
                {| token_created := now; token_expires := expires;
                   token_expires_ts := Z.quot expires 1000000;
                   token_description := description; token_used := false;
                   token_filename := None; token_uploaded_at := None;
                   token_size := None |} in
              (Ok (send_json
                     [(py "token", JStr token);
                      (py "url", JStr (DOMAIN ++ py "/upload/" ++ token));
                      (py "expires", JTime expires)] 200),
               save_tokens (<[token := data]> tokens) st)
          end
      end
  end.

Section Routes.

Variable secure_filename : list N -> list N.

Definition do_POST (req : post_request) (uuid : list N)
  (now now_sweep t_fallback t_suffix uploaded_at : Z) (st : state)
  : result response * state :=
  let path := post_path req in
  if startswith (py "/upload/") path then
    do_POST_upload secure_filename (rstrip [47] (slice_from path 8))
      (post_headers req) now t_fallback t_suffix uploaded_at st
  else if bool_decide (path = py "/api/create_token") then
    do_POST_create_token (post_headers req)
      (default [] (data_description (post_data req))) uuid now_sweep now st
  else if startswith (py "/api/check/") path then
    (do_POST_check (slice_from path 11) now st, st)
  else (Ok (send_error 404 (py "Not found")), st).

End Routes.

End UnifiedServer.

(** ** file_server.py *)

Module FileServer.
Import Py.
Local Open Scope N_scope.

Definition DOMAIN : list N := py "https://files.netwize.work".
Definition BASE_DIR : list N := py "/files".
Definition SESSIONS_DIR : list N := join BASE_DIR (py "sessions").
Definition SESSION_TTL_HOURS : Z := 24.

Record state : Type := {
  fs : gmap (list N) node;
  sessions_json : json_file (gmap (list N) Session)
}.

Definition load_sessions (st : state) : result (gmap (list N) Session) :=
  match sessions_json st with
  | Missing => Ok ∅
  | doc => open_json_load doc
  end.

Definition save_sessions (sessions : gmap (list N) Session) (st : state)
  : state :=
  {| fs := fs st; sessions_json := Document sessions |}.

Definition set_fs (fs' : gmap (list N) node) (st : state) : state :=
  {| fs := fs'; sessions_json := sessions_json st |}.

Fixpoint remove_expired (now : Z) (entries : list (list N * Session))
  (files : gmap (list N) node) (expired : list (list N))
  : result (list (list N)) * gmap (list N) node :=
  match entries with
  | [] => (Ok expired, files)
  | (sid, data) :: entries' =>
      if (session_expires data <? now)%Z then
        let session_path := join SESSIONS_DIR sid in
        match (if FS.exists_ files session_path
               then FS.rmtree files session_path else Ok files) with
        | Ok files' => remove_expired now entries' files' (expired ++ [sid])
        | Raise e => (Raise e, files)
        end
      else remove_expired now entries' files expired
  end.

Definition cleanup_expired_sessions (now : Z) (st : state)
  : result unit * state :=
  match load_sessions st with
  | Raise e => (Raise e, st)
  | Ok sessions =>
      match remove_expired now (map_to_list sessions) (fs st) [] with
      | (Raise e, files) => (Raise e, set_fs files st)
      | (Ok expired, files) =>
          let sessions' := foldl (fun m sid => delete sid m) sessions expired in
          (Ok tt,
           if is_empty expired then set_fs files st
           else save_sessions sessions' (set_fs files st))
      end
  end.

(** [create_session]: [uuid] is the fresh [uuid.uuid4()]; the clock is
    read by the sweep, for [created] and for [expires]. *)
Definition create_session (description uuid : list N)
  (now t_created t_expires : Z) (st : state) : result (list N) * state :=
  match cleanup_expired_sessions now st with
  | (Raise e, st) => (Raise e, st)
  | (Ok _, st) =>
      let sid := uuid in
      let session_path := join SESSIONS_DIR sid in
      match FS.makedirs (fs st) session_path with
      | Raise e => (Raise e, st)
      | Ok files =>
          let st := set_fs files st in
          match load_sessions st with
          | Raise e => (Raise e, st)
          | Ok sessions =>
              let data :=
                {| session_created := t_created;
                   session_expires := (t_expires + hours SESSION_TTL_HOURS)%Z;
                   session_description := description;
                   session_files := [] |} in
              (Ok sid, save_sessions (<[sid := data]> sessions) st)
          end
      end
  end.

(** The [content] argument of [add_file_to_session]. *)
Inductive content_arg : Type :=
| StrContent (s : list N)
| BytesContent (b : list N).

(** [add_file_to_session]: [None] is the Python [None], [Some url] the
    link.  [open(file_path, 'wb')] empties the file before anything is
    written to it. *)
Definition add_file_to_session (sid filename : list N)
  (content : option content_arg) (source_path : option (list N))
  (st : state) : result (option (list N)) * state :=
  let session_path := join SESSIONS_DIR sid in
  if negb (FS.exists_ (fs st) session_path) then (Ok None, st)
  else
    let file_path := join session_path filename in
    let written : option (result (gmap (list N) node) * gmap (list N) node) :=
      match content with
      | Some c =>
          match FS.write (fs st) file_path [] with
          | Raise e => Some (Raise e, fs st)
          | Ok opened =>
              match (match c with
                     | StrContent s => utf8_encode s
                     | BytesContent b => Ok b
                     end) with
              | Raise e => Some (Raise e, opened)
              | Ok b => Some (FS.write opened file_path b, opened)
              end
          end
      | None =>
          match source_path with
          | Some src =>
              if negb (is_empty src) && FS.exists_ (fs st) src
              then Some (FS.copy2 (fs st) src file_path, fs st)
              else None
          | None => None
          end
      end in
    match written with
    | None => (Ok None, st)
    | Some (Raise e, files) => (Raise e, set_fs files st)
    | Some (Ok files, _) =>
        let st := set_fs files st in
        match load_sessions st with
        | Raise e => (Raise e, st)
        | Ok sessions =>
            let st :=
              match sessions !! sid with
              | Some data =>
                  save_sessions (<[sid := append_file filename data]> sessions)
                    st
              | None => st
              end in
            match quote filename [47] with
            | Raise e => (Raise e, st)
            | Ok quoted => (Ok (Some (DOMAIN ++ [47] ++ sid ++ [47] ++ quoted)), st)
            end
        end
    end.

(** [None] is the Python [None]. *)
Definition list_session_files (sid : list N) (st : state)
  : result (option (list (list N))) :=
  try! sessions <- load_sessions st;
  Ok (session_files <$> sessions !! sid).

(** The page of [list_sessions], after its sweep: the sessions of the
    registry, each with links to its files. *)
Definition list_sessions (now : Z) (st : state) : result reply * state :=
  match cleanup_expired_sessions now st with
  | (Raise e, st) => (Raise e, st)
  | (Ok _, st) =>
      (try! sessions <- load_sessions st;
       try! _ <- quote_names
                   (concat (List.map (fun kv => session_files kv.2)
                              (map_to_list sessions)));
       Ok (send_sessions_page sessions), st)
  end.

Definition list_session_files_page (sid : list N) (st : state)
  : result response :=
  try! sessions <- load_sessions st;
  match sessions !! sid with
  | None => Ok (send_error 404 (py "Session not found"))
  | Some data =>
      try! _ <- quote_names (session_files data);
      Ok (send_session_page sid (session_expires data) (session_files data))
  end.

Definition serve_file (file_path filename : list N) (st : state)
  : result response :=
  try! content <- FS.read (fs st) file_path; Ok (send_file filename content).

(** [do_GET]: an exception leaves the handler, and no answer is sent. *)
Definition do_GET (path : list N) (now : Z) (st : state)
  : result reply * state :=
  if bool_decide (path = py "/") || bool_decide (path = []) then
    list_sessions now st
  else if bool_decide (path = py "/health") then (Ok send_ok, st)
  else
    match split1 47 (strip [47] path) with
    | sid :: rest =>
        if is_empty sid then (Ok (plain (send_error 404 (py "Not found"))), st)
        else
          let session_path := join SESSIONS_DIR sid in
          if negb (FS.exists_ (fs st) session_path)
          then (Ok (plain (send_error 404 (py "Session not found"))), st)
          else match rest with
               | [] => (try! r <- list_session_files_page sid st;
                        Ok (plain r), st)
               | filename :: _ =>
                   let file_path := join session_path filename in
                   if FS.exists_ (fs st) file_path
                      && FS.isfile (fs st) file_path
                   then (try! r <- serve_file file_path filename st;
                         Ok (plain r), st)
                   else (Ok (plain (send_error 404 (py "File not found"))), st)
               end
    | [] => (Ok (plain (send_error 404 (py "Not found"))), st)
    end.

End FileServer.

(** ** file_share_server.py *)

Module FileShareServer.
Import Py.
Local Open Scope N_scope.

Definition BASE_DIR : list N := py "/files".
Definition SESSIONS_DIR : list N := join BASE_DIR (py "sessions").
Definition SHARED_DIR : list N := join BASE_DIR (py "shared").
Definition DOMAIN : list N := py "https://files.netwize.work".
Definition SESSION_TTL_HOURS : Z := 24.

Record state : Type := {
  fs : gmap (list N) node;
  sessions_json : json_file (gmap (list N) Session)
}.

Definition make_link (url text : list N) : list N :=
  [91] ++ text ++ py "](" ++ url ++ [41].

(** The key that [build_download_url] puts into the link. *)
Definition build_download_key (session_id filename : list N)
  : result (list N) :=
  try! raw <- utf8_encode (session_id ++ [47] ++ filename);
  try! key <- ascii_decode (urlsafe_b64encode raw);
  Ok (rstrip [61] key).

Definition build_download_url (session_id filename : list N)
  : result (list N) :=
  try! key <- build_download_key session_id filename;
  try! quoted <- quote key [];
  Ok (DOMAIN ++ py "/d/" ++ quoted).

Definition load_sessions (st : state) : result (gmap (list N) Session) :=
  match sessions_json st with
  | Missing => Ok ∅
  | doc => open_json_load doc
  end.

Definition save_sessions (sessions : gmap (list N) Session) (st : state)
  : state :=
  {| fs := fs st; sessions_json := Document sessions |}.

Definition set_fs (fs' : gmap (list N) node) (st : state) : state :=
  {| fs := fs'; sessions_json := sessions_json st |}.

Fixpoint remove_expired (now : Z) (entries : list (list N * Session))
  (files : gmap (list N) node) (expired : list (list N))
  : result (list (list N)) * gmap (list N) node :=
  match entries with
  | [] => (Ok expired, files)
  | (sid, data) :: entries' =>
      if (session_expires data <? now)%Z then
        let session_path := join SESSIONS_DIR sid in
        match (if FS.exists_ files session_path
               then FS.rmtree files session_path else Ok files) with
        | Ok files' => remove_expired now entries' files' (expired ++ [sid])
        | Raise e => (Raise e, files)
        end
      else remove_expired now entries' files expired
  end.

(** Returns [len(expired)]. *)
Definition cleanup_expired_sessions (now : Z) (st : state)
  : result nat * state :=
  match load_sessions st with
  | Raise e => (Raise e, st)
  | Ok sessions =>
      match remove_expired now (map_to_list sessions) (fs st) [] with
      | (Raise e, files) => (Raise e, set_fs files st)
      | (Ok expired, files) =>
          let sessions' := foldl (fun m sid => delete sid m) sessions expired in
          (Ok (length expired),
           if is_empty expired then set_fs files st
           else save_sessions sessions' (set_fs files st))
      end
  end.

(** The text a tool returns. *)
Inductive tool_text : Type :=
| text (s : list N)
| error_text (e : exn)                         (* [f"Error: {str(e)}"] *)
| session_created_text (sid : list N) (expires : Z).

(** The label of the links, [Скачать]. *)
Definition download_label : list N := [1057; 1082; 1072; 1095; 1072; 1090; 1100].

(** The lines shared by [share_file], [create_and_share] and
    [create_binary_and_share] that open a session when the caller names
    none: [uuid] is the fresh [uuid.uuid4()]. *)
Definition new_session (description uuid : list N) (t_created t_expires : Z)
  (st : state) : result (list N) * state :=
  let sid := uuid in
  let session_path := join SESSIONS_DIR sid in
  match FS.makedirs (fs st) session_path with
  | Raise e => (Raise e, st)
  | Ok files =>
      let st := set_fs files st in
      match load_sessions st with
      | Raise e => (Raise e, st)
      | Ok sessions =>
          let data :=
            {| session_created := t_created;
               session_expires := (t_expires + hours SESSION_TTL_HOURS)%Z;
               session_description := description;
               session_files := [] |} in
          (Ok sid, save_sessions (<[sid := data]> sessions) st)
      end
  end.

(** The lines shared by [share_file] and [create_and_share] that enter
    the file into the registry. *)
Definition register_file (sid filename : list N) (st : state)
  : result unit * state :=
  match load_sessions st with
  | Raise e => (Raise e, st)
  | Ok sessions =>
      match sessions !! sid with
      | Some data =>
          if negb (str_in filename (session_files data))
          then (Ok tt,
                save_sessions (<[sid := append_file filename data]> sessions)
                  st)
          else (Ok tt, st)
      | None => (Ok tt, st)
      end
  end.

(** The branch [create_session] of [call_tool], after the sweep. *)
Definition tool_create_session (description uuid : list N)
  (t_created t_expires : Z) (st : state) : result tool_text * state :=
  match new_session description uuid t_created t_expires st with
  | (Raise e, st) => (Raise e, st)
  | (Ok sid, st) =>
      (Ok (session_created_text sid
             (t_expires + hours SESSION_TTL_HOURS)%Z), st)
  end.

(** The branch [share_file] of [call_tool], after the sweep. *)
Definition tool_share_file (file_path : list N)
  (session_id description : option (list N)) (uuid : list N)
  (t_created t_expires : Z) (st : state) : result tool_text * state :=
  if negb (FS.exists_ (fs st) file_path)
  then (Ok (text (py "Error: File not found: " ++ file_path)), st)
  else
    let filename := basename file_path in
    let description :=
      default (py "Shared file: " ++ filename) description in
    let opened :=
      match session_id with
      | Some sid =>
          if is_empty sid
          then new_session description uuid t_created t_expires st
          else (Ok sid, st)
      | None => new_session description uuid t_created t_expires st
      end in
    match opened with
    | (Raise e, st) => (Raise e, st)
    | (Ok sid, st) =>
        let session_path := join SESSIONS_DIR sid in
        if negb (FS.exists_ (fs st) session_path)
        then (Ok (text (py "Error: Session not found: " ++ sid)), st)
        else
          let dest_path := join session_path filename in
          match FS.copy2 (fs st) file_path dest_path with
          | Raise e => (Raise e, st)
          | Ok files =>
              match register_file sid filename (set_fs files st) with
              | (Raise e, st) => (Raise e, st)
              | (Ok _, st) =>
                  match build_download_url sid filename with
                  | Raise e => (Raise e, st)
                  | Ok url => (Ok (text (make_link url download_label)), st)
                  end
              end
          end
    end.

(** The branch [create_and_share] of [call_tool], after the sweep:
    [open(file_path, 'w')] empties the file, and the text is written
    through the UTF-8 codec. *)
Definition tool_create_and_share (filename content : list N)
  (session_id description : option (list N)) (uuid : list N)
  (t_created t_expires : Z) (st : state) : result tool_text * state :=
  let description :=
    default (py "Created file: " ++ filename) description in
  let opened :=
    match session_id with
    | Some sid =>
        if is_empty sid
        then new_session description uuid t_created t_expires st
        else (Ok sid, st)
    | None => new_session description uuid t_created t_expires st
    end in
  match opened with
  | (Raise e, st) => (Raise e, st)
  | (Ok sid, st) =>
      let session_path := join SESSIONS_DIR sid in
      let file_path := join session_path filename in
      match FS.write (fs st) file_path [] with
      | Raise e => (Raise e, st)
      | Ok files =>
          let st := set_fs files st in
          match utf8_encode content with
          | Raise e => (Raise e, st)
          | Ok b =>
              match FS.write (fs st) file_path b with
              | Raise e => (Raise e, st)
              | Ok files =>
                  match register_file sid filename (set_fs files st) with
                  | (Raise e, st) => (Raise e, st)
                  | (Ok _, st) =>
                      match build_download_url sid filename with
                      | Raise e => (Raise e, st)
                      | Ok url =>
                          (Ok (text (make_link url download_label)), st)
                      end
                  end
              end
          end
      end
  end.

(** The tools of [call_tool] that are embedded here. *)
Inductive tool_call : Type :=
| create_session (description : option (list N))
| share_file (file_path : list N) (session_id description : option (list N))
| create_and_share (filename content : list N)
    (session_id description : option (list N))
| cleanup_sessions.

(** [call_tool]: every call starts with a sweep, and every exception
    becomes an error text. *)
Definition call_tool (call : tool_call) (uuid : list N)
  (now t_created t_expires : Z) (st : state) : tool_text * state :=
  let run : result tool_text * state :=
    match cleanup_expired_sessions now st with
    | (Raise e, st) => (Raise e, st)
    | (Ok _, st) =>
        match call with
        | create_session description =>
            tool_create_session (default [] description) uuid
              t_created t_expires st
        | share_file file_path session_id description =>
            tool_share_file file_path session_id description uuid
              t_created t_expires st
        | create_and_share filename content session_id description =>
            tool_create_and_share filename content session_id description
              uuid t_created t_expires st
        | cleanup_sessions =>
            match cleanup_expired_sessions now st with
            | (Raise e, st) => (Raise e, st)
            | (Ok count, st) =>
                (Ok (text (py "Cleaned up " ++ str_of_int (Z.of_nat count)
                           ++ py " expired sessions")), st)
            end
        end
    end in
  match run with
  | (Ok t, st) => (t, st)
  | (Raise e, st) => (error_text e, st)
  end.

End FileShareServer.

(** ** Concrete requests and states *)

Module Scenario.
Import Py.
Local Open Scope N_scope.

Definition crlf : list N := [13; 10].

(** A multipart body with one file part, closed by the boundary [B]. *)
Definition multipart_body (filename content : list N) : list N :=
  py "--B" ++ crlf
  ++ py "Content-Disposition: form-data; name=" ++ [34] ++ py "file" ++ [34]
  ++ py "; filename=" ++ [34] ++ filename ++ [34] ++ crlf
  ++ py "Content-Type: application/octet-stream" ++ crlf ++ crlf
  ++ content ++ crlf ++ py "--B--" ++ crlf.

Definition upload_request (filename content : list N) : request :=
  let body := multipart_body filename content in
  {| Content_Length := IntValue (Z.of_nat (length body));
     Content_Type := Some (py "multipart/form-data; boundary=B");
     rfile := body |}.

(** A request that declares more than the server accepts. *)
Definition oversize_request : request :=
  {| Content_Length := IntValue (FilesServer.MAX_FILE_SIZE + 1);
     Content_Type := Some (py "multipart/form-data; boundary=B");
     rfile := [] |}.

(** A request that is no multipart form, and one that names no
    boundary. *)
Definition plain_request : request :=
  {| Content_Length := IntValue 10;
     Content_Type := Some (py "text/plain");
     rfile := py "0123456789" |}.

Definition boundless_request : request :=
  {| Content_Length := IntValue 10;
     Content_Type := Some (py "multipart/form-data");
     rfile := py "0123456789" |}.

(** A token issued at time 0 for thirty minutes. *)
Definition pending_token : FilesServer.Token :=
  {| FilesServer.token_created := 0;
     FilesServer.token_expires := minutes 30;
     FilesServer.token_description := Some (py "t");
     FilesServer.token_used := false;
     FilesServer.token_filename := None;
     FilesServer.token_uploaded_at := None;
     FilesServer.token_size := None |}.

(** The same token after an upload. *)
Definition used_token : FilesServer.Token :=
  {| FilesServer.token_created := 0;
     FilesServer.token_expires := minutes 30;
     FilesServer.token_description := Some (py "t");
     FilesServer.token_used := true;
     FilesServer.token_filename := Some (py "hello_60.txt");
     FilesServer.token_uploaded_at := Some 60000000%Z;
     FilesServer.token_size := Some 10%Z |}.

Definition with_tokens (tokens : gmap (list N) FilesServer.Token)
  : FilesServer.state :=
  {| FilesServer.fs := {[ FilesServer.UPLOADS_DIR := Dir ]};
     FilesServer.sessions_json := Missing;
     FilesServer.tokens_json := Document tokens |}.

(** The token [T] after its upload. *)
Definition token_used_up : FilesServer.state :=
  with_tokens {[ py "T" := used_token ]}.

(** Two tokens, [T] and [U], both pending. *)
Definition two_tokens : FilesServer.state :=
  with_tokens (<[py "T" := pending_token]> {[ py "U" := pending_token ]}).

(** A session that expired at time 1000, with its directory and one
    file. *)
Definition old_session : Session :=
  {| session_created := 0; session_expires := 1000;
     session_description := py "demo";
     session_files := [py "report.pdf"] |}.

Definition with_old_session : FilesServer.state :=
  {| FilesServer.fs :=
       <[py "/files/sessions/S" := Dir]>
         {[ py "/files/sessions/S/report.pdf" := File (py "%PDF") ]};
     FilesServer.sessions_json := Document {[ py "S" := old_session ]};
     FilesServer.tokens_json := Missing |}.

(** The session [S] of file_server.py, open and empty, with its
    directory. *)
Definition open_session : Session :=
  {| session_created := 0; session_expires := hours 24;
     session_description := py "demo"; session_files := [] |}.

Definition with_open_session : FileServer.state :=
  {| FileServer.fs := {[ py "/files/sessions/S" := Dir ]};
     FileServer.sessions_json := Document {[ py "S" := open_session ]} |}.

(** A state of unified_server.py whose [sessions.json] does not parse. *)
Definition corrupt_sessions : UnifiedServer.state :=
  {| UnifiedServer.fs := ∅;
     UnifiedServer.sessions_json := Corrupt;
     UnifiedServer.tokens_json := Missing |}.

(** A GET of [path] with no query string. *)
Definition bare_get (path : list N) : get_request :=
  {| get_path := path; query_u := None; query_d := None;
     query_s := None; query_f := None |}.

(** The uploads area after the upload of [hello.txt], and no session
    yet. *)
Definition with_upload : FilesServer.state :=
  {| FilesServer.fs :=
       <[py "/files/uploads" := Dir]>
         (<[py "/files/sessions" := Dir]>
            {[ py "/files/uploads/hello_60.txt" := File (py "0123456789") ]});
     FilesServer.sessions_json := Missing;
     FilesServer.tokens_json := Document {[ py "T" := used_token ]} |}.

(** The body of a [POST /api/share] that names the uploaded file, and
    the answer to it when the new session is [S2]. *)
Definition share_request : json_data :=
  {| data_description := None;
     data_filename := Some (py "hello_60.txt");
     data_source_session_id := None |}.

Definition share_answer : list (list N * json) :=
  [(py "session_id", JStr (py "S2"));
   (py "url", JStr (py "https://files.netwize.work/S2/hello_60.txt"));
   (py "short_url",
    JStr (py "https://files.netwize.work/d/UzIvaGVsbG9fNjAudHh0"));
   (py "html_link",
    JStr (FilesServer.make_link
            (py "https://files.netwize.work/d/UzIvaGVsbG9fNjAudHh0")
            [8211; 176; 8211; 8747; 8211; 8734; 8212; 225; 8211; 8734; 8212;
             199; 8212; 229]));
   (py "expires", JTime (hours 24))].

(** A body that names no file. *)
Definition nameless_request : json_data :=
  {| data_description := None; data_filename := None;
     data_source_session_id := None |}.

(** A pending token of unified_server.py, issued at time 0. *)
Definition unified_token : UnifiedServer.Token :=
  {| UnifiedServer.token_created := 0;
     UnifiedServer.token_expires := minutes 30;
     UnifiedServer.token_expires_ts := 1800;
     UnifiedServer.token_description := py "t";
     UnifiedServer.token_used := false;
     UnifiedServer.token_filename := None;
     UnifiedServer.token_uploaded_at := None;
     UnifiedServer.token_size := None |}.

(** A state of unified_server.py: the token [T], and the session [S]
    with its directory and one file. *)
Definition unified_state : UnifiedServer.state :=
  {| UnifiedServer.fs :=
       <[py "/files/uploads" := Dir]>
         (<[py "/files/sessions/S" := Dir]>
            {[ py "/files/sessions/S/report.pdf" := File (py "%PDF") ]});
     UnifiedServer.sessions_json := Document {[ py "S" := old_session ]};
     UnifiedServer.tokens_json := Document {[ py "T" := unified_token ]} |}.

(** A state of file_share_server.py: the open session [S] with its
    directory, and a file to share. *)
Definition share_state : FileShareServer.state :=
  {| FileShareServer.fs :=
       <[py "/files/sessions/S" := Dir]>
         {[ py "/tmp/report.pdf" := File (py "%PDF") ]};
     FileShareServer.sessions_json := Document {[ py "S" := open_session ]} |}.

End Scenario.

(** * Facts about the library fragments *)

Module PyFacts.
Import Py.
Local Open Scope N_scope.

Section Sequences.

Lemma rfind_from_absent c l i last :
  c ∉ l -> rfind_from c l i last = last.
Proof.
  revert i last. induction l as [|x l IH]; intros i last Hc; [reflexivity|].
  apply not_elem_of_cons in Hc as [Hx Hl]. simpl.
  destruct (N.eqb_spec x c) as [->|_]; [congruence|]. now apply IH.
Qed.

Lemma rfind_from_last c a b i last :
  c ∉ b ->
  rfind_from c (a ++ c :: b) i last = (i + Z.of_nat (length a))%Z.
Proof.
  intros Hb. revert i last.
  induction a as [|x a IH]; intros i last; simpl.
  - rewrite N.eqb_refl, rfind_from_absent by assumption. lia.
  - rewrite IH. lia.
Qed.

(** Every list either lacks [c] or splits at its last [c]. *)
Lemma last_occurrence c (l : list N) :
  c ∉ l \/ exists a b, l = a ++ c :: b /\ c ∉ b.
Proof.
  induction l as [|x l [IH|(a & b & -> & Hb)]].
  - left. apply not_elem_of_nil.
  - destruct (decide (x = c)) as [->|Hx].
    + right. exists [], l. split; [reflexivity|assumption].
    + left. apply not_elem_of_cons. split; [congruence|assumption].
  - right. exists (x :: a), b. split; [reflexivity|assumption].
Qed.

Lemma clamp_inside len k : (0 <= k <= len)%Z -> clamp len k = k.
Proof.
  intros Hk. unfold clamp.
  destruct (Z.ltb_spec k 0); [lia|]. apply Z.min_l. lia.
Qed.

Lemma slice_from_inside (l : list N) k :
  (0 <= k <= Z.of_nat (length l))%Z -> slice_from l k = drop (Z.to_nat k) l.
Proof. intros Hk. unfold slice_from. now rewrite clamp_inside. Qed.

Lemma slice_to_inside (l : list N) k :
  (0 <= k <= Z.of_nat (length l))%Z -> slice_to l k = take (Z.to_nat k) l.
Proof. intros Hk. unfold slice_to. now rewrite clamp_inside. Qed.

Lemma basename_no_sep p : 47 ∉ p -> basename p = p.
Proof.
  intros Hp. unfold basename, rfind.
  rewrite rfind_from_absent by assumption.
  rewrite slice_from_inside by lia. reflexivity.
Qed.

Lemma basename_after_last a b : 47 ∉ b -> basename (a ++ 47 :: b) = b.
Proof.
  intros Hb. unfold basename, rfind.
  rewrite rfind_from_last by assumption.
  rewrite slice_from_inside by (rewrite length_app; simpl; lia).
  replace (Z.to_nat (0 + Z.of_nat (length a) + 1)) with (length a + 1)%nat by lia.
  rewrite <- drop_drop, drop_app_length. reflexivity.
Qed.

(** [basename] never leaves a separator in its result. *)
Lemma basename_sep_free p : 47 ∉ basename p.
Proof.
  destruct (last_occurrence 47 p) as [Hp|(a & b & -> & Hb)].
  - now rewrite basename_no_sep.
  - now rewrite basename_after_last.
Qed.

Lemma split1_aux_cut c s f cur :
  c ∉ s -> split1_aux c (s ++ c :: f) cur = [rev cur ++ s; f].
Proof.
  revert cur. induction s as [|x s IH]; intros cur Hs; simpl.
  - now rewrite N.eqb_refl, app_nil_r.
  - apply not_elem_of_cons in Hs as [Hx Hs].
    destruct (N.eqb_spec x c) as [->|_]; [congruence|].
    rewrite IH by assumption. simpl. now rewrite <- app_assoc.
Qed.

Lemma split1_cut c s f : c ∉ s -> split1 c (s ++ c :: f) = [s; f].
Proof. intros Hs. unfold split1. now rewrite split1_aux_cut. Qed.

Lemma split1_aux_absent c l : forall cur,
  c ∉ l -> split1_aux c l cur = [rev cur ++ l].
Proof.
  induction l as [|x l IH]; intros cur Hl; simpl.
  - now rewrite app_nil_r.
  - apply not_elem_of_cons in Hl as [Hx Hl].
    destruct (N.eqb_spec x c) as [->|_]; [congruence|].
    rewrite IH by assumption. simpl. now rewrite <- app_assoc.
Qed.

Lemma split1_absent c l : c ∉ l -> split1 c l = [l].
Proof. intros Hl. unfold split1. now rewrite split1_aux_absent. Qed.

Lemma find_from_absent_step sub x l i :
  (0 <= i)%Z -> find_from sub (x :: l) i = (-1)%Z ->
  startswith sub (x :: l) = false /\ find_from sub l (i + 1) = (-1)%Z.
Proof.
  intros Hi. cbn [find_from].
  destruct (startswith sub (x :: l)); [lia|]. now split.
Qed.

(** Without an occurrence of the separator nothing is cut. *)
Lemma split_aux_absent sep l : forall i cur,
  (0 <= i)%Z -> find_from sep l i = (-1)%Z ->
  split_aux sep l 0 cur = [rev cur ++ l].
Proof.
  induction l as [|x l IH]; intros i cur Hi Hfind.
  - simpl. now rewrite app_nil_r.
  - destruct (find_from_absent_step _ _ _ _ Hi Hfind) as [Hstart Hrest].
    cbn [split_aux]. rewrite Hstart.
    rewrite (IH (i + 1)%Z) by (lia || assumption).
    simpl. now rewrite <- app_assoc.
Qed.

Lemma split_absent sep l : contains sep l = false -> split sep l = [l].
Proof.
  unfold contains, split, find. intros H.
  apply negb_false_iff, Z.eqb_eq in H.
  now rewrite (split_aux_absent sep l 0 []) by (lia || assumption).
Qed.

End Sequences.

Section Utf8.

Lemma in_range_true lo hi b : lo <= b -> b <= hi -> in_range lo hi b = true.
Proof.
  intros H1 H2. unfold in_range.
  now rewrite (proj2 (N.leb_le _ _) H1), (proj2 (N.leb_le _ _) H2).
Qed.

Lemma in_range_false lo hi b : b < lo \/ hi < b -> in_range lo hi b = false.
Proof.
  intros H. unfold in_range. apply andb_false_iff.
  destruct H as [H|H]; [left|right]; now apply N.leb_gt.
Qed.

Lemma ltb_false a b : b <= a -> (a <? b) = false.
Proof. apply N.ltb_ge. Qed.

Lemma utf8_encode_char_range c bs :
  utf8_encode_char c = Some bs -> Forall (fun b => b < 256) bs.
Proof.
  unfold utf8_encode_char, is_surrogate.
  destruct (N.ltb_spec c 0x80); [intros [= <-]; repeat constructor; lia|].
  destruct (N.ltb_spec c 0x800); [intros [= <-]; repeat constructor; lia|].
  destruct (_ && _); [discriminate|].
  destruct (N.ltb_spec c 0x10000); [intros [= <-]; repeat constructor; lia|].
  destruct (N.ltb_spec c 0x110000); [intros [= <-]; repeat constructor; lia|].
  discriminate.
Qed.

Lemma utf8_encode_range s b :
  utf8_encode s = Ok b -> Forall (fun x => x < 256) b.
Proof.
  revert b. induction s as [|c s IH]; intros b; simpl.
  - intros [= <-]. constructor.
  - destruct (utf8_encode_char c) as [bs|] eqn:Hc; [|discriminate].
    destruct (utf8_encode s) as [rest|]; [|discriminate].
    intros [= <-]. apply Forall_app. split.
    + eapply utf8_encode_char_range; eassumption.
    + now apply IH.
Qed.

(** The decoder reads back what the encoder wrote for one code point. *)
Lemma utf8_decode_encode_char mode c bs rest :
  utf8_encode_char c = Some bs ->
  utf8_decode mode (bs ++ rest)
  = (try! r <- utf8_decode mode rest; Ok (c :: r)).
Proof.
  unfold utf8_encode_char.
  destruct (N.ltb_spec c 0x80) as [H1|H1].
  { intros [= <-]. cbn [app utf8_decode].
    now rewrite (proj2 (N.ltb_lt c 0x80) H1). }
  destruct (N.ltb_spec c 0x800) as [H2|H2].
  { intros [= <-].
    assert (Hc : c = c / 64 * 64 + c mod 64) by lia.
    assert (Hq : c / 64 < 32) by lia.
    assert (Hr : c mod 64 < 64) by lia.
    set (q := c / 64) in *. set (r := c mod 64) in *. clearbody q r.
    cbn [app utf8_decode].
    rewrite (ltb_false (0xC0 + q) 0x80) by lia.
    rewrite (in_range_true 0xC2 0xDF (0xC0 + q)) by lia.
    rewrite (in_range_true 0x80 0xBF (0x80 + r)) by lia.
    destruct (utf8_decode mode rest); cbn [rbind]; [|reflexivity].
    do 2 f_equal. lia. }
  destruct (is_surrogate c) eqn:Hs; [discriminate|].
  assert (Hs' : c < 0xD800 \/ 0xDFFF < c).
  { unfold is_surrogate in Hs. apply andb_false_iff in Hs as [Hs|Hs];
      apply N.leb_gt in Hs; lia. }
  clear Hs.
  destruct (N.ltb_spec c 0x10000) as [H3|H3].
  { intros [= <-].
    assert (Hc : c = c / 4096 * 4096 + (c / 64) mod 64 * 64 + c mod 64) by lia.
    assert (Hq : c / 4096 < 16) by lia.
    assert (Hr : (c / 64) mod 64 < 64) by lia.
    assert (Ht : c mod 64 < 64) by lia.
    set (q := c / 4096) in *. set (r := (c / 64) mod 64) in *.
    set (t := c mod 64) in *. clearbody q r t.
    cbn [app utf8_decode].
    rewrite (ltb_false (0xE0 + q) 0x80) by lia.
    rewrite (in_range_false 0xC2 0xDF (0xE0 + q)) by lia.
    rewrite (in_range_true 0xE0 0xEF (0xE0 + q)) by lia.
    rewrite (in_range_true 0x80 0xBF (0x80 + t)) by lia.
    assert (Hb2 : in_range (if 0xE0 + q =? 0xE0 then 0xA0 else 0x80)
                    (if 0xE0 + q =? 0xED then 0x9F else 0xBF) (0x80 + r) = true).
    { destruct (N.eqb_spec (0xE0 + q) 0xE0);
        destruct (N.eqb_spec (0xE0 + q) 0xED);
        apply in_range_true; lia. }
    rewrite Hb2.
    destruct (utf8_decode mode rest); cbn [rbind]; [|reflexivity].
    do 2 f_equal. lia. }
  destruct (N.ltb_spec c 0x110000) as [H4|H4]; [|discriminate].
  intros [= <-].
  assert (Hc : c = c / 262144 * 262144 + (c / 4096) mod 64 * 4096
                   + (c / 64) mod 64 * 64 + c mod 64) by lia.
  assert (Hq : c / 262144 < 5) by lia.
  assert (Hp : (c / 4096) mod 64 < 64) by lia.
  assert (Hr : (c / 64) mod 64 < 64) by lia.
  assert (Ht : c mod 64 < 64) by lia.
  set (q := c / 262144) in *. set (p := (c / 4096) mod 64) in *.
  set (r := (c / 64) mod 64) in *. set (t := c mod 64) in *.
  clearbody q p r t.
  cbn [app utf8_decode].
  rewrite (ltb_false (0xF0 + q) 0x80) by lia.
  rewrite (in_range_false 0xC2 0xDF (0xF0 + q)) by lia.
  rewrite (in_range_false 0xE0 0xEF (0xF0 + q)) by lia.
  rewrite (in_range_true 0xF0 0xF4 (0xF0 + q)) by lia.
  rewrite (in_range_true 0x80 0xBF (0x80 + r)) by lia.
  rewrite (in_range_true 0x80 0xBF (0x80 + t)) by lia.
  assert (Hb2 : in_range (if 0xF0 + q =? 0xF0 then 0x90 else 0x80)
                  (if 0xF0 + q =? 0xF4 then 0x8F else 0xBF) (0x80 + p) = true).
  { destruct (N.eqb_spec (0xF0 + q) 0xF0);
      destruct (N.eqb_spec (0xF0 + q) 0xF4);
      apply in_range_true; lia. }
  rewrite Hb2.
  destruct (utf8_decode mode rest); cbn [rbind]; [|reflexivity].
  do 2 f_equal. lia.
Qed.

Lemma utf8_decode_encode mode s b :
  utf8_encode s = Ok b -> utf8_decode mode b = Ok s.
Proof.
  revert b. induction s as [|c s IH]; intros b; simpl.
  - intros [= <-]. reflexivity.
  - destruct (utf8_encode_char c) as [bs|] eqn:Hc; [|discriminate].
    destruct (utf8_encode s) as [rest|]; [|discriminate].
    intros [= <-]. rewrite (utf8_decode_encode_char _ _ _ _ Hc).
    now rewrite (IH rest eq_refl).
Qed.

End Utf8.

Section Base64.

(** A property of the sixty-four six-bit values is checked on each. *)
Lemma sextets_check (P : N -> bool) :
  forallb P (List.map N.of_nat (seq 0 64)) = true ->
  forall v, v < 64 -> P v = true.
Proof.
  intros Hall v Hv. rewrite forallb_forall in Hall. apply Hall.
  rewrite <- (N2Nat.id v). apply in_map, in_seq. lia.
Qed.

Lemma key_char_value v :
  v < 64 -> b64_value (urlsafe_decode_translation (key_char v)) = Some v.
Proof.
  intros Hv.
  apply (sextets_check
           (fun v => bool_decide
              (b64_value (urlsafe_decode_translation (key_char v)) = Some v)))
    in Hv; [|vm_compute; reflexivity].
  now apply bool_decide_eq_true in Hv.
Qed.

Lemma key_char_not_pad v :
  v < 64 -> (urlsafe_decode_translation (key_char v) =? 61) = false.
Proof.
  intros Hv.
  apply (sextets_check
           (fun v => negb (urlsafe_decode_translation (key_char v) =? 61)))
    in Hv; [|vm_compute; reflexivity].
  now apply negb_true_iff in Hv.
Qed.

Lemma key_char_ascii v : v < 64 -> key_char v < 128 /\ key_char v <> 61.
Proof.
  intros Hv.
  apply (sextets_check
           (fun v => (key_char v <? 128) && negb (key_char v =? 61)))
    in Hv; [|vm_compute; reflexivity].
  apply andb_true_iff in Hv as [H1 H2].
  apply N.ltb_lt in H1. apply negb_true_iff, N.eqb_neq in H2. now split.
Qed.

(** One turn of the decoder on a character of the alphabet. *)
Lemma a2b_loop_key_char v data quad_pos leftchar pads out :
  v < 64 ->
  a2b_loop (urlsafe_decode_translation (key_char v) :: data)
    quad_pos leftchar pads out
  = if quad_pos =? 0 then a2b_loop data 1 v 0 out
    else if quad_pos =? 1 then
      a2b_loop data 2 (v mod 16) 0 (leftchar * 4 + v / 16 :: out)
    else if quad_pos =? 2 then
      a2b_loop data 3 (v mod 4) 0 (leftchar * 16 + v / 4 :: out)
    else a2b_loop data 0 0 0 (leftchar * 64 + v :: out).
Proof.
  intros Hv. cbn [a2b_loop].
  now rewrite key_char_not_pad, key_char_value by assumption.
Qed.

(** Lists are taken three elements at a time. *)
Lemma list_ind3 (P : list N -> Prop) :
  P [] -> (forall a, P [a]) -> (forall a b, P [a; b]) ->
  (forall a b c l, P l -> P (a :: b :: c :: l)) ->
  forall l, P l.
Proof.
  intros H0 H1 H2 H3.
  assert (H : forall l, P l /\ (forall a, P (a :: l)) /\ (forall a b, P (a :: b :: l))).
  { induction l as [|x l (IH0 & IH1 & IH2)]; [now repeat split|].
    repeat split; [apply IH1|intros; apply IH2|intros; now apply H3]. }
  intros l. apply H.
Qed.

Lemma urlsafe_b64encode_triple b1 b2 b3 rest :
  urlsafe_b64encode (b1 :: b2 :: b3 :: rest)
  = key_char (b1 / 4) :: key_char ((b1 mod 4) * 16 + b2 / 16)
    :: key_char ((b2 mod 16) * 4 + b3 / 64) :: key_char (b3 mod 64)
    :: urlsafe_b64encode rest.
Proof. reflexivity. Qed.

(** Decoding undoes encoding, whatever was written before. *)
Lemma a2b_loop_encode b : forall out,
  Forall (fun x => x < 256) b ->
  a2b_loop (List.map urlsafe_decode_translation (urlsafe_b64encode b)) 0 0 0 out
  = Ok (rev out ++ b).
Proof.
  induction b as [|b1|b1 b2|b1 b2 b3 rest IH] using list_ind3; intros out Hb.
  - simpl. now rewrite app_nil_r.
  - apply Forall_cons in Hb as [H1 _].
    change (urlsafe_b64encode [b1])
      with [key_char (b1 / 4); key_char ((b1 mod 4) * 16); 61; 61].
    cbn [List.map].
    rewrite !a2b_loop_key_char by lia. cbn [N.eqb Pos.eqb].
    change (urlsafe_decode_translation 61) with 61.
    cbn [a2b_loop N.eqb Pos.eqb N.leb N.compare Pos.compare Pos.compare_cont
           N.add Pos.add Pos.succ andb].
    replace (b1 / 4 * 4 + (b1 mod 4 * 16) / 16) with b1 by lia.
    reflexivity.
  - apply Forall_cons in Hb as [H1 Hb]. apply Forall_cons in Hb as [H2 _].
    change (urlsafe_b64encode [b1; b2])
      with [key_char (b1 / 4); key_char ((b1 mod 4) * 16 + b2 / 16);
            key_char ((b2 mod 16) * 4); 61].
    cbn [List.map].
    rewrite !a2b_loop_key_char by lia. cbn [N.eqb Pos.eqb].
    change (urlsafe_decode_translation 61) with 61.
    cbn [a2b_loop N.eqb Pos.eqb N.leb N.compare Pos.compare Pos.compare_cont
           N.add Pos.add Pos.succ andb].
    replace (b1 / 4 * 4 + (b1 mod 4 * 16 + b2 / 16) / 16) with b1 by lia.
    replace ((b1 mod 4 * 16 + b2 / 16) mod 16 * 16 + (b2 mod 16 * 4) / 4)
      with b2 by lia.
    simpl. now rewrite <- app_assoc.
  - apply Forall_cons in Hb as [H1 Hb]. apply Forall_cons in Hb as [H2 Hb].
    apply Forall_cons in Hb as [H3 Hb].
    rewrite urlsafe_b64encode_triple. cbn [List.map].
    rewrite !a2b_loop_key_char by lia. cbn [N.eqb Pos.eqb].
    rewrite IH by assumption.
    replace (b1 / 4 * 4 + (b1 mod 4 * 16 + b2 / 16) / 16) with b1 by lia.
    replace ((b1 mod 4 * 16 + b2 / 16) mod 16 * 16
             + (b2 mod 16 * 4 + b3 / 64) / 4) with b2 by lia.
    replace ((b2 mod 16 * 4 + b3 / 64) mod 4 * 64 + b3 mod 64) with b3 by lia.
    simpl. now rewrite <- !app_assoc.
Qed.

Lemma urlsafe_b64decode_encode b :
  Forall (fun x => x < 256) b ->
  urlsafe_b64decode (urlsafe_b64encode b) = Ok b.
Proof.
  intros Hb. unfold urlsafe_b64decode, a2b_base64.
  now rewrite a2b_loop_encode.
Qed.

(** An encoding is a run of alphabet characters followed by at most two
    padding characters, four characters to a group. *)
Lemma urlsafe_b64encode_shape b :
  Forall (fun x => x < 256) b ->
  exists body k,
    urlsafe_b64encode b = body ++ replicate k 61
    /\ Forall (fun c => c < 128 /\ c <> 61) body
    /\ (k <= 2)%nat
    /\ ((Z.of_nat (length body) + Z.of_nat k) mod 4 = 0)%Z.
Proof.
  induction b as [|b1|b1 b2|b1 b2 b3 rest IH] using list_ind3; intros Hb.
  - exists [], 0%nat. repeat split; [constructor|lia].
  - apply Forall_cons in Hb as [H1 _].
    exists [key_char (b1 / 4); key_char ((b1 mod 4) * 16)], 2%nat.
    repeat split; [|lia].
    repeat constructor; apply key_char_ascii; lia.
  - apply Forall_cons in Hb as [H1 Hb]. apply Forall_cons in Hb as [H2 _].
    exists [key_char (b1 / 4); key_char ((b1 mod 4) * 16 + b2 / 16);
            key_char ((b2 mod 16) * 4)], 1%nat.
    repeat split; [|lia].
    repeat constructor; apply key_char_ascii; lia.
  - apply Forall_cons in Hb as [H1 Hb]. apply Forall_cons in Hb as [H2 Hb].
    apply Forall_cons in Hb as [H3 Hb].
    destruct (IH Hb) as (body & k & Henc & Hbody & Hk & Hlen).
    exists (key_char (b1 / 4) :: key_char ((b1 mod 4) * 16 + b2 / 16)
            :: key_char ((b2 mod 16) * 4 + b3 / 64) :: key_char (b3 mod 64)
            :: body), k.
    rewrite urlsafe_b64encode_triple, Henc. repeat split; [|assumption|].
    + repeat (apply Forall_cons; split; [apply key_char_ascii; lia|]).
      assumption.
    + cbn [length]. lia.
Qed.

End Base64.

Section Padding.

(** Two checks that evaluation settles on a given string. *)
Lemma Forall_check (P : N -> bool) (l : list N) :
  forallb P l = true -> Forall (fun c => P c = true) l.
Proof.
  induction l as [|x l IH]; simpl; intros H; [constructor|].
  apply andb_true_iff in H as [Hx Hl]. constructor; [exact Hx|now apply IH].
Qed.

Lemma absent_check (c : N) (l : list N) : existsb (N.eqb c) l = false -> c ∉ l.
Proof.
  intros H Hin. apply list_elem_of_In in Hin.
  assert (Ht : existsb (N.eqb c) l = true).
  { apply existsb_exists. exists c. split; [assumption|apply N.eqb_refl]. }
  congruence.
Qed.

Lemma utf8_encode_char_total c :
  encodable c = true -> exists bs, utf8_encode_char c = Some bs.
Proof.
  unfold encodable, utf8_encode_char. intros Hc.
  apply andb_true_iff in Hc as [H1 H2]. apply negb_true_iff in H2.
  rewrite H1, H2.
  destruct (c <? 0x80); [eauto|]. destruct (c <? 0x800); [eauto|].
  destruct (c <? 0x10000); eauto.
Qed.

Lemma utf8_encode_total s :
  Forall (fun c => encodable c = true) s -> exists b, utf8_encode s = Ok b.
Proof.
  induction 1 as [|c s Hc _ [b IH]]; [now exists []|].
  destruct (utf8_encode_char_total c Hc) as [bs Hbs].
  exists (bs ++ b). simpl. now rewrite Hbs, IH.
Qed.

Lemma ascii_decode_id b : Forall (fun c => c < 128) b -> ascii_decode b = Ok b.
Proof.
  induction 1 as [|c b Hc _ IH]; [reflexivity|]. simpl.
  now rewrite (proj2 (N.ltb_lt c 128) Hc), IH.
Qed.

Lemma ascii_encode_id s : Forall (fun c => c < 128) s -> ascii_encode s = Ok s.
Proof.
  induction 1 as [|c b Hc _ IH]; [reflexivity|]. simpl.
  now rewrite (proj2 (N.ltb_lt c 128) Hc), IH.
Qed.

Lemma rstrip_snoc c l : rstrip [c] (l ++ [c]) = rstrip [c] l.
Proof.
  unfold rstrip. rewrite rev_app_distr. simpl. now rewrite N.eqb_refl.
Qed.

Lemma rstrip_clean c l : Forall (fun x => x <> c) l -> rstrip [c] l = l.
Proof.
  intros Hl. unfold rstrip.
  assert (Hd : drop_while (fun x => existsb (N.eqb x) [c]) (rev l) = rev l).
  { apply Forall_rev in Hl. destruct Hl as [|x r Hx _]; [reflexivity|].
    simpl. destruct (N.eqb_spec x c); [contradiction|reflexivity]. }
  rewrite Hd. apply rev_involutive.
Qed.

Lemma absent_Forall (c : N) (l : list N) : c ∉ l -> Forall (fun x => x <> c) l.
Proof.
  intros Hl. apply Forall_forall. intros x Hx ->. contradiction.
Qed.


Lemma rstrip_padding c body k :
  Forall (fun x => x <> c) body -> rstrip [c] (body ++ replicate k c) = body.
Proof.
  intros Hb. induction k as [|k IH].
  - rewrite app_nil_r. now apply rstrip_clean.
  - rewrite replicate_S_end, app_assoc, rstrip_snoc. exact IH.
Qed.

End Padding.

End PyFacts.

(** * The download-key codec *)

Section DownloadKey.
Import Py PyFacts FilesServer.
Local Open Scope N_scope.

(** What [encode_download_key] returns, and what the decoder finds in
    it once the padding is back. *)
Lemma encode_download_key_padded s f raw :
  utf8_encode (s ++ [47] ++ f) = Ok raw ->
  exists key,
    encode_download_key s f = Ok key
    /\ key ++ repeat_char 61 ((- Z.of_nat (length key)) mod 4)
       = urlsafe_b64encode raw
    /\ Forall (fun c => c < 128) (urlsafe_b64encode raw).
Proof.
  intros Hraw. pose proof (utf8_encode_range _ _ Hraw) as Hrange.
  destruct (urlsafe_b64encode_shape raw Hrange)
    as (body & k & Henc & Hbody & Hk & Hlen).
  assert (Hascii : Forall (fun c => c < 128) (urlsafe_b64encode raw)).
  { rewrite Henc. apply Forall_app. split.
    - eapply Forall_impl; [exact Hbody|]. intros c [Hc _]. exact Hc.
    - apply Forall_replicate. lia. }
  exists body. repeat split; [| |exact Hascii].
  - unfold encode_download_key. rewrite Hraw. cbn [rbind].
    rewrite (ascii_decode_id _ Hascii). cbn [rbind].
    rewrite Henc, rstrip_padding; [reflexivity|].
    eapply Forall_impl; [exact Hbody|]. intros c [_ Hc]. exact Hc.
  - rewrite Henc. unfold repeat_char. do 2 f_equal. lia.
Qed.

(** C3, as amended.  For every session id [s] and file name [f] that
    are not empty, hold no ['/'] and consist of code points UTF-8 can
    encode, [encode_download_key] returns a key and
    [decode_download_key] turns that key back into [(s, f)]. *)
Theorem download_key_round_trip (s f : list N) :
  s <> [] -> f <> [] -> 47 ∉ s -> 47 ∉ f ->
  Forall (fun c => encodable c = true) s ->
  Forall (fun c => encodable c = true) f ->
  exists key,
    encode_download_key s f = Ok key
    /\ decode_download_key key = Some (s, f).
Proof.
  intros Hs Hf Hsep_s Hsep_f Henc_s Henc_f.
  destruct (utf8_encode_total (s ++ [47] ++ f)) as [raw Hraw].
  { apply Forall_app. split; [assumption|].
    apply Forall_cons. split; [reflexivity|assumption]. }
  destruct (encode_download_key_padded s f raw Hraw)
    as (key & Hkey & Hpadded & Hascii).
  exists key. split; [exact Hkey|].
  unfold decode_download_key, decode_download_key_try.
  rewrite Hpadded, (ascii_encode_id _ Hascii). cbn [rbind].
  rewrite urlsafe_b64decode_encode by (eapply utf8_encode_range; eassumption).
  cbn [rbind]. rewrite (utf8_decode_encode Strict _ _ Hraw). cbn [rbind].
  change (s ++ [47] ++ f) with (s ++ 47 :: f).
  rewrite split1_cut by assumption.
  rewrite !basename_no_sep by assumption.
  destruct s; [contradiction|]. destruct f; [contradiction|]. reflexivity.
Qed.

(** A session id and a file name as the servers make them. *)
Lemma download_key_round_trip_witness :
  exists key,
    encode_download_key (py "3f2a") (py "report.pdf") = Ok key
    /\ decode_download_key key = Some (py "3f2a", py "report.pdf").
Proof.
  apply (download_key_round_trip (py "3f2a") (py "report.pdf")).
  - discriminate.
  - discriminate.
  - apply absent_check. vm_compute. reflexivity.
  - apply absent_check. vm_compute. reflexivity.
  - apply Forall_check. vm_compute. reflexivity.
  - apply Forall_check. vm_compute. reflexivity.
Defined.

(** C3 as stated fails: an empty session id holds no ['/'], its key is
    built, and the decoder answers with the failure value. *)
Lemma download_key_round_trip_empty_sid :
  ~ (forall s f key,
       47 ∉ s -> 47 ∉ f ->
       encode_download_key s f = Ok key ->
       decode_download_key key = Some (s, f)).
Proof.
  intros H.
  specialize (H [] (py "f") (py "L2Y")).
  assert (Hkey : encode_download_key [] (py "f") = Ok (py "L2Y"))
    by (vm_compute; reflexivity).
  assert (Hdec : decode_download_key (py "L2Y") = None)
    by (vm_compute; reflexivity).
  rewrite Hdec in H. discriminate H.
  - apply not_elem_of_nil.
  - apply absent_check. vm_compute. reflexivity.
  - exact Hkey.
Qed.

(** C10.  [decode_download_key] answers every key: with the failure
    value, which is also what every exception of its [try] block
    becomes, or with two components that are not empty and hold no
    path separator. *)
Theorem decode_download_key_total (key : list N) :
  (decode_download_key key = None
   \/ exists sid filename,
        decode_download_key key = Some (sid, filename)
        /\ sid <> [] /\ filename <> []
        /\ (47 ∉ sid) /\ (47 ∉ filename))
  /\ (forall e, decode_download_key_try key = Raise e ->
               decode_download_key key = None).
Proof.
  split; [|intros e He; unfold decode_download_key; now rewrite He].
  unfold decode_download_key, decode_download_key_try.
  destruct (ascii_encode _) as [encoded|]; cbn [rbind]; [|now left].
  destruct (urlsafe_b64decode encoded) as [decoded|]; cbn [rbind]; [|now left].
  destruct (utf8_decode Strict decoded) as [raw|]; cbn [rbind]; [|now left].
  destruct (split1 47 raw) as [|sid [|filename [|? ?]]]; try now left.
  pose proof (basename_sep_free sid) as Hsid.
  pose proof (basename_sep_free filename) as Hfilename.
  destruct (basename sid) as [|c1 sid']; [now left|].
  destruct (basename filename) as [|c2 filename']; [now left|].
  right. exists (c1 :: sid'), (c2 :: filename'). now repeat split.
Qed.

(** A key of one character: the decoder's [binascii.Error] becomes the
    failure value. *)
Lemma decode_download_key_total_witness :
  decode_download_key (py "L") = None.
Proof.
  apply (proj2 (decode_download_key_total (py "L")) BinasciiError).
  vm_compute. reflexivity.
Defined.

End DownloadKey.

(** * The upload tokens of files_server.py *)

Section UploadTokens.
Import Py PyFacts FilesServer.
Local Open Scope N_scope.

Lemma load_json_Document {A : Type} (d : gmap (list N) A) :
  load_json (Document d) = d.
Proof. reflexivity. Qed.

(** [load_json] is fail-open: a missing or corrupt document reads as the
    empty dictionary. *)
Lemma load_json_fail_open {A : Type} (doc : json_file (gmap (list N) A)) :
  doc = Missing \/ doc = Corrupt -> load_json doc = ∅.
Proof. intros [->| ->]; reflexivity. Qed.

(** C7.  For a registered token, [check_token] answers 200 with
    [exists] true and with [expired] set by the very test the sweep
    makes, [now > expires]: past its expiry the token reads as expired
    whether or not it was reaped, and the answer shows neither [used]
    nor [expired] exactly for a token that is unused and not past its
    expiry. *)
Theorem check_token_expiry (token : list N) (now : Z) (st : state)
  (data : Token) :
  load_json (tokens_json st) !! token = Some data ->
  exists obj,
    check_token token now st = send_json obj 200
    /\ json_get (py "exists") obj = Some (JBool true)
    /\ ((token_expires data < now)%Z ->
        json_get (py "expired") obj = Some (JBool true))
    /\ (json_get (py "used") obj = Some (JBool false)
        /\ json_get (py "expired") obj = Some (JBool false)
        <-> token_used data = false /\ (now <= token_expires data)%Z).
Proof.
  intros Hdata. unfold check_token. rewrite Hdata.
  eexists. split; [reflexivity|]. split; [reflexivity|]. split.
  - intros Hexp. cbn. now rewrite (proj2 (Z.ltb_lt _ _) Hexp).
  - cbn. split.
    + intros [[= Hused] [= Hexp]]. apply Z.ltb_ge in Hexp. now split.
    + intros [-> Hexp]. apply Z.ltb_ge in Hexp. now rewrite Hexp.
Qed.

(** The token [T] thirty-one minutes after it was issued, not reaped. *)
Lemma check_token_expiry_witness :
  exists obj,
    check_token (py "T") (minutes 31) Scenario.two_tokens = send_json obj 200
    /\ json_get (py "exists") obj = Some (JBool true)
    /\ ((FilesServer.token_expires Scenario.pending_token < minutes 31)%Z ->
        json_get (py "expired") obj = Some (JBool true))
    /\ (json_get (py "used") obj = Some (JBool false)
        /\ json_get (py "expired") obj = Some (JBool false)
        <-> FilesServer.token_used Scenario.pending_token = false
            /\ (minutes 31 <= FilesServer.token_expires Scenario.pending_token)%Z).
Proof.
  apply (check_token_expiry (py "T") (minutes 31) Scenario.two_tokens
           Scenario.pending_token).
  vm_compute. reflexivity.
Defined.


(** What a successful upload leaves: the file under the name it
    answers with, and the token marked used. *)
Lemma handle_upload_success token req now t1 t2 st obj st' :
  handle_upload token req now t1 t2 st = (Ok (send_json obj 200), st') ->
  exists name content data,
    obj = [(py "success", JBool true); (py "filename", JStr name)]
    /\ fs st' !! join UPLOADS_DIR name = Some (File content)
    /\ load_json (tokens_json st') !! token = Some data
    /\ token_used data = true
    /\ token_filename data = Some name
    /\ token_size data = Some (Z.of_nat (length content)).
Proof.
  unfold handle_upload, error_json.
  destruct (load_json (tokens_json st) !! token) as [data|]; [|discriminate].
  destruct (_ || _); [discriminate|].
  destruct (int_header _) as [n|]; [|discriminate].
  destruct (_ <? _)%Z; [discriminate|].
  destruct (negb _); [discriminate|].
  destruct (boundary_of _) as [boundary|]; [|discriminate].
  destruct (find_file _) as [[filename|] [content|]]; try discriminate.
  destruct (is_empty filename); [discriminate|].
  destruct (splitext _) as [name ext].
  destruct (FS.write _ _ _) as [files|] eqn:Hwrite; [|discriminate].
  intros [= <- <-].
  unfold FS.write in Hwrite.
  destruct (fs st !! _) as [[|?]|]; try discriminate;
    injection Hwrite as <-;
    (eexists; exists content; eexists;
     split; [reflexivity|];
     split; [cbn [save_tokens_json set_fs fs]; apply lookup_insert_eq|];
     split; [cbn [save_tokens_json set_fs tokens_json];
             rewrite load_json_Document; apply lookup_insert_eq|];
     now repeat split).
Qed.

(** A token marked used is turned away before the request is looked
    at, and nothing is written. *)
Lemma handle_upload_used_token token data st :
  load_json (tokens_json st) !! token = Some data ->
  token_used data = true ->
  forall req now t1 t2,
    handle_upload token req now t1 t2 st
    = (Ok (error_json (py "Token expired or used") 400), st).
Proof.
  intros Hdata Hused req now t1 t2. unfold handle_upload.
  now rewrite Hdata, Hused, orb_true_r.
Qed.

(** C1.  After a successful upload with a token, the file is in the
    uploads area under the name the server answered with, and every
    further upload with that token, whatever its body, its headers and
    the time, is answered 400 [Token expired or used] and leaves the
    state, the uploaded file included, as it was. *)
Theorem upload_token_single_use (token : list N) (req : request)
  (now t1 t2 : Z) (st st' : state) (obj : list (list N * json)) :
  handle_upload token req now t1 t2 st = (Ok (send_json obj 200), st') ->
  exists name content,
    json_get (py "filename") obj = Some (JStr name)
    /\ fs st' !! join UPLOADS_DIR name = Some (File content)
    /\ forall req' now' t1' t2',
         handle_upload token req' now' t1' t2' st'
         = (Ok (error_json (py "Token expired or used") 400), st').
Proof.
  intros Hfirst.
  destruct (handle_upload_success _ _ _ _ _ _ _ _ Hfirst)
    as (name & content & data & -> & Hfile & Hdata & Hused & _ & _).
  exists name, content. split; [reflexivity|]. split; [exact Hfile|].
  now apply handle_upload_used_token with (data := data).
Qed.

(** The upload of [hello.txt] with the pending token [T]. *)
Lemma upload_token_single_use_witness :
  exists name content,
    json_get (py "filename")
      [(py "success", JBool true); (py "filename", JStr (py "hello_60.txt"))]
    = Some (JStr name)
    /\ fs (snd (handle_upload (py "T")
                  (Scenario.upload_request (py "hello.txt") (py "0123456789"))
                  60000000 60 60 Scenario.two_tokens))
       !! join UPLOADS_DIR name = Some (File content)
    /\ forall req' now' t1' t2',
         handle_upload (py "T") req' now' t1' t2'
           (snd (handle_upload (py "T")
                   (Scenario.upload_request (py "hello.txt") (py "0123456789"))
                   60000000 60 60 Scenario.two_tokens))
         = (Ok (error_json (py "Token expired or used") 400),
            snd (handle_upload (py "T")
                   (Scenario.upload_request (py "hello.txt") (py "0123456789"))
                   60000000 60 60 Scenario.two_tokens)).
Proof.
  apply (upload_token_single_use (py "T")
           (Scenario.upload_request (py "hello.txt") (py "0123456789"))
           60000000 60 60 Scenario.two_tokens).
  vm_compute. reflexivity.
Defined.

(** C4.  An upload whose declared [Content-Length] exceeds
    [MAX_FILE_SIZE] is answered with a 400 error and leaves the state as
    it was: nothing is written to the uploads area and the token
    registry is untouched.  With a token that passes the checks made
    before (registered, not expired, not used) the error is
    [File too large (max 50MB)]. *)
Theorem upload_too_large (token : list N) (req : request)
  (now t1 t2 : Z) (st : state) (n : Z) :
  int_header (Content_Length req) = Ok n ->
  (MAX_FILE_SIZE < n)%Z ->
  snd (handle_upload token req now t1 t2 st) = st
  /\ (exists message,
        fst (handle_upload token req now t1 t2 st)
        = Ok (error_json message 400))
  /\ (forall data,
        load_json (tokens_json st) !! token = Some data ->
        (now <= token_expires data)%Z -> token_used data = false ->
        fst (handle_upload token req now t1 t2 st)
        = Ok (error_json (py "File too large (max 50MB)") 400)).
Proof.
  intros Hn Hmax. unfold handle_upload. rewrite Hn.
  rewrite (proj2 (Z.ltb_lt _ _) Hmax).
  destruct (load_json (tokens_json st) !! token) as [data|].
  - destruct (_ || _) eqn:Hcheck.
    + repeat split; [eauto|].
      intros ? [= <-] Hexp Hused.
      apply Z.ltb_ge in Hexp. now rewrite Hexp, Hused in Hcheck.
    + repeat split; eauto.
  - repeat split; [eauto|discriminate].
Qed.

(** The pending token [T] and a declared length one byte over the
    limit. *)
Lemma upload_too_large_witness :
  snd (handle_upload (py "T") Scenario.oversize_request 60000000 60 60
         Scenario.two_tokens) = Scenario.two_tokens
  /\ (exists message,
        fst (handle_upload (py "T") Scenario.oversize_request 60000000 60 60
               Scenario.two_tokens)
        = Ok (error_json message 400))
  /\ (forall data,
        load_json (tokens_json Scenario.two_tokens) !! py "T" = Some data ->
        (60000000 <= token_expires data)%Z -> token_used data = false ->
        fst (handle_upload (py "T") Scenario.oversize_request 60000000 60 60
               Scenario.two_tokens)
        = Ok (error_json (py "File too large (max 50MB)") 400)).
Proof.
  apply (upload_too_large (py "T") Scenario.oversize_request 60000000 60 60
           Scenario.two_tokens (MAX_FILE_SIZE + 1)).
  - reflexivity.
  - unfold MAX_FILE_SIZE. lia.
Defined.

Lemma boundary_of_absent content_type :
  contains (py "boundary=") content_type = false ->
  boundary_of content_type = Raise IndexError.
Proof. intros H. unfold boundary_of. now rewrite split_absent. Qed.

(** C6, as amended.  [handle_upload] checks in this order, answers the
    first failure with a 400 and leaves the state as it was: an unknown
    token gives [Invalid token]; an expired token and a used token both
    give the one error [Token expired or used]; then a declared length
    over the limit gives [File too large (max 50MB)]; then a content
    type without [multipart/form-data] gives
    [Expected multipart/form-data]; then a content type without
    [boundary=] gives [Invalid boundary]. *)
Theorem upload_checks_in_order (token : list N) (req : request)
  (now t1 t2 : Z) (st : state) :
  let tokens := load_json (tokens_json st) in
  let content_type := default [] (Content_Type req) in
  let answer := handle_upload token req now t1 t2 st in
  (tokens !! token = None ->
   answer = (Ok (error_json (py "Invalid token") 400), st))
  /\ (forall data,
        tokens !! token = Some data ->
        (token_expires data < now)%Z \/ token_used data = true ->
        answer = (Ok (error_json (py "Token expired or used") 400), st))
  /\ (forall data n,
        tokens !! token = Some data ->
        (now <= token_expires data)%Z -> token_used data = false ->
        int_header (Content_Length req) = Ok n ->
        ((MAX_FILE_SIZE < n)%Z ->
         answer = (Ok (error_json (py "File too large (max 50MB)") 400), st))
        /\ ((n <= MAX_FILE_SIZE)%Z ->
            contains (py "multipart/form-data") content_type = false ->
            answer
            = (Ok (error_json (py "Expected multipart/form-data") 400), st))
        /\ ((n <= MAX_FILE_SIZE)%Z ->
            contains (py "multipart/form-data") content_type = true ->
            contains (py "boundary=") content_type = false ->
            answer = (Ok (error_json (py "Invalid boundary") 400), st))).
Proof.
  cbv zeta. unfold handle_upload. split; [|split].
  - now intros ->.
  - intros data -> [Hexp|Hused].
    + now rewrite (proj2 (Z.ltb_lt _ _) Hexp).
    + now rewrite Hused, orb_true_r.
  - intros data n -> Hexp Hused Hn. rewrite Hn, Hused.
    rewrite (proj2 (Z.ltb_ge _ _) Hexp). cbn [orb]. split; [|split].
    + intros Hmax. now rewrite (proj2 (Z.ltb_lt _ _) Hmax).
    + intros Hmax Hct. rewrite (proj2 (Z.ltb_ge _ _) Hmax). now rewrite Hct.
    + intros Hmax Hct Hboundary. rewrite (proj2 (Z.ltb_ge _ _) Hmax), Hct.
      cbn [negb]. now rewrite boundary_of_absent.
Qed.

(** One request for each check, in the order of the checks. *)
Lemma upload_checks_in_order_witness :
  handle_upload (py "X") Scenario.plain_request 60000000 60 60
    Scenario.two_tokens
  = (Ok (error_json (py "Invalid token") 400), Scenario.two_tokens)
  /\ handle_upload (py "T") Scenario.plain_request (minutes 31) 1860 1860
       Scenario.two_tokens
     = (Ok (error_json (py "Token expired or used") 400), Scenario.two_tokens)
  /\ handle_upload (py "T") Scenario.plain_request 60000000 60 60
       Scenario.token_used_up
     = (Ok (error_json (py "Token expired or used") 400),
        Scenario.token_used_up)
  /\ handle_upload (py "T") Scenario.oversize_request 60000000 60 60
       Scenario.two_tokens
     = (Ok (error_json (py "File too large (max 50MB)") 400),
        Scenario.two_tokens)
  /\ handle_upload (py "T") Scenario.plain_request 60000000 60 60
       Scenario.two_tokens
     = (Ok (error_json (py "Expected multipart/form-data") 400),
        Scenario.two_tokens)
  /\ handle_upload (py "T") Scenario.boundless_request 60000000 60 60
       Scenario.two_tokens
     = (Ok (error_json (py "Invalid boundary") 400), Scenario.two_tokens).
Proof.
  split; [|split; [|split; [|split; [|split]]]].
  - apply (upload_checks_in_order (py "X") Scenario.plain_request 60000000
             60 60 Scenario.two_tokens).
    vm_compute. reflexivity.
  - apply (proj1 (proj2 (upload_checks_in_order (py "T")
             Scenario.plain_request (minutes 31) 1860 1860
             Scenario.two_tokens)) Scenario.pending_token).
    + vm_compute. reflexivity.
    + left. vm_compute. reflexivity.
  - apply (proj1 (proj2 (upload_checks_in_order (py "T")
             Scenario.plain_request 60000000 60 60
             Scenario.token_used_up)) Scenario.used_token).
    + vm_compute. reflexivity.
    + right. reflexivity.
  - apply (proj2 (proj2 (upload_checks_in_order (py "T")
             Scenario.oversize_request 60000000 60 60
             Scenario.two_tokens)) Scenario.pending_token
             (MAX_FILE_SIZE + 1)%Z).
    + vm_compute. reflexivity.
    + vm_compute. discriminate.
    + reflexivity.
    + reflexivity.
    + unfold MAX_FILE_SIZE. lia.
  - apply (proj2 (proj2 (upload_checks_in_order (py "T")
             Scenario.plain_request 60000000 60 60
             Scenario.two_tokens)) Scenario.pending_token 10%Z).
    + vm_compute. reflexivity.
    + vm_compute. discriminate.
    + reflexivity.
    + reflexivity.
    + unfold MAX_FILE_SIZE. lia.
    + vm_compute. reflexivity.
  - apply (proj2 (proj2 (upload_checks_in_order (py "T")
             Scenario.boundless_request 60000000 60 60
             Scenario.two_tokens)) Scenario.pending_token 10%Z).
    + vm_compute. reflexivity.
    + vm_compute. discriminate.
    + reflexivity.
    + reflexivity.
    + unfold MAX_FILE_SIZE. lia.
    + vm_compute. reflexivity.
    + vm_compute. reflexivity.
Defined.

(** C6 as stated fails: a token that expired unused and a token that
    was used and has not expired are turned away with the same answer,
    so the caller cannot tell the two failures apart. *)
Lemma upload_expired_and_used_same_answer :
  token_used Scenario.pending_token = false
  /\ (token_expires Scenario.pending_token < minutes 31)%Z
  /\ token_used Scenario.used_token = true
  /\ (60000000 <= token_expires Scenario.used_token)%Z
  /\ fst (handle_upload (py "T")
            (Scenario.upload_request (py "hello.txt") (py "0123456789"))
            (minutes 31) 1860 1860 Scenario.two_tokens)
     = fst (handle_upload (py "T")
              (Scenario.upload_request (py "hello.txt") (py "0123456789"))
              60000000 60 60 Scenario.token_used_up).
Proof.
  repeat split; try (vm_compute; reflexivity). vm_compute. discriminate.
Qed.

End UploadTokens.

(** * Sessions of files_server.py: serving and sweeping *)

Section Sessions.
Import Py PyFacts FilesServer.
Local Open Scope N_scope.

(** [rmtree] only removes. *)
Lemma rmtree_shrinks files p files' q n :
  FS.rmtree files p = Ok files' -> files' !! q = Some n -> files !! q = Some n.
Proof.
  unfold FS.rmtree. destruct (files !! p) as [[|?]|]; try discriminate.
  intros [= <-] Hq. now apply map_lookup_filter_Some in Hq as [Hq _].
Qed.

Lemma cleanup_sessions_step_shrinks now acc entry q n :
  (cleanup_sessions_step now acc entry).1 !! q = Some n -> acc.1 !! q = Some n.
Proof.
  destruct acc as [files sessions], entry as [sid data].
  unfold cleanup_sessions_step.
  destruct (_ <? _)%Z; [|trivial].
  destruct (FS.exists_ files _); [|trivial].
  destruct (FS.rmtree files _) as [files'|] eqn:Hrm; [|trivial].
  cbn [fst]. now apply rmtree_shrinks with (1 := Hrm).
Qed.








End Sessions.

(** * The same properties on unified_server.py *)

Section UnifiedUploads.
Import Py PyFacts UnifiedServer.
Local Open Scope N_scope.

Variable secure_filename : list N -> list N.

Lemma unified_used_token_rejected token tokens data st :
  load_tokens st = Ok tokens ->
  tokens !! token = Some data ->
  token_used data = true ->
  forall req now t1 t2 uploaded_at,
    do_POST_upload secure_filename token req now t1 t2 uploaded_at st
    = (Ok (error_json (py "Token expired or used") 400), st).
Proof.
  intros Hload Hdata Hused req now t1 t2 uploaded_at. unfold do_POST_upload.
  now rewrite Hload, Hdata, Hused, orb_true_r.
Qed.

(** X18.  One upload per token in unified_server.py too: after an
    upload that was answered with 200, every further upload with the
    same token is answered [Token expired or used] and changes
    nothing. *)
Lemma unified_upload_token_single_use token req now t1 t2 uploaded_at
  st st' obj :
  do_POST_upload secure_filename token req now t1 t2 uploaded_at st
  = (Ok (send_json obj 200), st') ->
  forall req' now' t1' t2' uploaded_at',
    do_POST_upload secure_filename token req' now' t1' t2' uploaded_at' st'
    = (Ok (error_json (py "Token expired or used") 400), st').
Proof.
  unfold do_POST_upload at 1. unfold error_json.
  destruct (load_tokens st) as [tokens|]; [|discriminate].
  destruct (tokens !! token) as [data|]; [|discriminate].
  destruct (_ || _); [discriminate|].
  destruct (int_header _) as [n|]; [|discriminate].
  destruct (_ <? _)%Z; [discriminate|].
  destruct (negb _); [discriminate|].
  destruct (FilesServer.boundary_of _) as [boundary|]; [|discriminate].
  destruct (find_file _) as [[[filename|] [content|]]|]; try discriminate.
  destruct (is_empty filename); [discriminate|].
  destruct (splitext _) as [name ext].
  destruct (FS.write _ _ _) as [files|]; [|discriminate].
  intros [= <- <-].
  eapply unified_used_token_rejected.
  - reflexivity.
  - apply lookup_insert_eq.
  - reflexivity.
Qed.

(** A declared length over the limit, with a token that passes the
    checks before, is answered [File too large] and nothing is
    written. *)
Lemma unified_upload_too_large token tokens data req now t1 t2 uploaded_at
  st n :
  load_tokens st = Ok tokens ->
  tokens !! token = Some data ->
  (now <= token_expires data)%Z -> token_used data = false ->
  int_header (Content_Length req) = Ok n ->
  (MAX_FILE_SIZE < n)%Z ->
  do_POST_upload secure_filename token req now t1 t2 uploaded_at st
  = (Ok (error_json (py "File too large") 400), st).
Proof.
  intros Hload Hdata Hexp Hused Hn Hmax. unfold do_POST_upload.
  rewrite Hload, Hdata, Hused, Hn.
  rewrite (proj2 (Z.ltb_ge _ _) Hexp), (proj2 (Z.ltb_lt _ _) Hmax).
  reflexivity.
Qed.

(** X20.  In unified_server.py the split on [boundary=] stands outside
    any [try]: a multipart content type that names no boundary makes
    the handler raise [IndexError], where files_server.py answers
    [Invalid boundary]; the state is left as it was. *)
Lemma unified_boundary_missing_raises token tokens data req now t1 t2
  uploaded_at st n :
  load_tokens st = Ok tokens ->
  tokens !! token = Some data ->
  (now <= token_expires data)%Z -> token_used data = false ->
  int_header (Content_Length req) = Ok n ->
  (n <= MAX_FILE_SIZE)%Z ->
  contains (py "multipart/form-data") (default [] (Content_Type req)) = true ->
  contains (py "boundary=") (default [] (Content_Type req)) = false ->
  do_POST_upload secure_filename token req now t1 t2 uploaded_at st
  = (Raise IndexError, st).
Proof.
  intros Hload Hdata Hexp Hused Hn Hmax Hct Hboundary. unfold do_POST_upload.
  rewrite Hload, Hdata, Hused, Hn, Hct.
  rewrite (proj2 (Z.ltb_ge _ _) Hexp), (proj2 (Z.ltb_ge _ _) Hmax).
  cbn [orb negb]. unfold FilesServer.boundary_of.
  now rewrite split_absent.
Qed.

(** The check of a token reads the expiry as in files_server.py. *)
Lemma unified_check_expired token tokens data now st :
  load_tokens st = Ok tokens ->
  tokens !! token = Some data ->
  (token_expires data < now)%Z ->
  exists obj,
    do_POST_check token now st = Ok (send_json obj 200)
    /\ json_get (py "expired") obj = Some (JBool true).
Proof.
  intros Hload Hdata Hexp. unfold do_POST_check.
  rewrite Hload. cbn [rbind]. rewrite Hdata.
  eexists. split; [reflexivity|]. cbn.
  now rewrite (proj2 (Z.ltb_lt _ _) Hexp).
Qed.

End UnifiedUploads.

(** * The sweep of unified_server.py *)

Section UnifiedSweep.
Import Py PyFacts UnifiedServer.
Local Open Scope N_scope.

Lemma rmtree_removes files p files' :
  FS.rmtree files p = Ok files' -> files' !! p = None.
Proof.
  unfold FS.rmtree. destruct (files !! p) as [[|?]|]; try discriminate.
  intros [= <-]. apply map_lookup_filter_None. right.
  intros n _ [Hp _]. now apply Hp.
Qed.

Lemma remove_expired_spec now entries : forall files expired r files',
  remove_expired now entries files expired = (Ok r, files') ->
  (forall q n, files' !! q = Some n -> files !! q = Some n)
  /\ (forall sid, sid ∈ expired -> sid ∈ r)
  /\ (forall sid data,
        (sid, data) ∈ entries -> (session_expires data < now)%Z ->
        sid ∈ r /\ files' !! join SESSIONS_DIR sid = None).
Proof.
  induction entries as [|[sid0 data0] entries IH];
    intros files expired r files'; cbn [remove_expired].
  - intros [= <- <-]. split; [trivial|]. split; [trivial|].
    intros sid data Hin. now apply elem_of_nil in Hin.
  - destruct (Z.ltb_spec (session_expires data0) now) as [Hexp0|Hexp0].
    + destruct (if FS.exists_ files _ then _ else _) as [files1|] eqn:Hrm;
        [|discriminate].
      intros Hrec. destruct (IH _ _ _ _ Hrec) as (Hshrink & Hkeep & Hdrop).
      assert (Hshrink1 : forall q n,
                files1 !! q = Some n -> files !! q = Some n).
      { intros q n Hq. destruct (FS.exists_ files _).
        - now apply rmtree_shrinks with (1 := Hrm).
        - now injection Hrm as <-. }
      assert (Hgone1 : files1 !! join SESSIONS_DIR sid0 = None).
      { unfold FS.exists_ in Hrm.
        destruct (files !! join SESSIONS_DIR sid0) eqn:Hnode.
        - now apply rmtree_removes with (1 := Hrm).
        - now injection Hrm as <-. }
      split; [intros q n Hq; now apply Hshrink1, Hshrink|].
      split.
      * intros sid Hsid. apply Hkeep, elem_of_app. now left.
      * intros sid data Hin Hexp. apply elem_of_cons in Hin as [[= -> ->]|Hin].
        -- split.
           ++ apply Hkeep, elem_of_app. right. now apply list_elem_of_singleton.
           ++ destruct (files' !! join SESSIONS_DIR sid0) eqn:Hnode;
                [|reflexivity].
              apply Hshrink in Hnode. congruence.
        -- now apply Hdrop with (data := data).
    + intros Hrec. destruct (IH _ _ _ _ Hrec) as (Hshrink & Hkeep & Hdrop).
      split; [assumption|]. split; [assumption|].
      intros sid data Hin Hexp. apply elem_of_cons in Hin as [[= -> ->]|Hin];
        [lia|]. now apply Hdrop with (data := data).
Qed.

Lemma foldl_delete_gone {A : Type} (l : list (list N)) : forall
  (m : gmap (list N) A) sid,
  sid ∈ l \/ m !! sid = None ->
  foldl (fun m sid => delete sid m) m l !! sid = None.
Proof.
  induction l as [|x l IH]; intros m sid [Hin|Hgone]; cbn [foldl].
  - now apply elem_of_nil in Hin.
  - exact Hgone.
  - apply IH. apply elem_of_cons in Hin as [->|Hin]; [right|now left].
    apply lookup_delete_eq.
  - apply IH. right. rewrite lookup_delete. now case_decide.
Qed.

(** X21.  The sweep of unified_server.py looks for the directory where
    the sessions are kept: after a sweep that ends without exception an
    expired session has neither entry nor directory. *)
Lemma unified_sweep_removes_directory now st st' sessions sid data :
  load_sessions st = Ok sessions ->
  sessions !! sid = Some data ->
  (session_expires data < now)%Z ->
  cleanup_expired_sessions now st = (Ok tt, st') ->
  FS.exists_ (fs st') (join SESSIONS_DIR sid) = false
  /\ exists sessions',
       load_sessions st' = Ok sessions' /\ sessions' !! sid = None.
Proof.
  intros Hload Hdata Hexp. unfold cleanup_expired_sessions. rewrite Hload.
  destruct (remove_expired _ _ _ _) as [[expired|] files] eqn:Hrm;
    [|discriminate].
  destruct (remove_expired_spec _ _ _ _ _ _ Hrm) as (_ & _ & Hdrop).
  destruct (Hdrop sid data) as [Hin Hgone];
    [now apply elem_of_map_to_list|assumption|].
  destruct expired as [|x expired]; [now apply elem_of_nil in Hin|].
  cbn [is_empty]. intros [= <-]. split.
  - unfold FS.exists_. cbn [save_sessions set_fs fs]. now rewrite Hgone.
  - exists (foldl (fun m sid => delete sid m) sessions (x :: expired)).
    split; [reflexivity|]. apply foldl_delete_gone. now left.
Qed.

End UnifiedSweep.

(** * Adding files to a session *)

Section AddingFiles.
Import Py PyFacts.
Local Open Scope N_scope.

(** X27.  The registration of a file in file_share_server.py keeps a
    file list free of repetition: after it the name is on the list of
    the session, once. *)
Lemma register_file_keeps_NoDup sid filename st st' sessions data :
  FileShareServer.load_sessions st = Ok sessions ->
  sessions !! sid = Some data ->
  NoDup (session_files data) ->
  FileShareServer.register_file sid filename st = (Ok tt, st') ->
  exists sessions' data',
    FileShareServer.load_sessions st' = Ok sessions'
    /\ sessions' !! sid = Some data'
    /\ NoDup (session_files data')
    /\ filename ∈ session_files data'.
Proof.
  intros Hload Hdata Hnodup. unfold FileShareServer.register_file.
  rewrite Hload, Hdata. unfold str_in.
  destruct (bool_decide_reflect (filename ∈ session_files data)) as [Hin|Hout];
    cbn [negb]; intros [= <-].
  - exists sessions, data. now repeat split.
  - exists (<[sid := append_file filename data]> sessions),
      (append_file filename data).
    split; [reflexivity|]. split; [apply lookup_insert_eq|].
    cbn [append_file session_files]. split.
    + apply NoDup_app. split; [assumption|]. split; [|apply NoDup_singleton].
      intros x Hx Hx'. apply list_elem_of_singleton in Hx'. now subst.
    + apply elem_of_app. right. now apply list_elem_of_singleton.
Qed.

(** [share_file] with the id of a session that has no directory, be it
    unknown or swept a moment ago on entry of [call_tool]. *)
Lemma share_file_unknown_session file_path sid description uuid
  t_created t_expires st :
  FS.exists_ (FileShareServer.fs st) file_path = true ->
  sid <> [] ->
  FS.exists_ (FileShareServer.fs st) (join FileShareServer.SESSIONS_DIR sid)
  = false ->
  FileShareServer.tool_share_file file_path (Some sid) description uuid
    t_created t_expires st
  = (Ok (FileShareServer.text (py "Error: Session not found: " ++ sid)), st).
Proof.
  intros Hfile Hsid Hdir. unfold FileShareServer.tool_share_file.
  rewrite Hfile. cbn [negb]. destruct sid; [contradiction|].
  cbn [is_empty]. now rewrite Hdir.
Qed.


End AddingFiles.

(** * Where the servers part from one another *)

Section Divergences.
Import Py PyFacts.
Local Open Scope N_scope.

(** The name under which an upload is stored is made from the request
    and the two readings of [int(time.time())] alone: neither the token
    nor what the uploads area holds enters it. *)
Lemma upload_name_determined token token' req now now' t1 t2 st1 st2
  obj obj' st1' st2' :
  FilesServer.handle_upload token req now t1 t2 st1
  = (Ok (send_json obj 200), st1') ->
  FilesServer.handle_upload token' req now' t1 t2 st2
  = (Ok (send_json obj' 200), st2') ->
  obj = obj'.
Proof.
  unfold FilesServer.handle_upload, FilesServer.error_json.
  destruct (FilesServer.load_json (FilesServer.tokens_json st1) !! token)
    as [data|]; [|discriminate].
  destruct (FilesServer.load_json (FilesServer.tokens_json st2) !! token')
    as [data'|]; [|intros _; discriminate].
  destruct (_ || _); [discriminate|].
  destruct (_ || _); [intros _; discriminate|].
  destruct (int_header _) as [n|]; [|discriminate].
  destruct (_ <? _)%Z; [discriminate|].
  destruct (negb _); [discriminate|].
  destruct (FilesServer.boundary_of _) as [boundary|]; [|discriminate].
  destruct (FilesServer.find_file _) as [[filename|] [content|]];
    try discriminate.
  destruct (is_empty filename); [discriminate|].
  destruct (splitext _) as [name ext].
  destruct (FS.write (FilesServer.fs st1) _ _); [|discriminate].
  destruct (FS.write (FilesServer.fs st2) _ _); [|intros _; discriminate].
  intros [= <- _] [= <- _]. reflexivity.
Qed.

(** C5 fails on the code.  Two uploads of [a.txt] in the same second,
    each with its own pending token, both succeed under the name
    [a_60.txt]: the second replaces the bytes of the first. *)
Theorem same_second_uploads_collide :
  let first :=
    FilesServer.handle_upload (py "T")
      (Scenario.upload_request (py "a.txt") (py "one"))
      60000000 60 60 Scenario.two_tokens in
  let second :=
    FilesServer.handle_upload (py "U")
      (Scenario.upload_request (py "a.txt") (py "two"))
      60500000 60 60 (snd first) in
  fst first
  = Ok (send_json [(py "success", JBool true);
                   (py "filename", JStr (py "a_60.txt"))] 200)
  /\ FilesServer.fs (snd first) !! py "/files/uploads/a_60.txt"
     = Some (File (py "one"))
  /\ fst second
     = Ok (send_json [(py "success", JBool true);
                      (py "filename", JStr (py "a_60.txt"))] 200)
  /\ FilesServer.fs (snd second) !! py "/files/uploads/a_60.txt"
     = Some (File (py "two")).
Proof. vm_compute. repeat split. Qed.

(** The sweep of files_server.py looks for the directory of a session
    under [SHARED_DIR], while the sessions are kept under
    [SESSIONS_DIR]: after the sweep the directory of the expired
    session [S] is still there, and its file is still served. *)
Lemma files_sweep_leaves_directory :
  let swept := FilesServer.cleanup_sessions 2000 Scenario.with_old_session in
  FS.exists_ (FilesServer.fs swept) (py "/files/sessions/S") = true
  /\ FilesServer.do_GET_session (py "/S/report.pdf") swept
     = send_file (py "report.pdf") (py "%PDF").
Proof. vm_compute. split; reflexivity. Qed.

(** C8 fails on [add_file_to_session] of file_server.py.  Adding
    [report.pdf] twice to the session [S] leaves the name twice in the
    file list: the function appends without looking. *)
Theorem add_file_to_session_duplicates :
  let first :=
    FileServer.add_file_to_session (py "S") (py "report.pdf")
      (Some (FileServer.BytesContent (py "one"))) None
      Scenario.with_open_session in
  let second :=
    FileServer.add_file_to_session (py "S") (py "report.pdf")
      (Some (FileServer.BytesContent (py "two"))) None (snd first) in
  fst second = Ok (Some (py "https://files.netwize.work/S/report.pdf"))
  /\ FileServer.list_session_files (py "S") (snd second)
     = Ok (Some [py "report.pdf"; py "report.pdf"]).
Proof. vm_compute. repeat split. Qed.

(** C9 fails on [load_sessions] of unified_server.py.  A
    [sessions.json] that does not parse makes it raise, and with it the
    sweep the server runs on start. *)
Theorem load_sessions_corrupt_raises :
  UnifiedServer.load_sessions Scenario.corrupt_sessions
  = Raise JSONDecodeError
  /\ fst (UnifiedServer.cleanup_expired_sessions 0 Scenario.corrupt_sessions)
     = Raise JSONDecodeError.
Proof. split; reflexivity. Qed.

End Divergences.

(** * Further properties of files_server.py *)

Section FilesServerMore.
Import Py PyFacts FilesServer.
Local Open Scope N_scope.



Lemma py_cons c str : py (String c str) = N_of_ascii c :: py str.
Proof. reflexivity. Qed.

Lemma uint_text_sep_free d : 47 ∉ py (NilEmpty.string_of_uint d).
Proof.
  induction d; cbn [NilEmpty.string_of_uint]; rewrite ?py_cons;
    try apply not_elem_of_nil;
    (apply not_elem_of_cons; split; [discriminate|assumption]).
Qed.

Lemma str_of_int_sep_free z : 47 ∉ str_of_int z.
Proof.
  unfold str_of_int, NilZero.string_of_int, NilZero.string_of_uint.
  destruct (Z.to_int z) as [d|d].
  - destruct d; try apply uint_text_sep_free.
    apply absent_check. reflexivity.
  - rewrite py_cons. apply not_elem_of_cons. split; [discriminate|].
    destruct d; try apply uint_text_sep_free.
    apply absent_check. reflexivity.
Qed.

Lemma splitext_sep_free p name ext :
  47 ∉ p -> splitext p = (name, ext) -> (47 ∉ name) /\ (47 ∉ ext).
Proof.
  intros Hp. unfold splitext, slice_to, slice_from.
  destruct (_ && _); intros [= <- <-].
  - split; intros Hin; apply Hp.
    + now apply (subseteq_take _ _ _ Hin).
    + now apply (subseteq_drop _ _ _ Hin).
  - split; [assumption|apply not_elem_of_nil].
Qed.

(** X3.  The name under which an upload is stored holds no ['/'],
    whatever file name the client sent: the file is written directly
    into the uploads directory, at [UPLOADS_DIR/<name>]. *)
Theorem upload_stays_in_uploads_dir (token : list N) (req : request)
  (now t1 t2 : Z) (st st' : state) (obj : list (list N * json)) :
  handle_upload token req now t1 t2 st = (Ok (send_json obj 200), st') ->
  exists name content,
    json_get (py "filename") obj = Some (JStr name)
    /\ (47 ∉ name)
    /\ fs st' !! (UPLOADS_DIR ++ [47] ++ name) = Some (File content).
Proof.
  unfold handle_upload, error_json.
  destruct (load_json (tokens_json st) !! token) as [data|]; [|discriminate].
  destruct (_ || _); [discriminate|].
  destruct (int_header _) as [n|]; [|discriminate].
  destruct (_ <? _)%Z; [discriminate|].
  destruct (negb _); [discriminate|].
  destruct (boundary_of _) as [boundary|]; [|discriminate].
  destruct (find_file _) as [[filename|] [content|]]; try discriminate.
  destruct (is_empty filename); [discriminate|].
  set (safe := if is_empty (basename filename)
               then py "upload_" ++ str_of_int t1 else basename filename).
  assert (Hsafe : 47 ∉ safe).
  { unfold safe. destruct (is_empty _); [|apply basename_sep_free].
    intros Hin. apply elem_of_app in Hin as [Hin|Hin].
    - revert Hin. apply absent_check. reflexivity.
    - now apply str_of_int_sep_free in Hin. }
  destruct (splitext safe) as [name ext] eqn:Hsplit.
  destruct (splitext_sep_free _ _ _ Hsafe Hsplit) as [Hname Hext].
  set (stored := name ++ [95] ++ str_of_int t2 ++ ext).
  assert (Hstored : 47 ∉ stored).
  { unfold stored. intros Hin.
    apply elem_of_app in Hin as [Hin|Hin]; [contradiction|].
    apply elem_of_app in Hin as [Hin|Hin].
    { apply list_elem_of_singleton in Hin. discriminate. }
    apply elem_of_app in Hin as [Hin|Hin]; [|contradiction].
    now apply str_of_int_sep_free in Hin. }
  assert (Hjoin : join UPLOADS_DIR stored = UPLOADS_DIR ++ [47] ++ stored).
  { unfold join. destruct stored as [|c stored']; [reflexivity|].
    apply not_elem_of_cons in Hstored as [Hc _]. cbn [startswith].
    destruct (N.eqb_spec 47 c); [congruence|]. reflexivity. }
  destruct (FS.write _ _ _) as [files|] eqn:Hwrite; [|discriminate].
  intros [= <- <-]. exists stored, content.
  split; [reflexivity|]. split; [exact Hstored|].
  rewrite <- Hjoin. unfold FS.write in Hwrite.
  destruct (fs st !! _) as [[|?]|]; try discriminate;
    injection Hwrite as <-; apply lookup_insert_eq.
Qed.

(** A client that sends the file name [../../etc/passwd]. *)
Lemma upload_stays_in_uploads_dir_witness :
  exists name content,
    json_get (py "filename")
      [(py "success", JBool true); (py "filename", JStr (py "passwd_60"))]
    = Some (JStr name)
    /\ (47 ∉ name)
    /\ fs (snd (handle_upload (py "T")
                  (Scenario.upload_request (py "../../etc/passwd") (py "x"))
                  60000000 60 60 Scenario.two_tokens))
       !! (UPLOADS_DIR ++ [47] ++ name) = Some (File content).
Proof.
  apply (upload_stays_in_uploads_dir (py "T")
           (Scenario.upload_request (py "../../etc/passwd") (py "x"))
           60000000 60 60 Scenario.two_tokens).
  vm_compute. reflexivity.
Defined.


Lemma cleanup_tokens_fold_keeps now k entries : forall tokens,
  (forall d, (k, d) ∈ entries -> (token_expires d <? now)%Z = false) ->
  foldl (cleanup_tokens_step now) tokens entries !! k = tokens !! k.
Proof.
  induction entries as [|[k' d'] entries IH]; intros tokens Hk; [reflexivity|].
  cbn [foldl]. rewrite IH by (intros d Hd; apply Hk; now right).
  unfold cleanup_tokens_step.
  destruct (token_expires d' <? now)%Z eqn:Hexp; [|reflexivity].
  apply lookup_delete_ne. intros ->.
  specialize (Hk d' (list_elem_of_here _ _)). congruence.
Qed.

Lemma cleanup_tokens_fold_gone now k entries : forall tokens,
  tokens !! k = None ->
  foldl (cleanup_tokens_step now) tokens entries !! k = None.
Proof.
  induction entries as [|[k' d'] entries IH]; intros tokens Hk; [exact Hk|].
  cbn [foldl]. apply IH. unfold cleanup_tokens_step.
  destruct (_ <? _)%Z; [|exact Hk]. rewrite lookup_delete. now case_decide.
Qed.

Lemma cleanup_tokens_fold_drops now k d entries : forall tokens,
  (k, d) ∈ entries -> (token_expires d <? now)%Z = true ->
  foldl (cleanup_tokens_step now) tokens entries !! k = None.
Proof.
  induction entries as [|[k' d'] entries IH]; intros tokens Hin Hexp.
  - now apply elem_of_nil in Hin.
  - cbn [foldl]. apply elem_of_cons in Hin as [[= <- <-]|Hin].
    + apply cleanup_tokens_fold_gone. unfold cleanup_tokens_step.
      rewrite Hexp. apply lookup_delete_eq.
    + now apply IH.
Qed.

Lemma cleanup_tokens_lookup now st token :
  load_json (tokens_json (cleanup_tokens now st)) !! token
  = match load_json (tokens_json st) !! token with
    | Some data =>
        if (token_expires data <? now)%Z then None else Some data
    | None => None
    end.
Proof.
  unfold cleanup_tokens. cbn [save_tokens_json tokens_json].
  rewrite load_json_Document.
  set (tokens := load_json (tokens_json st)).
  destruct (tokens !! token) as [data|] eqn:Hdata.
  - destruct (token_expires data <? now)%Z eqn:Hexp.
    + apply cleanup_tokens_fold_drops with (d := data); [|exact Hexp].
      now apply elem_of_map_to_list.
    + rewrite cleanup_tokens_fold_keeps; [exact Hdata|].
      intros d Hd. apply elem_of_map_to_list in Hd.
      assert (d = data) as -> by congruence. exact Hexp.
  - now apply cleanup_tokens_fold_gone.
Qed.

(** X4.  [cleanup_tokens] removes exactly the tokens past their expiry:
    after it a token is in the registry if and only if it was there and
    [now] is not after its expiry, and then with its entry unchanged,
    used or not.  The files and the session registry are not touched. *)
Theorem cleanup_tokens_exact (now : Z) (st : state) (token : list N)
  (data : Token) :
  (load_json (tokens_json (cleanup_tokens now st)) !! token = Some data
   <-> load_json (tokens_json st) !! token = Some data
       /\ (now <= token_expires data)%Z)
  /\ fs (cleanup_tokens now st) = fs st
  /\ sessions_json (cleanup_tokens now st) = sessions_json st.
Proof.
  split; [|split; reflexivity].
  rewrite cleanup_tokens_lookup.
  destruct (load_json (tokens_json st) !! token) as [data'|].
  - destruct (token_expires data' <? now)%Z eqn:Hexp.
    + apply Z.ltb_lt in Hexp. split; [discriminate|].
      intros [[= ->] Hle]. lia.
    + apply Z.ltb_ge in Hexp. split.
      * intros [= ->]. now split.
      * now intros [Hdata _].
  - split; [discriminate|]. now intros [Hdata _].
Qed.

(** The token [T], due at thirty minutes, at a sweep at ten minutes. *)
Lemma cleanup_tokens_exact_witness :
  load_json (tokens_json (cleanup_tokens (minutes 10) Scenario.two_tokens))
    !! py "T" = Some Scenario.pending_token.
Proof.
  apply (proj1 (cleanup_tokens_exact (minutes 10) Scenario.two_tokens (py "T")
                  Scenario.pending_token)).
  split; vm_compute; [reflexivity|discriminate].
Defined.









(** X8.  After a successful upload [check_token] reports the token as
    used, with the name the upload was answered with, at every later
    time. *)
Theorem upload_then_check (token : list N) (req : request)
  (now t1 t2 t : Z) (st st' : state) (obj : list (list N * json)) :
  handle_upload token req now t1 t2 st = (Ok (send_json obj 200), st') ->
  exists answer,
    check_token token t st' = send_json answer 200
    /\ json_get (py "exists") answer = Some (JBool true)
    /\ json_get (py "used") answer = Some (JBool true)
    /\ json_get (py "filename") answer = json_get (py "filename") obj.
Proof.
  intros Hupload.
  destruct (handle_upload_success _ _ _ _ _ _ _ _ Hupload)
    as (name & content & data & -> & _ & Hdata & Hused & Hname & _).
  unfold check_token. rewrite Hdata, Hused, Hname.
  eexists. split; [reflexivity|]. now repeat split.
Qed.

(** The upload of [hello.txt] with the token [T], checked an hour
    later. *)
Lemma upload_then_check_witness :
  exists answer,
    check_token (py "T") (minutes 60)
      (snd (handle_upload (py "T")
              (Scenario.upload_request (py "hello.txt") (py "0123456789"))
              60000000 60 60 Scenario.two_tokens))
    = send_json answer 200
    /\ json_get (py "exists") answer = Some (JBool true)
    /\ json_get (py "used") answer = Some (JBool true)
    /\ json_get (py "filename") answer
       = json_get (py "filename")
           [(py "success", JBool true);
            (py "filename", JStr (py "hello_60.txt"))].
Proof.
  apply (upload_then_check (py "T")
           (Scenario.upload_request (py "hello.txt") (py "0123456789"))
           60000000 60 60 (minutes 60) Scenario.two_tokens).
  vm_compute. reflexivity.
Defined.

(** X9.  The page of [GET /upload/<token>] and the upload itself turn
    the same tokens away: [show_upload_page] answers with a 400 error
    page exactly when [handle_upload], at the same time and whatever
    the request, answers [Invalid token] or [Token expired or used]. *)
Theorem upload_page_agrees_with_upload (token : list N) (req : request)
  (now t1 t2 : Z) (st : state) :
  (exists message,
     show_upload_page token now st = plain (send_error_page 400 message))
  <-> (fst (handle_upload token req now t1 t2 st)
       = Ok (error_json (py "Invalid token") 400)
       \/ fst (handle_upload token req now t1 t2 st)
          = Ok (error_json (py "Token expired or used") 400)).
Proof.
  unfold show_upload_page, handle_upload.
  destruct (load_json (tokens_json st) !! token) as [data|].
  2: { split; [now left|eauto]. }
  destruct (token_expires data <? now)%Z; cbn [orb].
  { split; [now right|eauto]. }
  destruct (token_used data).
  { split; [now right|eauto]. }
  split; [intros [message Hpage]; discriminate|].
  unfold error_json.
  destruct (int_header _) as [n|]; [|intros [H|H]; discriminate].
  destruct (_ <? _)%Z;
    [intros [H|H]; injection H as H; vm_compute in H; discriminate|].
  destruct (negb _);
    [intros [H|H]; injection H as H; vm_compute in H; discriminate|].
  destruct (boundary_of _) as [boundary|];
    [|intros [H|H]; injection H as H; vm_compute in H; discriminate].
  destruct (find_file _) as [[filename|] [content|]];
    try (intros [H|H]; injection H as H; vm_compute in H; discriminate).
  destruct (is_empty filename);
    [intros [H|H]; injection H as H; vm_compute in H; discriminate|].
  destruct (splitext _) as [name ext].
  destruct (FS.write _ _ _); intros [H|H]; discriminate.
Qed.

(** The token [T], thirty-one minutes after its issue. *)
Lemma upload_page_agrees_with_upload_witness :
  exists message,
    show_upload_page (py "T") (minutes 31) Scenario.two_tokens
    = plain (send_error_page 400 message).
Proof.
  apply (proj2 (upload_page_agrees_with_upload (py "T") Scenario.plain_request
                  (minutes 31) 1860 1860 Scenario.two_tokens)).
  right. vm_compute. reflexivity.
Defined.

Lemma in_range_spec lo hi b : in_range lo hi b = true -> lo <= b /\ b <= hi.
Proof.
  unfold in_range. intros H. apply andb_true_iff in H as [H1 H2].
  apply N.leb_le in H1, H2. now split.
Qed.

Lemma encodable_intro v :
  v < 0x110000 -> v < 0xD800 \/ 0xDFFF < v -> encodable v = true.
Proof.
  intros Hmax Hsur. unfold encodable, is_surrogate.
  rewrite (proj2 (N.ltb_lt _ _) Hmax). cbn [andb]. apply negb_true_iff.
  apply andb_false_iff.
  destruct Hsur as [H|H]; [left|right]; now apply N.leb_gt.
Qed.

(** Strict decoding yields code points the encoder accepts. *)
Lemma utf8_decode_strict_encodable_le n : forall b s,
  (length b <= n)%nat -> utf8_decode Strict b = Ok s ->
  Forall (fun c => encodable c = true) s.
Proof.
  induction n as [|n IH]; intros b s Hlen Hdec.
  { destruct b; [|simpl in Hlen; lia]. injection Hdec as <-. constructor. }
  destruct b as [|b1 t1]; [injection Hdec as <-; constructor|].
  cbn [utf8_decode] in Hdec. cbn [length] in Hlen.
  destruct (N.ltb_spec b1 0x80) as [Hb1|Hb1].
  { destruct (utf8_decode Strict t1) as [r|] eqn:Hr; [|discriminate].
    injection Hdec as <-. constructor.
    - apply encodable_intro; lia.
    - apply (IH t1); [lia|exact Hr]. }
  destruct (in_range 0xC2 0xDF b1) eqn:H2.
  { apply in_range_spec in H2.
    destruct t1 as [|b2 t2]; [discriminate|].
    destruct (in_range 0x80 0xBF b2) eqn:Hc2; [|discriminate].
    apply in_range_spec in Hc2.
    destruct (utf8_decode Strict t2) as [r|] eqn:Hr; [|discriminate].
    injection Hdec as <-. constructor.
    - apply encodable_intro; lia.
    - apply (IH t2); [cbn [length] in Hlen; lia|exact Hr]. }
  destruct (in_range 0xE0 0xEF b1) eqn:H3.
  { apply in_range_spec in H3.
    destruct t1 as [|b2 t2]; [discriminate|].
    destruct (in_range _ _ b2) eqn:Hc2; [|discriminate].
    apply in_range_spec in Hc2.
    destruct t2 as [|b3 t3]; [discriminate|].
    destruct (in_range 0x80 0xBF b3) eqn:Hc3; [|discriminate].
    apply in_range_spec in Hc3.
    destruct (utf8_decode Strict t3) as [r|] eqn:Hr; [|discriminate].
    injection Hdec as <-. constructor.
    - destruct (N.eqb_spec b1 0xE0); destruct (N.eqb_spec b1 0xED);
        apply encodable_intro; lia.
    - apply (IH t3); [cbn [length] in Hlen; lia|exact Hr]. }
  destruct (in_range 0xF0 0xF4 b1) eqn:H4; [|discriminate].
  apply in_range_spec in H4.
  destruct t1 as [|b2 t2]; [discriminate|].
  destruct (in_range _ _ b2) eqn:Hc2; [|discriminate].
  apply in_range_spec in Hc2.
  destruct t2 as [|b3 t3]; [discriminate|].
  destruct (in_range 0x80 0xBF b3) eqn:Hc3; [|discriminate].
  apply in_range_spec in Hc3.
  destruct t3 as [|b4 t4]; [discriminate|].
  destruct (in_range 0x80 0xBF b4) eqn:Hc4; [|discriminate].
  apply in_range_spec in Hc4.
  destruct (utf8_decode Strict t4) as [r|] eqn:Hr; [|discriminate].
  injection Hdec as <-. constructor.
  - destruct (N.eqb_spec b1 0xF0); destruct (N.eqb_spec b1 0xF4);
      apply encodable_intro; lia.
  - apply (IH t4); [cbn [length] in Hlen; lia|exact Hr].
Qed.

Lemma utf8_decode_strict_encodable b s :
  utf8_decode Strict b = Ok s -> Forall (fun c => encodable c = true) s.
Proof. apply (utf8_decode_strict_encodable_le (length b)). lia. Qed.

Lemma split1_aux_subset c l : forall cur part x,
  part ∈ split1_aux c l cur -> x ∈ part -> x ∈ cur \/ x ∈ l.
Proof.
  induction l as [|y l IH]; intros cur part x Hpart Hx; cbn [split1_aux] in Hpart.
  - apply list_elem_of_singleton in Hpart. subst part. left.
    now apply list_elem_of_In, in_rev, list_elem_of_In.
  - destruct (y =? c).
    + apply elem_of_cons in Hpart as [Hpart|Hpart].
      * subst part. left.
        now apply list_elem_of_In, in_rev, list_elem_of_In.
      * apply list_elem_of_singleton in Hpart. subst part. right. now right.
    + destruct (IH _ _ _ Hpart Hx) as [Hcur|Hl]; [|right; now right].
      apply elem_of_cons in Hcur as [->|Hcur]; [right; now left|now left].
Qed.

Lemma basename_subset p x : x ∈ basename p -> x ∈ p.
Proof. unfold basename, slice_from. apply subseteq_drop. Qed.

(** The two components the decoder returns can be encoded again. *)
Lemma decode_download_key_encodable key sid filename :
  decode_download_key key = Some (sid, filename) ->
  Forall (fun c => encodable c = true) sid
  /\ Forall (fun c => encodable c = true) filename.
Proof.
  unfold decode_download_key, decode_download_key_try.
  destruct (ascii_encode _) as [encoded|]; cbn [rbind]; [|discriminate].
  destruct (urlsafe_b64decode encoded) as [decoded|]; cbn [rbind];
    [|discriminate].
  destruct (utf8_decode Strict decoded) as [raw|] eqn:Hraw; cbn [rbind];
    [|discriminate].
  apply utf8_decode_strict_encodable in Hraw.
  destruct (split1 47 raw) as [|p1 [|p2 [|? ?]]] eqn:Hsplit; try discriminate.
  destruct (_ || _); [discriminate|]. intros [= <- <-].
  rewrite Forall_forall in Hraw.
  split; apply Forall_forall; intros x Hx; apply basename_subset in Hx;
    apply Hraw.
  - destruct (split1_aux_subset 47 raw [] p1 x) as [Hnil|Hin];
      [unfold split1 in Hsplit; rewrite Hsplit; now left|assumption| |assumption].
    now apply elem_of_nil in Hnil.
  - destruct (split1_aux_subset 47 raw [] p2 x) as [Hnil|Hin];
      [unfold split1 in Hsplit; rewrite Hsplit; right; now left|assumption|
      |assumption].
    now apply elem_of_nil in Hnil.
Qed.

Lemma quote_total s safe :
  Forall (fun c => encodable c = true) s -> exists q, quote s safe = Ok q.
Proof.
  intros Hs. destruct (utf8_encode_total s Hs) as [b Hb].
  unfold quote. rewrite Hb. cbn [rbind]. eauto.
Qed.

(** X10.  [show_download_bridge] answers every key and never raises:
    either with the 400 page [Invalid download link], or, for a key
    that decodes to a session id and a file name, with the page that
    leads to [/<sid>/<filename>], both percent-encoded. *)
Theorem show_download_bridge_answers (key : list N) :
  show_download_bridge key
  = Ok (plain (send_error_page 400 (py "Invalid download link")))
  \/ exists sid filename safe_sid safe_name,
       decode_download_key key = Some (sid, filename)
       /\ quote sid [] = Ok safe_sid
       /\ quote filename [] = Ok safe_name
       /\ show_download_bridge key
          = Ok (send_bridge_page ([47] ++ safe_sid ++ [47] ++ safe_name)
                  filename).
Proof.
  unfold show_download_bridge.
  destruct (decode_download_key key) as [[sid filename]|] eqn:Hkey;
    [|now left].
  destruct (decode_download_key_encodable _ _ _ Hkey) as [Hsid Hname].
  destruct (quote_total sid [] Hsid) as [safe_sid Hq1].
  destruct (quote_total filename [] Hname) as [safe_name Hq2].
  right. exists sid, filename, safe_sid, safe_name.
  rewrite Hq1, Hq2. now repeat split.
Qed.

Lemma decode_encoded_key s f key :
  s <> [] -> f <> [] -> 47 ∉ s -> 47 ∉ f ->
  encode_download_key s f = Ok key ->
  decode_download_key key = Some (s, f).
Proof.
  intros Hs Hf Hsep_s Hsep_f Hkey.
  destruct (utf8_encode (s ++ [47] ++ f)) as [raw|e] eqn:Hraw.
  2: { unfold encode_download_key in Hkey. now rewrite Hraw in Hkey. }
  destruct (encode_download_key_padded s f raw Hraw)
    as (key' & Hkey' & Hpadded & Hascii).
  assert (key' = key) as -> by congruence.
  unfold decode_download_key, decode_download_key_try.
  rewrite Hpadded, (ascii_encode_id _ Hascii). cbn [rbind].
  rewrite urlsafe_b64decode_encode by (eapply utf8_encode_range; eassumption).
  cbn [rbind]. rewrite (utf8_decode_encode Strict _ _ Hraw). cbn [rbind].
  change (s ++ [47] ++ f) with (s ++ 47 :: f).
  rewrite split1_cut by assumption.
  rewrite !basename_no_sep by assumption.
  destruct s; [contradiction|]. destruct f; [contradiction|]. reflexivity.
Qed.

(** X11.  The key that [encode_download_key] makes for a session id and
    a file name, both not empty and without ['/'], leads
    [show_download_bridge] to the page of that very file: its link is
    [/<sid>/<filename>], both percent-encoded, and it shows the file
    name. *)
Theorem bridge_of_encoded_key (s f key : list N) :
  s <> [] -> f <> [] -> 47 ∉ s -> 47 ∉ f ->
  encode_download_key s f = Ok key ->
  exists safe_sid safe_name,
    quote s [] = Ok safe_sid
    /\ quote f [] = Ok safe_name
    /\ show_download_bridge key
       = Ok (send_bridge_page ([47] ++ safe_sid ++ [47] ++ safe_name) f).
Proof.
  intros Hs Hf Hsep_s Hsep_f Hkey.
  pose proof (decode_encoded_key s f key Hs Hf Hsep_s Hsep_f Hkey) as Hdec.
  destruct (decode_download_key_encodable _ _ _ Hdec) as [Hes Hef].
  destruct (quote_total s [] Hes) as [safe_sid Hq1].
  destruct (quote_total f [] Hef) as [safe_name Hq2].
  exists safe_sid, safe_name. split; [exact Hq1|]. split; [exact Hq2|].
  unfold show_download_bridge. now rewrite Hdec, Hq1, Hq2.
Qed.

(** The key of [report.pdf] in the session [3f2a]. *)
Lemma bridge_of_encoded_key_witness :
  exists safe_sid safe_name,
    quote (py "3f2a") [] = Ok safe_sid
    /\ quote (py "report.pdf") [] = Ok safe_name
    /\ show_download_bridge (py "M2YyYS9yZXBvcnQucGRm")
       = Ok (send_bridge_page ([47] ++ safe_sid ++ [47] ++ safe_name)
               (py "report.pdf")).
Proof.
  apply (bridge_of_encoded_key (py "3f2a") (py "report.pdf")
           (py "M2YyYS9yZXBvcnQucGRm")).
  - discriminate.
  - discriminate.
  - apply absent_check. vm_compute. reflexivity.
  - apply absent_check. vm_compute. reflexivity.
  - vm_compute. reflexivity.
Defined.

(** X12.  A GET writes nothing, with one exception: the request for the
    path that makes an upload link, when no route before it takes the
    request, does what [create_upload_link_and_redirect] does.  In
    particular no GET sweeps the sessions or the tokens. *)
Theorem do_GET_writes_only_upload_link (req : get_request) (now : Z)
  (uuid : list N) (listdir : list N -> result (list (list N))) (st : state) :
  snd (do_GET req now uuid listdir st) = st
  \/ (get_path req = UPLOAD_LINK_PATH
      /\ do_GET req now uuid listdir st
         = create_upload_link_and_redirect uuid now st).
Proof.
  unfold do_GET, do_GET_try.
  destruct (startswith (py "/d/") (get_path req)).
  { left. destruct (is_empty _); [reflexivity|].
    now destruct (show_download_bridge _). }
  destruct (truthy (query_u req)); [now left|].
  destruct (truthy (query_d req)).
  { left. now destruct (show_download_bridge _). }
  destruct (truthy (query_s req)) as [s|], (truthy (query_f req)) as [f|];
    [left; now destruct (download_file _ _ _)|..];
    (case_bool_decide; [now left|];
     destruct (_ || _);
       [left; destruct (listdir _) as [listing|]; [|reflexivity];
        cbn [rbind]; now destruct (show_files _ _)|];
     case_bool_decide as Hpath; [right; split; [exact Hpath|reflexivity]|];
     destruct (startswith (py "/upload/") _); [now left|];
     destruct (startswith (py "/api/check/") _); [now left|];
     left; now destruct (do_GET_session_try _ _)).
Qed.


Lemma rstrip_absent c l : c ∉ l -> rstrip [c] l = l.
Proof. intros Hl. now apply rstrip_clean, absent_Forall. Qed.

Lemma startswith_app p l : startswith p (p ++ l) = true.
Proof.
  induction p as [|x p IH]; [now destruct l|].
  cbn [app startswith]. now rewrite N.eqb_refl.
Qed.

Lemma slice_from_app (p l : list N) :
  slice_from (p ++ l) (Z.of_nat (length p)) = l.
Proof.
  rewrite slice_from_inside by (rewrite length_app; lia).
  rewrite Nat2Z.id. apply drop_app_length.
Qed.

(** X13.  The redirect of [create_upload_link_and_redirect] leads to the
    upload form: a GET of its location, at any time up to thirty minutes
    later, shows the form for the new token with its expiry in
    seconds. *)
Theorem upload_link_leads_to_form (uuid uuid' : list N) (now t : Z)
  (listdir : list N -> result (list (list N))) (st : state) :
  (47 ∉ uuid) -> (63 ∉ uuid) -> (t <= now + minutes 30)%Z ->
  let '(r, st') := create_upload_link_and_redirect uuid now st in
  r = send_redirect 302 (py "/upload/" ++ uuid)
  /\ fst (do_GET (Scenario.bare_get (py "/upload/" ++ uuid)) t uuid' listdir st')
     = send_upload_page uuid (Z.quot (now + minutes 30) 1000000).
Proof.
  intros Hslash Hquery Ht. unfold create_upload_link_and_redirect.
  split; [reflexivity|].
  unfold do_GET, do_GET_try. cbn [Scenario.bare_get get_path query_u query_d query_s query_f truthy].
  assert (Hd : startswith (py "/d/") (py "/upload/" ++ uuid) = false)
    by reflexivity.
  rewrite Hd.
  assert (Hhealth : bool_decide (py "/upload/" ++ uuid = py "/health") = false).
  { apply bool_decide_eq_false. discriminate. }
  assert (Hroot : bool_decide (py "/upload/" ++ uuid = py "/") = false).
  { apply bool_decide_eq_false. discriminate. }
  assert (Hfiles : bool_decide (py "/upload/" ++ uuid = py "/files") = false).
  { apply bool_decide_eq_false. discriminate. }
  assert (Hlink : bool_decide (py "/upload/" ++ uuid = UPLOAD_LINK_PATH) = false).
  { apply bool_decide_eq_false. discriminate. }
  rewrite Hhealth, Hroot, Hfiles, Hlink. cbn [orb].
  rewrite startswith_app.
  change 8%Z with (Z.of_nat (length (py "/upload/"))).
  rewrite slice_from_app, split1_absent by assumption. cbn [hd fst].
  rewrite rstrip_absent by assumption.
  unfold show_upload_page. cbn [save_tokens_json tokens_json].
  rewrite load_json_Document, lookup_insert_eq.
  cbn [token_expires token_used].
  now rewrite (proj2 (Z.ltb_ge _ _) Ht).
Qed.

(** A link made at time 0 and followed ten minutes later. *)
Lemma upload_link_leads_to_form_witness :
  let '(r, st') :=
    create_upload_link_and_redirect (py "V") 0 Scenario.two_tokens in
  r = send_redirect 302 (py "/upload/" ++ py "V")
  /\ fst (do_GET (Scenario.bare_get (py "/upload/" ++ py "V")) (minutes 10)
            (py "W") (fun _ => Ok []) st')
     = send_upload_page (py "V") (Z.quot (0 + minutes 30) 1000000).
Proof.
  apply (upload_link_leads_to_form (py "V") (py "W") 0 (minutes 10)
           (fun _ => Ok []) Scenario.two_tokens).
  - apply absent_check. vm_compute. reflexivity.
  - apply absent_check. vm_compute. reflexivity.
  - vm_compute. discriminate.
Defined.

Lemma cleanup_sessions_fold_shrinks now q n entries : forall acc,
  (foldl (cleanup_sessions_step now) acc entries).1 !! q = Some n ->
  acc.1 !! q = Some n.
Proof.
  induction entries as [|entry entries IH]; intros acc Hq; [exact Hq|].
  cbn [foldl] in Hq. apply IH in Hq.
  now apply cleanup_sessions_step_shrinks in Hq.
Qed.

Lemma cleanup_sessions_fs_shrinks now st q n :
  fs (cleanup_sessions now st) !! q = Some n -> fs st !! q = Some n.
Proof.
  unfold cleanup_sessions.
  destruct (foldl _ _ _) as [files sessions'] eqn:Hfold.
  cbn [save_sessions_json set_fs fs]. intros Hq.
  change files with (files, sessions').1 in Hq. rewrite <- Hfold in Hq.
  now apply cleanup_sessions_fold_shrinks in Hq.
Qed.

Lemma cleanup_sessions_tokens now st :
  tokens_json (cleanup_sessions now st) = tokens_json st.
Proof.
  unfold cleanup_sessions. now destruct (foldl _ _ _).
Qed.

Lemma find_in_sessions_isfile files listing filename p :
  find_in_sessions files listing filename = Some p -> FS.isfile files p = true.
Proof.
  induction listing as [|sid listing IH]; cbn [find_in_sessions]; [discriminate|].
  destruct (FS.isfile files (join _ _)) eqn:Hfile; [|exact IH].
  intros [= <-]. exact Hfile.
Qed.

Lemma makedirs_Ok files p files' :
  FS.makedirs files p = Ok files' -> files' = <[p := Dir]> files.
Proof.
  unfold FS.makedirs. destruct (files !! p) as [[|?]|]; now intros [= <-].
Qed.

Lemma copy2_Ok files src dst files' :
  FS.copy2 files src dst = Ok files' ->
  exists content,
    files !! src = Some (File content)
    /\ files' = <[dst := File content]> files.
Proof.
  unfold FS.copy2, FS.read, FS.write.
  destruct (files !! src) as [[|content]|]; cbn [rbind]; try discriminate.
  destruct (files !! dst) as [[|?]|]; try discriminate;
    intros [= <-]; now exists content.
Qed.

(** What a successful [create_share_link] has done. *)
Lemma create_share_link_done data uuid now_sweep now listdir st obj st' :
  create_share_link data uuid now_sweep now listdir st
  = (Ok (send_json obj 200), st') ->
  let filename := basename (default [] (data_filename data)) in
  let swept := cleanup_sessions now_sweep st in
  let session_dir := join SESSIONS_DIR uuid in
  exists source_path content quoted key,
    filename <> []
    /\ fs swept !! source_path = Some (File content)
    /\ quote filename [] = Ok quoted
    /\ encode_download_key uuid filename = Ok key
    /\ obj = [(py "session_id", JStr uuid);
              (py "url", JStr (DOMAIN ++ [47] ++ uuid ++ [47] ++ quoted));
              (py "short_url", JStr (DOMAIN ++ py "/d/" ++ key));
              (py "html_link",
               JStr (make_link (DOMAIN ++ py "/d/" ++ key)
                       [8211; 176; 8211; 8747; 8211; 8734; 8212; 225; 8211;
                        8734; 8212; 199; 8212; 229]));
              (py "expires", JTime (now + hours SESSION_TTL_HOURS)%Z)]
    /\ fs st' = <[join session_dir filename := File content]>
                  (<[session_dir := Dir]> (fs swept))
    /\ sessions_json st'
       = Document
           (<[uuid := {| session_created := now;
                         session_expires := (now + hours SESSION_TTL_HOURS)%Z;
                         session_description :=
                           default [] (data_description data);
                         session_files := [filename] |}]>
              (load_json (sessions_json swept)))
    /\ tokens_json st' = tokens_json st.
Proof.
  intros Hshare filename swept session_dir.
  unfold create_share_link, error_json in Hshare.
  fold filename swept session_dir in Hshare.
  destruct (is_empty filename) eqn:Hname; [discriminate|].
  assert (Hfilename : filename <> []) by (intros H; now rewrite H in Hname).
  destruct (truthy _) as [source|];
    [destruct (FS.isfile _ _); [|discriminate]
    |destruct (FS.isfile _ _);
       [|destruct (listdir _) as [listing|]; cbn [rbind] in Hshare;
           [|discriminate];
         destruct (find_in_sessions _ _ _) as [found|]; [|discriminate]]];
    (destruct (FS.makedirs _ _) as [f1|] eqn:Hmk; [|discriminate];
     destruct (FS.copy2 _ _ _) as [f2|] eqn:Hcp; [|discriminate];
     destruct (quote _ _) as [quoted|] eqn:Hq; [|discriminate];
     destruct (encode_download_key _ _) as [key|] eqn:Hkey; [|discriminate];
     injection Hshare as <- <-;
     apply makedirs_Ok in Hmk; cbn [set_fs save_sessions_json fs] in Hmk, Hcp;
     apply copy2_Ok in Hcp as (content & Hsrc & Hf2);
     subst f1 f2;
     eexists _, content, quoted, key;
     split; [exact Hfilename|];
     split;
       [match type of Hsrc with
        | _ !! ?p = _ => destruct (decide (session_dir = p)) as [Heq|Hne]
        end;
          [rewrite <- Heq, lookup_insert_eq in Hsrc; discriminate
          |rewrite lookup_insert_ne in Hsrc by exact Hne; exact Hsrc]|];
     split; [reflexivity|]; split; [reflexivity|]; split; [reflexivity|];
     split; [reflexivity|]; split; [reflexivity|];
     apply cleanup_sessions_tokens).
Qed.


(** X14.  [create_share_link] that answers with another status than 200
    has changed nothing: neither the sweep nor the registration has
    happened. *)
Theorem create_share_link_refusal_keeps_state (data : json_data)
  (uuid : list N) (now_sweep now : Z)
  (listdir : list N -> result (list (list N))) (st : state)
  (obj : list (list N * json)) (code : Z) :
  fst (create_share_link data uuid now_sweep now listdir st)
  = Ok (send_json obj code) ->
  code <> 200%Z ->
  snd (create_share_link data uuid now_sweep now listdir st) = st.
Proof.
  intros Hanswer Hcode.
  destruct (create_share_link _ _ _ _ _ _) as [r st'] eqn:Hshare.
  cbn [fst snd] in *. subst r. revert Hshare.
  unfold create_share_link, error_json.
  destruct (is_empty _); [now intros [= _ _ <-]|].
  destruct (truthy _) as [source|];
    [destruct (FS.isfile _ _); [|now intros [= _ _ <-]]
    |destruct (FS.isfile _ _);
       [|destruct (listdir _) as [listing|]; cbn [rbind]; [|discriminate];
         destruct (find_in_sessions _ _ _); [|now intros [= _ _ <-]]]];
    (destruct (FS.makedirs _ _) as [f1|]; [|discriminate];
     destruct (FS.copy2 _ _ _) as [f2|]; [|discriminate];
     destruct (quote _ _); [|discriminate];
     destruct (encode_download_key _ _); [|discriminate];
     intros [= _ Hok _]; congruence).
Qed.

(** A request that names no file. *)
Lemma create_share_link_refusal_keeps_state_witness :
  snd (create_share_link Scenario.nameless_request (py "S2") 0 0
         (fun _ => Ok []) Scenario.with_upload)
  = Scenario.with_upload.
Proof.
  apply (create_share_link_refusal_keeps_state Scenario.nameless_request
           (py "S2") 0 0 (fun _ => Ok []) Scenario.with_upload
           [(py "error", JStr (py "filename required"))] 400).
  - vm_compute. reflexivity.
  - discriminate.
Defined.

(** X15.  A successful [create_share_link] has registered the new
    session under the fresh id, with the base name of the requested
    file as its only file and an expiry twenty-four hours after the
    clock reading, and has put into its directory a copy of a file
    that was there before the call.  The tokens are as before. *)
Theorem create_share_link_registers (data : json_data) (uuid : list N)
  (now_sweep now : Z) (listdir : list N -> result (list (list N)))
  (st st' : state) (obj : list (list N * json)) :
  create_share_link data uuid now_sweep now listdir st
  = (Ok (send_json obj 200), st') ->
  let filename := basename (default [] (data_filename data)) in
  exists source_path content,
    fs st !! source_path = Some (File content)
    /\ fs st' !! join (join SESSIONS_DIR uuid) filename = Some (File content)
    /\ load_json (sessions_json st') !! uuid
       = Some {| session_created := now;
                 session_expires := (now + hours 24)%Z;
                 session_description := default [] (data_description data);
                 session_files := [filename] |}
    /\ json_get (py "session_id") obj = Some (JStr uuid)
    /\ json_get (py "expires") obj = Some (JTime (now + hours 24)%Z)
    /\ tokens_json st' = tokens_json st.
Proof.
  intros Hshare filename.
  destruct (create_share_link_done _ _ _ _ _ _ _ _ Hshare)
    as (source_path & content & quoted & key & _ & Hsrc & _ & _ & -> & Hfs
        & Hsessions & Htokens).
  exists source_path, content.
  split; [now apply cleanup_sessions_fs_shrinks in Hsrc|].
  split; [rewrite Hfs; apply lookup_insert_eq|].
  split; [rewrite Hsessions, load_json_Document; apply lookup_insert_eq|].
  split; [reflexivity|]. split; [reflexivity|]. exact Htokens.
Qed.

(** The share of the uploaded [hello_60.txt] as session [S2]. *)
Lemma create_share_link_registers_witness :
  exists source_path content,
    fs Scenario.with_upload !! source_path = Some (File content)
    /\ fs (snd (create_share_link Scenario.share_request (py "S2") 0 0
                  (fun _ => Ok []) Scenario.with_upload))
       !! join (join SESSIONS_DIR (py "S2"))
            (basename (default [] (data_filename Scenario.share_request)))
       = Some (File content)
    /\ load_json
         (sessions_json
            (snd (create_share_link Scenario.share_request (py "S2") 0 0
                    (fun _ => Ok []) Scenario.with_upload))) !! py "S2"
       = Some {| session_created := 0;
                 session_expires := (0 + hours 24)%Z;
                 session_description :=
                   default [] (data_description Scenario.share_request);
                 session_files :=
                   [basename
                      (default [] (data_filename Scenario.share_request))] |}
    /\ json_get (py "session_id") Scenario.share_answer
       = Some (JStr (py "S2"))
    /\ json_get (py "expires") Scenario.share_answer
       = Some (JTime (0 + hours 24)%Z)
    /\ tokens_json
         (snd (create_share_link Scenario.share_request (py "S2") 0 0
                 (fun _ => Ok []) Scenario.with_upload))
       = tokens_json Scenario.with_upload.
Proof.
  apply (create_share_link_registers Scenario.share_request (py "S2") 0 0
           (fun _ => Ok []) Scenario.with_upload).
  vm_compute. reflexivity.
Defined.



(** X17.  The name under which an upload is stored is made from the
    request and the two readings of [int(time.time())] alone: whenever
    an upload of a request has succeeded, every other successful upload
    of the same request at the same readings, with whatever token and
    whatever files in the uploads area, is answered with the same
    name. *)
Theorem upload_name_ignores_token_and_files (token token' : list N)
  (req : request) (now now' t1 t2 : Z) (st1 st1' st2 : state)
  (obj : list (list N * json)) :
  handle_upload token req now t1 t2 st1 = (Ok (send_json obj 200), st1') ->
  (exists obj' st2',
     handle_upload token' req now' t1 t2 st2
     = (Ok (send_json obj' 200), st2')) ->
  fst (handle_upload token' req now' t1 t2 st2) = Ok (send_json obj 200).
Proof.
  intros Hfirst (obj' & st2' & Hsecond). rewrite Hsecond. cbn [fst].
  now rewrite (upload_name_determined _ _ _ _ _ _ _ _ _ _ _ _ _
                 Hfirst Hsecond).
Qed.

(** Two uploads of [a.txt] in the same second, with the tokens [T] and
    [U]. *)
Lemma upload_name_ignores_token_and_files_witness :
  fst (handle_upload (py "U")
         (Scenario.upload_request (py "a.txt") (py "one"))
         60500000 60 60 Scenario.two_tokens)
  = Ok (send_json [(py "success", JBool true);
                   (py "filename", JStr (py "a_60.txt"))] 200).
Proof.
  apply (upload_name_ignores_token_and_files (py "T") (py "U")
           (Scenario.upload_request (py "a.txt") (py "one"))
           60000000 60500000 60 60 Scenario.two_tokens
           (snd (handle_upload (py "T")
                   (Scenario.upload_request (py "a.txt") (py "one"))
                   60000000 60 60 Scenario.two_tokens))
           Scenario.two_tokens).
  - vm_compute. reflexivity.
  - eexists _, _. vm_compute. reflexivity.
Defined.

End FilesServerMore.

(** * Further properties of unified_server.py *)

Section UnifiedMore.
Import Py PyFacts UnifiedServer.
Local Open Scope N_scope.

(** The upload of [hello.txt] with the pending token [T], and a second
    upload with the same token a second later. *)
Lemma unified_upload_token_single_use_witness :
  do_POST_upload basename (py "T")
    (Scenario.upload_request (py "again.txt") (py "x"))
    61000000 61 61 61500000
    (snd (do_POST_upload basename (py "T")
            (Scenario.upload_request (py "hello.txt") (py "0123456789"))
            60000000 60 60 60500000 Scenario.unified_state))
  = (Ok (error_json (py "Token expired or used") 400),
     snd (do_POST_upload basename (py "T")
            (Scenario.upload_request (py "hello.txt") (py "0123456789"))
            60000000 60 60 60500000 Scenario.unified_state)).
Proof.
  apply (unified_upload_token_single_use basename (py "T")
           (Scenario.upload_request (py "hello.txt") (py "0123456789"))
           60000000 60 60 60500000 Scenario.unified_state _
           [(py "success", JBool true);
            (py "filename", JStr (py "hello_60.txt"))]).
  vm_compute. reflexivity.
Defined.

(** X19.  A token that [/api/create_token] of unified_server.py has
    issued opens the upload form: a GET of [/upload/<token>], at any
    time up to thirty minutes after the issue, shows the form with the
    expiry of the token in seconds, and changes nothing. *)
Theorem unified_token_opens_form (req : request)
  (description uuid : list N) (now_sweep now t : Z) (st st' : state)
  (r : response) :
  do_POST_create_token req description uuid now_sweep now st = (Ok r, st') ->
  (47 ∉ uuid) -> (63 ∉ uuid) -> (t <= now + minutes 30)%Z ->
  do_GET (py "/upload/" ++ uuid) t st'
  = (Ok (send_upload_form (Z.quot (now + minutes 30) 1000000)), st').
Proof.
  intros Hcreate Hslash Hquery Ht. revert Hcreate.
  unfold do_POST_create_token.
  destruct (int_header _) as [n|]; [|discriminate].
  destruct (cleanup_expired_tokens now_sweep st) as [[u|e] st1];
    [|discriminate].
  destruct (load_tokens st1) as [tokens|]; [|discriminate].
  intros [= <- <-].
  unfold do_GET.
  rewrite bool_decide_eq_false_2 by discriminate.
  rewrite startswith_app.
  change 8%Z with (Z.of_nat (length (py "/upload/"))).
  rewrite slice_from_app, split1_absent by assumption. cbn [hd].
  rewrite rstrip_absent by assumption.
  unfold upload_page, load_tokens.
  cbn [save_tokens tokens_json document_exists open_json_load rbind].
  rewrite lookup_insert_eq. cbn [token_expires token_used token_expires_ts].
  change TOKEN_TTL_MINUTES with 30%Z.
  now rewrite (proj2 (Z.ltb_ge _ _) Ht).
Qed.

(** A token issued at time 0, its page fetched ten minutes later. *)
Lemma unified_token_opens_form_witness :
  do_GET (py "/upload/" ++ py "V") (minutes 10)
    (snd (do_POST_create_token Scenario.plain_request (py "t") (py "V") 0 0
            Scenario.unified_state))
  = (Ok (send_upload_form (Z.quot (0 + minutes 30) 1000000)),
     snd (do_POST_create_token Scenario.plain_request (py "t") (py "V") 0 0
            Scenario.unified_state)).
Proof.
  eapply (unified_token_opens_form Scenario.plain_request (py "t") (py "V")
            0 0 (minutes 10) Scenario.unified_state).
  - vm_compute. reflexivity.
  - apply absent_check. vm_compute. reflexivity.
  - apply absent_check. vm_compute. reflexivity.
  - vm_compute. discriminate.
Defined.

(** A multipart request that names no boundary. *)
Lemma unified_boundary_missing_raises_witness :
  do_POST_upload basename (py "T") Scenario.boundless_request
    60000000 60 60 60500000 Scenario.unified_state
  = (Raise IndexError, Scenario.unified_state).
Proof.
  apply (unified_boundary_missing_raises basename (py "T")
           {[ py "T" := Scenario.unified_token ]} Scenario.unified_token
           Scenario.boundless_request 60000000 60 60 60500000
           Scenario.unified_state 10).
  - reflexivity.
  - vm_compute. reflexivity.
  - vm_compute. discriminate.
  - reflexivity.
  - reflexivity.
  - vm_compute. discriminate.
  - vm_compute. reflexivity.
  - vm_compute. reflexivity.
Defined.

(** The session [S], which expired at time 1000, swept at time 2000. *)
Lemma unified_sweep_removes_directory_witness :
  FS.exists_ (fs (snd (cleanup_expired_sessions 2000 Scenario.unified_state)))
    (join SESSIONS_DIR (py "S")) = false
  /\ exists sessions',
       load_sessions (snd (cleanup_expired_sessions 2000 Scenario.unified_state))
       = Ok sessions'
       /\ sessions' !! py "S" = None.
Proof.
  apply (unified_sweep_removes_directory 2000 Scenario.unified_state _
           {[ py "S" := Scenario.old_session ]} (py "S") Scenario.old_session).
  - reflexivity.
  - vm_compute. reflexivity.
  - vm_compute. reflexivity.
  - vm_compute. reflexivity.
Defined.

Lemma foldl_delete_lookup {A : Type} (l : list (list N)) : forall
  (m : gmap (list N) A) k d,
  foldl (fun m sid => delete sid m) m l !! k = Some d ->
  m !! k = Some d /\ k ∉ l.
Proof.
  induction l as [|x l IH]; intros m k d Hk; cbn [foldl] in Hk.
  - split; [exact Hk|apply not_elem_of_nil].
  - apply IH in Hk as [Hk Hl]. rewrite lookup_delete in Hk.
    case_decide as Hx; [discriminate|]. split; [exact Hk|].
    apply not_elem_of_cons. split; [congruence|exact Hl].
Qed.

Lemma foldl_delete_keeps {A : Type} (l : list (list N)) : forall
  (m : gmap (list N) A) k,
  k ∉ l -> foldl (fun m sid => delete sid m) m l !! k = m !! k.
Proof.
  induction l as [|x l IH]; intros m k Hk; cbn [foldl]; [reflexivity|].
  apply not_elem_of_cons in Hk as [Hx Hl].
  rewrite IH by exact Hl. apply lookup_delete_ne. congruence.
Qed.

Lemma remove_expired_sound now entries : forall files expired r files',
  remove_expired now entries files expired = (Ok r, files') ->
  forall sid, sid ∈ r ->
    sid ∈ expired
    \/ exists data, (sid, data) ∈ entries /\ (session_expires data < now)%Z.
Proof.
  induction entries as [|[sid0 data0] entries IH];
    intros files expired r files'; cbn [remove_expired].
  - intros [= <- <-] sid Hsid. now left.
  - destruct (Z.ltb_spec (session_expires data0) now) as [Hexp0|Hexp0].
    + destruct (if FS.exists_ files _ then _ else _) as [files1|];
        [|discriminate].
      intros Hrec sid Hsid.
      destruct (IH _ _ _ _ Hrec sid Hsid) as [Hin|(data & Hin & Hexp)].
      * apply elem_of_app in Hin as [Hin|Hin]; [now left|].
        apply list_elem_of_singleton in Hin as ->.
        right. exists data0. split; [now left|exact Hexp0].
      * right. exists data. split; [now right|exact Hexp].
    + intros Hrec sid Hsid.
      destruct (IH _ _ _ _ Hrec sid Hsid) as [Hin|(data & Hin & Hexp)];
        [now left|].
      right. exists data. split; [now right|exact Hexp].
Qed.

(** X22.  The page of [list_sessions] in unified_server.py shows the
    sessions of the registry that are not past their expiry at the
    sweep it begins with, each with its entry unchanged, and no
    other. *)
Theorem unified_list_shows_the_live (now : Z) (st st' : state)
  (shown : gmap (list N) Session) :
  list_sessions now st = (Ok (send_sessions_page shown), st') ->
  exists sessions,
    load_sessions st = Ok sessions
    /\ forall sid data,
         shown !! sid = Some data
         <-> sessions !! sid = Some data /\ (now <= session_expires data)%Z.
Proof.
  unfold list_sessions, cleanup_expired_sessions.
  destruct (load_sessions st) as [sessions|] eqn:Hload; [|discriminate].
  destruct (remove_expired _ _ _ _) as [[expired|] files] eqn:Hrm;
    [|discriminate].
  destruct (remove_expired_spec _ _ _ _ _ _ Hrm) as (_ & _ & Hdrop).
  pose proof (remove_expired_sound _ _ _ _ _ _ Hrm) as Hsound.
  intros Hpage. exists sessions. split; [reflexivity|].
  assert (Hshown : shown = foldl (fun m sid => delete sid m) sessions expired).
  { destruct expired as [|x expired]; cbn [is_empty] in Hpage.
    - change (load_sessions (set_fs files st)) with (load_sessions st) in Hpage.
      rewrite Hload in Hpage. cbn [rbind] in Hpage.
      destruct (quote_names _); cbn [rbind] in Hpage; [|discriminate].
      now injection Hpage as <- _.
    - change (load_sessions (save_sessions ?m _))
        with (Ok (A:=gmap (list N) Session) m) in Hpage.
      cbn [rbind] in Hpage.
      destruct (quote_names _); cbn [rbind] in Hpage; [|discriminate].
      now injection Hpage as <- _. }
  subst shown. intros sid data. split.
  - intros Hsid. apply foldl_delete_lookup in Hsid as [Hsid Hout].
    split; [exact Hsid|].
    destruct (Z.le_gt_cases now (session_expires data)) as [Hle|Hgt];
      [exact Hle|].
    destruct (Hdrop sid data) as [Hin _];
      [now apply elem_of_map_to_list|lia|contradiction].
  - intros [Hsid Hlive]. rewrite foldl_delete_keeps; [exact Hsid|].
    intros Hin. destruct (Hsound sid Hin) as [Hnil|(data' & Hin' & Hexp)].
    + now apply elem_of_nil in Hnil.
    + apply elem_of_map_to_list in Hin'.
      assert (data' = data) as -> by congruence. lia.
Qed.

(** The session [S], due at time 1000, listed at time 500. *)
Lemma unified_list_shows_the_live_witness :
  exists sessions,
    load_sessions Scenario.unified_state = Ok sessions
    /\ forall sid data,
         ({[ py "S" := Scenario.old_session ]} : gmap (list N) Session)
           !! sid = Some data
         <-> sessions !! sid = Some data /\ (500 <= session_expires data)%Z.
Proof.
  apply (unified_list_shows_the_live 500 Scenario.unified_state
           (snd (list_sessions 500 Scenario.unified_state))).
  vm_compute. reflexivity.
Defined.

End UnifiedMore.

(** * Further properties of file_server.py *)

Section FileServerMore.
Import Py PyFacts FileServer.
Local Open Scope N_scope.


(** X24.  [create_session] of file_server.py, when it returns, returns
    the fresh id; the session has its directory, an entry that expires
    twenty-four hours after the clock reading taken for it, and an
    empty file list, also when the registry held an entry under that id
    before. *)
Theorem create_session_opens_empty (description uuid : list N)
  (now t_created t_expires : Z) (st st' : state) (sid : list N) :
  create_session description uuid now t_created t_expires st = (Ok sid, st') ->
  sid = uuid
  /\ FS.exists_ (fs st') (join SESSIONS_DIR uuid) = true
  /\ list_session_files uuid st' = Ok (Some [])
  /\ exists sessions',
       load_sessions st' = Ok sessions'
       /\ sessions' !! uuid
          = Some {| session_created := t_created;
                    session_expires := (t_expires + hours 24)%Z;
                    session_description := description;
                    session_files := [] |}.
Proof.
  unfold create_session.
  destruct (cleanup_expired_sessions now st) as [[u|e] st1]; [|discriminate].
  destruct (FS.makedirs _ _) as [files|] eqn:Hmk; [|discriminate].
  apply makedirs_Ok in Hmk. subst files.
  destruct (load_sessions (set_fs _ st1)) as [sessions|]; [|discriminate].
  intros [= <- <-]. split; [reflexivity|].
  split.
  { unfold FS.exists_. cbn [save_sessions set_fs fs].
    now rewrite lookup_insert_eq. }
  unfold list_session_files, load_sessions.
  cbn [save_sessions sessions_json open_json_load rbind].
  rewrite lookup_insert_eq. split; [reflexivity|].
  eexists. split; [reflexivity|]. apply lookup_insert_eq.
Qed.

(** The session [N1], opened at time 0. *)
Lemma create_session_opens_empty_witness :
  py "N1" = py "N1"
  /\ FS.exists_
       (fs (snd (create_session (py "demo") (py "N1") 0 0 0
                   Scenario.with_open_session)))
       (join SESSIONS_DIR (py "N1")) = true
  /\ list_session_files (py "N1")
       (snd (create_session (py "demo") (py "N1") 0 0 0
               Scenario.with_open_session))
     = Ok (Some [])
  /\ exists sessions',
       load_sessions
         (snd (create_session (py "demo") (py "N1") 0 0 0
                 Scenario.with_open_session))
       = Ok sessions'
       /\ sessions' !! py "N1"
          = Some {| session_created := 0;
                    session_expires := (0 + hours 24)%Z;
                    session_description := py "demo";
                    session_files := [] |}.
Proof.
  apply (create_session_opens_empty (py "demo") (py "N1") 0 0 0
           Scenario.with_open_session).
  vm_compute. reflexivity.
Defined.

Lemma is_empty_false {A : Type} (l : list A) : l <> [] -> is_empty l = false.
Proof. now destruct l. Qed.






End FileServerMore.

(** * Further properties of file_share_server.py *)

Section FileShareMore.
Import Py PyFacts FileShareServer.
Local Open Scope N_scope.

(** [report.pdf] registered in the open session [S]. *)
Lemma register_file_keeps_NoDup_witness :
  exists sessions' data',
    FileShareServer.load_sessions
      (snd (FileShareServer.register_file (py "S") (py "report.pdf")
              Scenario.share_state))
    = Ok sessions'
    /\ sessions' !! py "S" = Some data'
    /\ NoDup (session_files data')
    /\ py "report.pdf" ∈ session_files data'.
Proof.
  apply (register_file_keeps_NoDup (py "S") (py "report.pdf")
           Scenario.share_state _ {[ py "S" := Scenario.open_session ]}
           Scenario.open_session).
  - reflexivity.
  - vm_compute. reflexivity.
  - apply NoDup_nil_2.
  - vm_compute. reflexivity.
Defined.

Lemma share_remove_expired_eq now entries : forall files expired,
  remove_expired now entries files expired
  = UnifiedServer.remove_expired now entries files expired.
Proof.
  induction entries as [|[sid data] entries IH]; intros files expired;
    [reflexivity|].
  cbn [remove_expired UnifiedServer.remove_expired].
  destruct (_ <? _)%Z; [|apply IH].
  change (join UnifiedServer.SESSIONS_DIR sid) with (join SESSIONS_DIR sid).
  destruct (if FS.exists_ files _ then _ else _); [apply IH|reflexivity].
Qed.

Lemma share_sweep_removes now st n st' sessions sid data :
  load_sessions st = Ok sessions ->
  sessions !! sid = Some data ->
  (session_expires data < now)%Z ->
  cleanup_expired_sessions now st = (Ok n, st') ->
  FS.exists_ (fs st') (join SESSIONS_DIR sid) = false
  /\ exists sessions',
       load_sessions st' = Ok sessions' /\ sessions' !! sid = None.
Proof.
  intros Hload Hdata Hexp. unfold cleanup_expired_sessions. rewrite Hload.
  rewrite share_remove_expired_eq.
  destruct (UnifiedServer.remove_expired _ _ _ _) as [[expired|] files] eqn:Hrm;
    [|discriminate].
  destruct (remove_expired_spec _ _ _ _ _ _ Hrm) as (_ & _ & Hdrop).
  destruct (Hdrop sid data) as [Hin Hgone];
    [now apply elem_of_map_to_list|assumption|].
  destruct expired as [|x expired]; [now apply elem_of_nil in Hin|].
  cbn [is_empty]. intros [= _ <-]. split.
  - unfold FS.exists_. cbn [save_sessions set_fs fs].
    change (join SESSIONS_DIR sid) with (join UnifiedServer.SESSIONS_DIR sid).
    now rewrite Hgone.
  - exists (foldl (fun m sid => delete sid m) sessions (x :: expired)).
    split; [reflexivity|]. apply foldl_delete_gone. now left.
Qed.

(** X28.  No file is put into an expired session: [call_tool] sweeps
    before it serves [share_file], so a call that names a session past
    its expiry ends with the text of an exception, with [Error: File
    not found] or with [Error: Session not found], and in the last two
    cases the session has neither directory nor entry left. *)
Theorem share_file_into_expired_session (file_path sid : list N)
  (description : option (list N)) (uuid : list N) (now t_created t_expires : Z)
  (st : state) (sessions : gmap (list N) Session) (data : Session) :
  load_sessions st = Ok sessions ->
  sessions !! sid = Some data ->
  (session_expires data < now)%Z ->
  sid <> [] ->
  let '(answer, st') :=
    call_tool (share_file file_path (Some sid) description) uuid now
      t_created t_expires st in
  (exists e, answer = error_text e)
  \/ ((answer = text (py "Error: File not found: " ++ file_path)
       \/ answer = text (py "Error: Session not found: " ++ sid))
      /\ FS.exists_ (fs st') (join SESSIONS_DIR sid) = false
      /\ exists sessions',
           load_sessions st' = Ok sessions' /\ sessions' !! sid = None).
Proof.
  intros Hload Hdata Hexp Hsid. unfold call_tool.
  destruct (cleanup_expired_sessions now st) as [[n|e] st1] eqn:Hsweep;
    [|left; now exists e].
  destruct (share_sweep_removes _ _ _ _ _ _ _ Hload Hdata Hexp Hsweep)
    as [Hdir Hgone].
  unfold tool_share_file.
  destruct (FS.exists_ (fs st1) file_path); cbn [negb].
  - rewrite (is_empty_false sid Hsid), Hdir. cbn [negb].
    right. split; [now right|]. now split.
  - right. split; [now left|]. now split.
Qed.

(** The session [S], due after twenty-four hours, named an hour
    later. *)
Lemma share_file_into_expired_session_witness :
  let '(answer, st') :=
    FileShareServer.call_tool
      (FileShareServer.share_file (py "/tmp/report.pdf") (Some (py "S")) None)
      (py "N1") (hours 25) (hours 25) (hours 25) Scenario.share_state in
  (exists e, answer = FileShareServer.error_text e)
  \/ ((answer
       = FileShareServer.text
           (py "Error: File not found: " ++ py "/tmp/report.pdf")
       \/ answer
          = FileShareServer.text (py "Error: Session not found: " ++ py "S"))
      /\ FS.exists_ (FileShareServer.fs st')
           (join FileShareServer.SESSIONS_DIR (py "S")) = false
      /\ exists sessions',
           FileShareServer.load_sessions st' = Ok sessions'
           /\ sessions' !! py "S" = None).
Proof.
  apply (share_file_into_expired_session (py "/tmp/report.pdf") (py "S") None
           (py "N1") (hours 25) (hours 25) (hours 25) Scenario.share_state
           {[ py "S" := Scenario.open_session ]} Scenario.open_session).
  - reflexivity.
  - vm_compute. reflexivity.
  - vm_compute. reflexivity.
  - discriminate.
Defined.

(** X29.  [share_file] without a session id, when it answers with a
    link, has opened a session under the fresh id, put a copy of the
    file into its directory under the base name of the path, and
    entered that name as the only file of the session; the link is the
    one [build_download_url] makes for them. *)
Theorem share_file_new_session (file_path : list N)
  (description : option (list N)) (uuid : list N) (t_created t_expires : Z)
  (st st' : FileShareServer.state) (url : list N) :
  FileShareServer.tool_share_file file_path None description uuid
    t_created t_expires st
  = (Ok (FileShareServer.text
           (FileShareServer.make_link url FileShareServer.download_label)),
     st') ->
  let filename := basename file_path in
  exists content sessions',
    FileShareServer.fs st !! file_path = Some (File content)
    /\ FileShareServer.fs st'
       !! join (join FileShareServer.SESSIONS_DIR uuid) filename
       = Some (File content)
    /\ FileShareServer.load_sessions st' = Ok sessions'
    /\ sessions' !! uuid
       = Some {| session_created := t_created;
                 session_expires := (t_expires + hours 24)%Z;
                 session_description :=
                   default (py "Shared file: " ++ filename) description;
                 session_files := [filename] |}
    /\ FileShareServer.build_download_url uuid filename = Ok url.
Proof.
  intros Hshare filename. revert Hshare.
  unfold FileShareServer.tool_share_file. fold filename.
  destruct (FS.exists_ _ file_path); cbn [negb]; [|discriminate].
  unfold FileShareServer.new_session.
  destruct (FS.makedirs _ _) as [f1|] eqn:Hmk; [|discriminate].
  apply makedirs_Ok in Hmk. subst f1.
  destruct (FileShareServer.load_sessions (FileShareServer.set_fs _ st))
    as [sessions|]; [|discriminate].
  cbn [FileShareServer.save_sessions FileShareServer.set_fs FileShareServer.fs].
  unfold FS.exists_ at 1. rewrite lookup_insert_eq. cbn [negb].
  destruct (FS.copy2 _ _ _) as [f2|] eqn:Hcp; [|discriminate].
  apply copy2_Ok in Hcp as (content & Hsrc & ->).
  unfold FileShareServer.register_file, FileShareServer.load_sessions.
  cbn [FileShareServer.save_sessions FileShareServer.set_fs
       FileShareServer.sessions_json open_json_load].
  rewrite lookup_insert_eq. unfold str_in. cbn [session_files].
  rewrite bool_decide_eq_false_2 by apply not_elem_of_nil. cbn [negb].
  destruct (FileShareServer.build_download_url _ _) as [url'|] eqn:Hurl;
    [|discriminate].
  intros [= Hlink <-].
  exists content. eexists.
  split.
  { destruct (decide (join FileShareServer.SESSIONS_DIR uuid = file_path))
      as [Heq|Hne].
    - rewrite Heq, lookup_insert_eq in Hsrc. discriminate.
    - now rewrite lookup_insert_ne in Hsrc by exact Hne. }
  split; [apply lookup_insert_eq|].
  split; [reflexivity|].
  split.
  { rewrite insert_insert_eq. apply lookup_insert_eq. }
  f_equal. now apply app_inv_tail in Hlink.
Qed.

(** [/tmp/report.pdf] shared into the new session [N1]. *)
Lemma share_file_new_session_witness :
  exists content sessions',
    FileShareServer.fs Scenario.share_state !! py "/tmp/report.pdf"
    = Some (File content)
    /\ FileShareServer.fs
         (snd (FileShareServer.tool_share_file (py "/tmp/report.pdf") None
                 None (py "N1") 0 0 Scenario.share_state))
       !! join (join FileShareServer.SESSIONS_DIR (py "N1"))
            (basename (py "/tmp/report.pdf"))
       = Some (File content)
    /\ FileShareServer.load_sessions
         (snd (FileShareServer.tool_share_file (py "/tmp/report.pdf") None
                 None (py "N1") 0 0 Scenario.share_state))
       = Ok sessions'
    /\ sessions' !! py "N1"
       = Some {| session_created := 0;
                 session_expires := (0 + hours 24)%Z;
                 session_description :=
                   default
                     (py "Shared file: " ++ basename (py "/tmp/report.pdf"))
                     None;
                 session_files := [basename (py "/tmp/report.pdf")] |}
    /\ FileShareServer.build_download_url (py "N1")
         (basename (py "/tmp/report.pdf"))
       = Ok (py "https://files.netwize.work/d/TjEvcmVwb3J0LnBkZg").
Proof.
  apply (share_file_new_session (py "/tmp/report.pdf") None (py "N1") 0 0
           Scenario.share_state).
  vm_compute. reflexivity.
Defined.

Lemma key_char_safe v : v < 64 -> always_safe (key_char v) = true /\ key_char v <> 61.
Proof.
  intros Hv.
  apply (sextets_check
           (fun v => always_safe (key_char v) && negb (key_char v =? 61)))
    in Hv; [|vm_compute; reflexivity].
  apply andb_true_iff in Hv as [H1 H2].
  apply negb_true_iff, N.eqb_neq in H2. now split.
Qed.

Lemma urlsafe_b64encode_safe b :
  Forall (fun x => x < 256) b ->
  exists body k,
    urlsafe_b64encode b = body ++ replicate k 61
    /\ Forall (fun c => always_safe c = true /\ c <> 61) body.
Proof.
  induction b as [|b1|b1 b2|b1 b2 b3 rest IH] using list_ind3; intros Hb.
  - exists [], 0%nat. split; [reflexivity|constructor].
  - apply Forall_cons in Hb as [H1 _].
    exists [key_char (b1 / 4); key_char ((b1 mod 4) * 16)], 2%nat.
    split; [reflexivity|].
    repeat constructor; apply key_char_safe; lia.
  - apply Forall_cons in Hb as [H1 Hb]. apply Forall_cons in Hb as [H2 _].
    exists [key_char (b1 / 4); key_char ((b1 mod 4) * 16 + b2 / 16);
            key_char ((b2 mod 16) * 4)], 1%nat.
    split; [reflexivity|].
    repeat constructor; apply key_char_safe; lia.
  - apply Forall_cons in Hb as [H1 Hb]. apply Forall_cons in Hb as [H2 Hb].
    apply Forall_cons in Hb as [H3 Hb].
    destruct (IH Hb) as (body & k & Henc & Hbody).
    exists (key_char (b1 / 4) :: key_char ((b1 mod 4) * 16 + b2 / 16)
            :: key_char ((b2 mod 16) * 4 + b3 / 64) :: key_char (b3 mod 64)
            :: body), k.
    rewrite urlsafe_b64encode_triple, Henc. split; [reflexivity|].
    repeat (apply Forall_cons; split; [apply key_char_safe; lia|]).
    assumption.
Qed.

Lemma always_safe_ascii c : always_safe c = true -> c < 128.
Proof.
  intros H. destruct (N.lt_ge_cases c 128) as [Hlt|Hge]; [exact Hlt|].
  unfold always_safe in H.
  rewrite !in_range_false in H by lia. cbn [existsb orb] in H.
  rewrite (proj2 (N.eqb_neq c 95)), (proj2 (N.eqb_neq c 46)),
    (proj2 (N.eqb_neq c 45)), (proj2 (N.eqb_neq c 126)) in H by lia.
  discriminate.
Qed.

Lemma utf8_encode_ascii l : Forall (fun c => c < 128) l -> utf8_encode l = Ok l.
Proof.
  induction 1 as [|c l Hc _ IH]; [reflexivity|].
  cbn [utf8_encode]. unfold utf8_encode_char.
  destruct (N.ltb_spec c 128) as [_|Hge]; [|lia].
  now rewrite IH.
Qed.

Lemma quote_safe_id l safe :
  Forall (fun c => always_safe c = true) l -> quote l safe = Ok l.
Proof.
  intros Hl. unfold quote. rewrite utf8_encode_ascii.
  2: { eapply Forall_impl; [exact Hl|]. intros c. apply always_safe_ascii. }
  cbn [rbind]. f_equal.
  induction Hl as [|c l Hc _ IH]; [reflexivity|].
  cbn [List.map concat]. unfold quote_byte at 1. rewrite Hc. cbn [orb app].
  now rewrite IH.
Qed.

Lemma encode_download_key_safe s f key :
  FilesServer.encode_download_key s f = Ok key ->
  Forall (fun c => always_safe c = true) key.
Proof.
  unfold FilesServer.encode_download_key.
  destruct (utf8_encode _) as [raw|] eqn:Hraw; cbn [rbind]; [|discriminate].
  pose proof (utf8_encode_range _ _ Hraw) as Hrange.
  destruct (urlsafe_b64encode_safe raw Hrange) as (body & k & Henc & Hbody).
  rewrite ascii_decode_id.
  2: { rewrite Henc. apply Forall_app. split.
       - eapply Forall_impl; [exact Hbody|]. intros c [Hc _].
         now apply always_safe_ascii.
       - apply Forall_replicate. lia. }
  cbn [rbind]. rewrite Henc, rstrip_padding.
  2: { eapply Forall_impl; [exact Hbody|]. now intros c [_ Hc]. }
  intros [= <-]. eapply Forall_impl; [exact Hbody|]. now intros c [Hc _].
Qed.

(** The two servers build the key in the same way. *)
Lemma build_download_key_eq s f :
  FileShareServer.build_download_key s f = FilesServer.encode_download_key s f.
Proof. reflexivity. Qed.

Lemma always_safe_not_in c chars :
  forallb (fun x => negb (always_safe x)) chars = true ->
  always_safe c = true -> existsb (N.eqb c) chars = false.
Proof.
  intros Hchars Hc. induction chars as [|x chars IH]; [reflexivity|].
  cbn [forallb] in Hchars. apply andb_true_iff in Hchars as [Hx Hchars].
  cbn [existsb]. rewrite (IH Hchars), orb_false_r.
  apply N.eqb_neq. intros ->. rewrite Hc in Hx. discriminate.
Qed.

Lemma drop_while_head (p : N -> bool) l :
  match l with [] => True | x :: _ => p x = false end -> drop_while p l = l.
Proof. destruct l as [|x l]; [reflexivity|]. cbn [drop_while]. now intros ->. Qed.

Lemma strip_clean chars l :
  Forall (fun x => existsb (N.eqb x) chars = false) l -> strip chars l = l.
Proof.
  intros Hl. unfold strip, lstrip, rstrip.
  rewrite (drop_while_head _ l) by (destruct Hl; trivial).
  rewrite drop_while_head; [apply rev_involutive|].
  apply Forall_rev in Hl. destruct Hl; trivial.
Qed.

(** X30.  The link that file_share_server.py makes for a session and a
    file, both not empty and without ['/'], is one that files_server.py
    opens: its path is [/d/<key>], and a GET of that path is answered
    with the bridge page of that very session and file, and changes
    nothing. *)
Theorem share_link_opens_in_files_server (s f url : list N) :
  s <> [] -> f <> [] -> 47 ∉ s -> 47 ∉ f ->
  FileShareServer.build_download_url s f = Ok url ->
  exists key safe_sid safe_name,
    url = FileShareServer.DOMAIN ++ py "/d/" ++ key
    /\ quote s [] = Ok safe_sid
    /\ quote f [] = Ok safe_name
    /\ forall now uuid listdir st,
         FilesServer.do_GET (Scenario.bare_get (py "/d/" ++ key)) now uuid
           listdir st
         = (send_bridge_page ([47] ++ safe_sid ++ [47] ++ safe_name) f, st).
Proof.
  intros Hs Hf Hsep_s Hsep_f. unfold FileShareServer.build_download_url.
  rewrite build_download_key_eq.
  destruct (FilesServer.encode_download_key s f) as [key|] eqn:Hkey;
    cbn [rbind]; [|discriminate].
  pose proof (encode_download_key_safe _ _ _ Hkey) as Hsafe.
  rewrite (quote_safe_id _ _ Hsafe). cbn [rbind]. intros [= <-].
  pose proof (decode_encoded_key s f key Hs Hf Hsep_s Hsep_f Hkey) as Hdec.
  destruct (decode_download_key_encodable _ _ _ Hdec) as [Hes Hef].
  destruct (quote_total s [] Hes) as [safe_sid Hq1].
  destruct (quote_total f [] Hef) as [safe_name Hq2].
  exists key, safe_sid, safe_name.
  split; [reflexivity|]. split; [exact Hq1|]. split; [exact Hq2|].
  intros now uuid listdir st.
  unfold FilesServer.do_GET, FilesServer.do_GET_try.
  cbn [Scenario.bare_get get_path]. rewrite startswith_app.
  change 3%Z with (Z.of_nat (length (py "/d/"))).
  rewrite slice_from_app, split1_absent.
  2: { intros Hin. rewrite Forall_forall in Hsafe.
       specialize (Hsafe _ Hin). discriminate. }
  cbn [hd]. rewrite strip_clean.
  2: { eapply Forall_impl; [exact Hsafe|]. intros c.
       apply always_safe_not_in. vm_compute. reflexivity. }
  destruct key as [|c key'] eqn:Hk; [discriminate Hdec|]. cbn [is_empty].
  rewrite <- Hk in *. unfold FilesServer.show_download_bridge.
  now rewrite Hdec, Hq1, Hq2.
Qed.

(** The link to [report.pdf] in the session [3f2a]. *)
Lemma share_link_opens_in_files_server_witness :
  exists key safe_sid safe_name,
    py "https://files.netwize.work/d/M2YyYS9yZXBvcnQucGRm"
    = FileShareServer.DOMAIN ++ py "/d/" ++ key
    /\ quote (py "3f2a") [] = Ok safe_sid
    /\ quote (py "report.pdf") [] = Ok safe_name
    /\ forall now uuid listdir st,
         FilesServer.do_GET (Scenario.bare_get (py "/d/" ++ key)) now uuid
           listdir st
         = (send_bridge_page ([47] ++ safe_sid ++ [47] ++ safe_name)
              (py "report.pdf"), st).
Proof.
  apply (share_link_opens_in_files_server (py "3f2a") (py "report.pdf")).
  - discriminate.
  - discriminate.
  - apply absent_check. vm_compute. reflexivity.
  - apply absent_check. vm_compute. reflexivity.
  - vm_compute. reflexivity.
Defined.

End FileShareMore.
